(** * serve_cors.py: a static file server with permissive CORS headers

    Shallow embedding of [serve_cors.py] and of the parts of the CPython 3.11
    standard library it is built from by subclassing and by calls:
    [http.server.BaseHTTPRequestHandler],
    [http.server.SimpleHTTPRequestHandler], [socketserver.TCPServer] and the
    [argparse] options declared in [main].

    Conventions.
    - A Python [str] whose code points are below 256 and a Python [bytes] are
      both a [string] (one [ascii] per code point or byte).
    - A handler instance is a record; its methods are computations in a small
      state-and-exception monad over that record.
    - The method [end_headers] is overridden by the repository's class and is
      called through [self] by the library, so the library code is written
      over a variable for it (open recursion) and instantiated twice.
    - What the operating system, the clock and the locale decide is read from
      a [platform] record and a [filesystem] record. *)

From Stdlib Require Import String Ascii List ZArith NArith Bool Lia.
From Stdlib Require Import DecimalString.
From Stdlib Require DecimalPos.
Import ListNotations.

Local Open Scope Z_scope.
Local Open Scope string_scope.

(* ================================================================= *)
(** ** Python string primitives *)

Module Py.

Definition chars : string -> list ascii := list_ascii_of_string.
Definition str : list ascii -> string := string_of_list_ascii.

Definition chr (n : N) : string := String (ascii_of_N n) EmptyString.

Definition CR : string := chr 13.
Definition LF : string := chr 10.
Definition CRLF : string := CR ++ LF.
Definition DQUOTE : string := chr 34.
Definition slash : ascii := ascii_of_N 47.

(** [str.isspace] on the code points below 256. *)
Definition isspace (c : ascii) : bool :=
  let n := N_of_ascii c in
  (((9 <=? n) && (n <=? 13)) || ((28 <=? n) && (n <=? 32))
   || (n =? 133) || (n =? 160))%N.

Definition lower_char (c : ascii) : ascii :=
  let n := N_of_ascii c in
  if (((65 <=? n) && (n <=? 90))
      || ((192 <=? n) && (n <=? 222) && negb (n =? 215)))%N
  then ascii_of_N (n + 32) else c.

(** [s.lower()] *)
Definition lower (s : string) : string := str (map lower_char (chars s)).

(** [s.startswith(p)] *)
Definition startswith (s p : string) : bool := String.prefix p s.

(** [s.endswith(p)] *)
Definition endswith (s p : string) : bool :=
  String.prefix (str (rev (chars p))) (str (rev (chars s))).

Fixpoint dropwhile (f : ascii -> bool) (l : list ascii) : list ascii :=
  match l with
  | [] => []
  | c :: r => if f c then dropwhile f r else l
  end.

Definition mem_char (set : string) (c : ascii) : bool :=
  existsb (Ascii.eqb c) (chars set).

(** [s.lstrip(set)], [s.rstrip(set)] and [s.rstrip()]. *)
Definition lstrip (s set : string) : string :=
  str (dropwhile (mem_char set) (chars s)).
Definition rstrip (s set : string) : string :=
  str (rev (dropwhile (mem_char set) (rev (chars s)))).
Definition rstrip_ws (s : string) : string :=
  str (rev (dropwhile isspace (rev (chars s)))).

Fixpoint split_from (sep : ascii) (cur l : list ascii) : list string :=
  match l with
  | [] => [str (rev cur)]
  | c :: r =>
      if Ascii.eqb c sep then str (rev cur) :: split_from sep [] r
      else split_from sep (c :: cur) r
  end.

(** [s.split(sep)] for a separator of one character. *)
Definition split (s : string) (sep : ascii) : list string :=
  split_from sep [] (chars s).

Fixpoint before (sep : ascii) (l : list ascii) : list ascii :=
  match l with
  | [] => []
  | c :: r => if Ascii.eqb c sep then [] else c :: before sep r
  end.

(** [s.split(sep, 1)[0]] *)
Definition split1_head (s : string) (sep : ascii) : string :=
  str (before sep (chars s)).

Fixpoint split_ws_from (cur l : list ascii) : list string :=
  match l with
  | [] => match cur with [] => [] | _ => [str (rev cur)] end
  | c :: r =>
      if isspace c
      then match cur with
           | [] => split_ws_from [] r
           | _ => str (rev cur) :: split_ws_from [] r
           end
      else split_ws_from (c :: cur) r
  end.

(** [s.split()] *)
Definition split_ws (s : string) : list string := split_ws_from [] (chars s).

(** [s.replace(c, by)] for a pattern of one character. *)
Definition replace_char (c : ascii) (by_ : string) (s : string) : string :=
  String.concat "" (map (fun x => if Ascii.eqb x c then by_
                                  else String x EmptyString) (chars s)).

(** [html.escape(s, quote=False)] *)
Definition html_escape (s : string) : string :=
  replace_char ">" "&gt;"
    (replace_char "<" "&lt;" (replace_char "&" "&amp;" s)).

(** [s.encode('UTF-8')] for code points below 256. *)
Definition utf8_char (c : ascii) : list ascii :=
  let n := N_of_ascii c in
  if (n <? 128)%N then [c]
  else [ascii_of_N (192 + n / 64); ascii_of_N (128 + n mod 64)].
Definition utf8 (s : string) : string := str (flat_map utf8_char (chars s)).

(** [b"".join(l)] *)
Definition join_bytes (l : list string) : string :=
  fold_right String.append "" l.

(** [sub in s] *)
Fixpoint contains_from (fuel : nat) (s sub : string) : bool :=
  String.prefix sub s
  || match fuel, s with
     | S n, String _ r => contains_from n r sub
     | _, _ => false
     end.
Definition contains (s sub : string) : bool :=
  contains_from (String.length s) s sub.

(** [str(n)] for an integer. *)
Definition str_of_int (n : Z) : string := NilZero.string_of_int (Z.to_int n).

(** [len(s)] *)
Definition len (s : string) : Z := Z.of_nat (String.length s).

(** *** [int(s)] on a [str]

    Surrounding white space is stripped, one sign is allowed, and the digits
    may be grouped by single underscores.  More than [4300] digits are refused
    ([sys.int_info.default_max_str_digits]).

    The white space [int] strips is not that of [str.strip]: the code points
    from 127 on that are white space (U+0085 and U+00A0 below 256) are first
    turned into spaces, the ones below 127 are kept, and [Py_ISSPACE] is then
    stripped at both ends, so that U+001C to U+001F are refused. *)
Definition int_space (c : ascii) : bool :=
  let n := N_of_ascii c in
  (((9 <=? n) && (n <=? 13)) || (n =? 32) || (n =? 133) || (n =? 160))%N.

Definition is_digit (c : ascii) : bool :=
  let n := N_of_ascii c in ((48 <=? n) && (n <=? 57))%N.

Definition digit_val (c : ascii) : Z := Z.of_N (N_of_ascii c) - 48.

Definition underscore : ascii := ascii_of_N 95.

(** [digits acc count prev_digit l]: the value of [l] read after [acc];
    [prev_digit] tells whether an underscore may come next. *)
Fixpoint digits (acc : Z) (count : nat) (prev_digit : bool) (l : list ascii)
  : option (Z * nat) :=
  match l with
  | [] => if prev_digit then Some (acc, count) else None
  | c :: r =>
      if is_digit c then digits (10 * acc + digit_val c) (S count) true r
      else if Ascii.eqb c underscore && prev_digit then digits acc count false r
      else None
  end.

Definition max_str_digits : nat := 4300.

Definition int (s : string) : option Z :=
  let body := dropwhile int_space (rev (dropwhile int_space (rev (chars s)))) in
  let '(neg, ds) :=
    match body with
    | c :: r =>
        if Ascii.eqb c "-" then (true, r)
        else if Ascii.eqb c "+" then (false, r)
        else (false, body)
    | [] => (false, [])
    end in
  match digits 0 0 false ds with
  | Some (v, n) =>
      if (max_str_digits <? n)%nat then None
      else Some (if neg then - v else v)
  | None => None
  end.

End Py.


(* ================================================================= *)
(** ** Handler instances and their computations *)

(** Exceptions that leave a handler method.  [OSError] raised by [open] and
    [os.listdir] is caught where it is raised and never appears here. *)
Inductive exn : Type :=
| AttributeError (msg : string)
| PyException (name msg : string).

(** File-system calls made on behalf of a request, in program order. *)
Inductive fs_access : Type :=
| FsIsdir (p : string)
| FsIsfile (p : string)
| FsIslink (p : string)
| FsOpen (p : string)
| FsListdir (p : string).

(** The attributes of a request handler instance, and the two streams it
    writes: [wfile] holds the chunks written to the connection and [stderr]
    the lines written by [log_message]. *)
Record handler : Type := mkHandler {
  directory : string;
  client_address : string;
  requestline : string;
  command : option string;
  path : string;
  request_version : string;
  headers : list (string * string);
  close_connection : bool;
  _headers_buffer : option (list string);
  wfile : list string;
  stderr : list string;
  accesses : list fs_access
}.

Definition set_requestline (v : string) (h : handler) : handler :=
  mkHandler (directory h) (client_address h) v (command h) (path h)
    (request_version h) (headers h) (close_connection h) (_headers_buffer h)
    (wfile h) (stderr h) (accesses h).
Definition set_command (v : option string) (h : handler) : handler :=
  mkHandler (directory h) (client_address h) (requestline h) v (path h)
    (request_version h) (headers h) (close_connection h) (_headers_buffer h)
    (wfile h) (stderr h) (accesses h).
Definition set_path (v : string) (h : handler) : handler :=
  mkHandler (directory h) (client_address h) (requestline h) (command h) v
    (request_version h) (headers h) (close_connection h) (_headers_buffer h)
    (wfile h) (stderr h) (accesses h).
Definition set_request_version (v : string) (h : handler) : handler :=
  mkHandler (directory h) (client_address h) (requestline h) (command h)
    (path h) v (headers h) (close_connection h) (_headers_buffer h)
    (wfile h) (stderr h) (accesses h).
Definition set_headers (v : list (string * string)) (h : handler) : handler :=
  mkHandler (directory h) (client_address h) (requestline h) (command h)
    (path h) (request_version h) v (close_connection h) (_headers_buffer h)
    (wfile h) (stderr h) (accesses h).
Definition set_close_connection (v : bool) (h : handler) : handler :=
  mkHandler (directory h) (client_address h) (requestline h) (command h)
    (path h) (request_version h) (headers h) v (_headers_buffer h)
    (wfile h) (stderr h) (accesses h).
Definition set_headers_buffer (v : option (list string)) (h : handler)
  : handler :=
  mkHandler (directory h) (client_address h) (requestline h) (command h)
    (path h) (request_version h) (headers h) (close_connection h) v
    (wfile h) (stderr h) (accesses h).
Definition set_wfile (v : list string) (h : handler) : handler :=
  mkHandler (directory h) (client_address h) (requestline h) (command h)
    (path h) (request_version h) (headers h) (close_connection h)
    (_headers_buffer h) v (stderr h) (accesses h).
Definition set_stderr (v : list string) (h : handler) : handler :=
  mkHandler (directory h) (client_address h) (requestline h) (command h)
    (path h) (request_version h) (headers h) (close_connection h)
    (_headers_buffer h) (wfile h) v (accesses h).
Definition set_accesses (v : list fs_access) (h : handler) : handler :=
  mkHandler (directory h) (client_address h) (requestline h) (command h)
    (path h) (request_version h) (headers h) (close_connection h)
    (_headers_buffer h) (wfile h) (stderr h) v.

(** [self.path], for the methods that also have a local variable [path]. *)
Definition self_path (h : handler) : string := path h.

Inductive outcome (A : Type) : Type :=
| Ok (a : A) (h : handler)
| Raise (e : exn) (h : handler).
Arguments Ok {A} a h.
Arguments Raise {A} e h.

Definition M (A : Type) : Type := handler -> outcome A.

Definition ret {A : Type} (a : A) : M A := fun h => Ok a h.

Definition bind {A B : Type} (c : M A) (k : A -> M B) : M B :=
  fun h => match c h with
           | Ok a h' => k a h'
           | Raise e h' => Raise e h'
           end.

Definition raise {A : Type} (e : exn) : M A := fun h => Raise e h.
Definition get : M handler := fun h => Ok h h.
Definition modify (f : handler -> handler) : M unit := fun h => Ok tt (f h).

Declare Scope py_scope.
Delimit Scope py_scope with py.
Notation "x <- c ;; k" := (bind c (fun x => k))
  (at level 61, c at next level, right associativity) : py_scope.
Notation "c ;; k" := (bind c (fun _ => k))
  (at level 61, right associativity) : py_scope.
Local Open Scope py_scope.

(** The state a computation ends in, whether it returned or raised. *)
Definition final {A : Type} (o : outcome A) : handler :=
  match o with Ok _ h => h | Raise _ h => h end.

(** [self.wfile.write(data)] *)
Definition wfile_write (data : string) : M unit :=
  modify (fun h => set_wfile (wfile h ++ [data])%list h).

(** [sys.stderr.write(line)] *)
Definition stderr_write (line : string) : M unit :=
  modify (fun h => set_stderr (stderr h ++ [line])%list h).

Definition record_access (a : fs_access) : M unit :=
  modify (fun h => set_accesses (accesses h ++ [a])%list h).

(** The bytes a handler has sent on its connection. *)
Definition sent (h : handler) : string := Py.join_bytes (wfile h).

(* ================================================================= *)
(** ** What the platform decides *)

(** Library functions whose result depends on the interpreter build, the
    clock, the locale or the MIME tables, or that only format text.  No
    property below constrains them. *)
Record platform : Type := mkPlatform {
  (** [BaseHTTPRequestHandler.sys_version] *)
  sys_version : string;
  (** [self.date_time_string()] at the time of the request *)
  date_now : string;
  (** [self.date_time_string(timestamp)] *)
  format_date : Z -> string;
  (** [self.log_date_time_string()] at the time of the request *)
  log_date_now : string;
  (** ["%r" % s] *)
  repr : string -> string;
  (** [urllib.parse.unquote(s, errors='surrogatepass')] with its fallback;
      the result is kept in the file-system encoding *)
  unquote : string -> string;
  (** [posixpath.normpath] *)
  normpath : string -> string;
  (** [SimpleHTTPRequestHandler.guess_type] *)
  guess_type : string -> string;
  (** [urllib.parse.urlsplit(s).path] *)
  urlsplit_path : string -> string;
  (** [urlunsplit] of the parts of [s] with ['/'] added to the path *)
  redirect_url : string -> string;
  (** the [If-Modified-Since] test of [send_head] against [st_mtime] *)
  not_modified_since : list (string * string) -> Z -> bool;
  (** the HTML page of [list_directory] for a directory, a request path and
      the sorted entries, each with [isdir] and [islink]; already encoded *)
  render_listing : string -> string -> list (string * bool * bool) -> string;
  (** [sys.getfilesystemencoding()] *)
  fs_encoding : string
}.

(** An open file: what [read] returns and what [os.fstat] reports. *)
Record file : Type := mkFile {
  content : string;
  st_size : Z;
  st_mtime : Z
}.

Inductive open_result : Type :=
| Opened (f : file)
| OpenOSError
| OpenRaises (e : exn).

(** The file system as the calls of the handler see it.  [fs_isdir],
    [fs_isfile] and [fs_islink] are the [os.path] predicates, which answer
    [False] on any error. *)
Record filesystem : Type := mkFilesystem {
  fs_isdir : string -> bool;
  fs_isfile : string -> bool;
  fs_islink : string -> bool;
  fs_open : string -> open_result;
  fs_listdir : string -> option (list string)
}.

(* ================================================================= *)
(** ** [http.server.BaseHTTPRequestHandler] *)

Module BaseHTTPRequestHandler.
Import Py.

Definition protocol_version : string := "HTTP/1.0".
Definition default_request_version : string := "HTTP/0.9".
Definition error_content_type : string := "text/html;charset=utf-8".

(** [self.responses] at the status codes this server sends. *)
Definition responses (code : Z) : option (string * string) :=
  if Z.eqb code 100 then Some ("Continue", "Request received, please continue")
  else if Z.eqb code 200 then Some ("OK", "Request fulfilled, document follows")
  else if Z.eqb code 204
  then Some ("No Content", "Request fulfilled, nothing follows")
  else if Z.eqb code 205
  then Some ("Reset Content", "Clear input form for further input")
  else if Z.eqb code 301
  then Some ("Moved Permanently", "Object moved permanently -- see URI list")
  else if Z.eqb code 304
  then Some ("Not Modified", "Document has not changed since given time")
  else if Z.eqb code 400
  then Some ("Bad Request", "Bad request syntax or unsupported method")
  else if Z.eqb code 404
  then Some ("Not Found", "Nothing matches the given URI")
  else if Z.eqb code 414
  then Some ("Request-URI Too Long", "URI is too long")
  else if Z.eqb code 431
  then Some ("Request Header Fields Too Large",
             "The server is unwilling to process the request because its "
             ++ "header fields are too large")
  else if Z.eqb code 501
  then Some ("Not Implemented", "Server does not support this operation")
  else if Z.eqb code 505
  then Some ("HTTP Version Not Supported", "Cannot fulfill request")
  else None.

(** [DEFAULT_ERROR_MESSAGE % {'code': .., 'message': .., 'explain': ..}] *)
Definition error_message_format (code : Z) (message explain : string)
  : string :=
  String.concat LF
    [ "<!DOCTYPE HTML>";
      "<html lang=" ++ DQUOTE ++ "en" ++ DQUOTE ++ ">";
      "    <head>";
      "        <meta charset=" ++ DQUOTE ++ "utf-8" ++ DQUOTE ++ ">";
      "        <title>Error response</title>";
      "    </head>";
      "    <body>";
      "        <h1>Error response</h1>";
      "        <p>Error code: " ++ str_of_int code ++ "</p>";
      "        <p>Message: " ++ message ++ ".</p>";
      "        <p>Error code explanation: " ++ str_of_int code ++ " - "
        ++ explain ++ ".</p>";
      "    </body>";
      "</html>";
      "" ].

Definition hex_digit (n : N) : ascii :=
  if (n <? 10)%N then ascii_of_N (48 + n) else ascii_of_N (87 + n).

(** [message.translate(self._control_char_table)] *)
Definition control_char (c : ascii) : string :=
  let n := N_of_ascii c in
  if (n =? 92)%N then "\\"
  else if ((n <? 32) || ((127 <=? n) && (n <? 160)))%N
  then "\x" ++ str [hex_digit (n / 16); hex_digit (n mod 16)]
  else String c EmptyString.
Definition translate_control (s : string) : string :=
  String.concat "" (map control_char (chars s)).

(** The header lines of a request as [http.client.parse_headers] finds
    them: the headers, or one of the two errors it raises. *)
Inductive header_block : Type :=
| HeadersOk (hs : list (string * string))
| LineTooLong (err : string)
| TooManyHeaders (err : string).

(** A request as read from the connection: the result of
    [self.rfile.readline(65537)] and the header lines after it. *)
Record request : Type := mkRequest {
  raw_requestline : string;
  header_lines : header_block
}.

(** [headers.get(name, default)]: header names compare without case. *)
Fixpoint headers_get (hs : list (string * string)) (name default : string)
  : string :=
  match hs with
  | [] => default
  | (k, v) :: r =>
      if lower k =? lower name then v else headers_get r name default
  end.

(** [name in headers] *)
Definition headers_mem (hs : list (string * string)) (name : string) : bool :=
  existsb (fun kv => lower (fst kv) =? lower name) hs.

(** [a >= b] on pairs of integers. *)
Definition tuple_ge (a b : Z * Z) : bool :=
  Z.ltb (fst b) (fst a) || (Z.eqb (fst a) (fst b) && Z.leb (snd b) (snd a)).

Fixpoint after (sep : ascii) (l : list ascii) : list ascii :=
  match l with
  | [] => []
  | c :: r => if Ascii.eqb c sep then r else after sep r
  end.

(** The [try] block of [parse_request]: the text after ["HTTP/"] and the
    version as a pair, or [None] where the block raises [ValueError]. *)
Definition parse_version (version : string) : option (string * (Z * Z)) :=
  if negb (startswith version "HTTP/") then None
  else
    let base_version_number := str (after slash (chars version)) in
    match split base_version_number "." with
    | [major; minor] =>
        match int major, int minor with
        | Some x, Some y => Some (base_version_number, (x, y))
        | _, _ => None
        end
    | _ => None
    end.

Section Methods.

Variable P : platform.

(** [self.end_headers], looked up on the instance's class. *)
Variable end_headers : M unit.

Definition log_message (message : string) : M unit :=
  h <- get ;;
  stderr_write (client_address h ++ " - - [" ++ log_date_now P ++ "] "
                ++ translate_control message ++ LF).

Definition log_request (code : Z) : M unit :=
  h <- get ;;
  log_message (DQUOTE ++ requestline h ++ DQUOTE ++ " " ++ str_of_int code
               ++ " -").

Definition log_error (message : string) : M unit := log_message message.

Definition buffer_append (line : string) : M unit :=
  modify (fun h =>
    set_headers_buffer
      (Some (match _headers_buffer h with
             | Some b => b ++ [line]
             | None => [line]
             end)%list) h).

Definition send_response_only (code : Z) (message : option string) : M unit :=
  h <- get ;;
  if request_version h =? "HTTP/0.9" then ret tt
  else
    let message :=
      match message with
      | Some m => m
      | None => match responses code with
                | Some (phrase, _) => phrase
                | None => ""
                end
      end in
    buffer_append (protocol_version ++ " " ++ str_of_int code ++ " "
                   ++ message ++ CRLF).

Definition send_header (keyword value : string) : M unit :=
  h <- get ;;
  (if request_version h =? "HTTP/0.9" then ret tt
   else buffer_append (keyword ++ ": " ++ value ++ CRLF)) ;;
  if lower keyword =? "connection" then
    if lower value =? "close" then modify (set_close_connection true)
    else if lower value =? "keep-alive"
         then modify (set_close_connection false)
         else ret tt
  else ret tt.

Definition flush_headers : M unit :=
  h <- get ;;
  match _headers_buffer h with
  | Some b =>
      wfile_write (join_bytes b) ;;
      modify (set_headers_buffer (Some []))
  | None => ret tt
  end.

(** [BaseHTTPRequestHandler.end_headers], reached by [super().end_headers()]
    from the override. *)
Definition base_end_headers : M unit :=
  h <- get ;;
  if request_version h =? "HTTP/0.9" then ret tt
  else
    match _headers_buffer h with
    | Some _ => buffer_append CRLF ;; flush_headers
    | None =>
        raise (AttributeError "object has no attribute '_headers_buffer'")
    end.

Definition version_string : string := "SimpleHTTP/0.6 " ++ sys_version P.

Definition send_response (code : Z) (message : option string) : M unit :=
  log_request code ;;
  send_response_only code message ;;
  send_header "Server" version_string ;;
  send_header "Date" (date_now P).

Definition bodyless (code : Z) : bool :=
  Z.eqb code 204 || Z.eqb code 205 || Z.eqb code 304.

Definition send_error (code : Z) (message explain : option string) : M unit :=
  let short_long :=
    match responses code with
    | Some r => r
    | None => ("???", "???")
    end in
  let message :=
    match message with Some m => m | None => fst short_long end in
  let explain :=
    match explain with Some e => e | None => snd short_long end in
  log_error ("code " ++ str_of_int code ++ ", message " ++ message) ;;
  send_response code (Some message) ;;
  send_header "Connection" "close" ;;
  body <- (if Z.leb 200 code && negb (bodyless code) then
             let body := utf8 (error_message_format code (html_escape message)
                                 (html_escape explain)) in
             send_header "Content-Type" error_content_type ;;
             send_header "Content-Length" (str_of_int (len body)) ;;
             ret (Some body)
           else ret None) ;;
  end_headers ;;
  h <- get ;;
  match body with
  | Some b =>
      if negb (match command h with Some c => c =? "HEAD" | None => false end)
         && negb (b =? "")
      then wfile_write b else ret tt
  | None => ret tt
  end.

Definition handle_expect_100 : M bool :=
  send_response_only 100 None ;;
  end_headers ;;
  ret true.

(** The request line of [parse_request] up to the assignment of
    [self.request_version]; [false] when an error response was sent. *)
Definition parse_request_version (words : list string) : M bool :=
  if (3 <=? List.length words)%nat then
    let version := last words "" in
    match parse_version version with
    | None =>
        send_error 400
          (Some ("Bad request version (" ++ repr P version ++ ")")) None ;;
        ret false
    | Some (base_version_number, version_number) =>
        (if tuple_ge version_number (1, 1)
            && String.leb "HTTP/1.1" protocol_version
         then modify (set_close_connection false) else ret tt) ;;
        if tuple_ge version_number (2, 0) then
          send_error 505
            (Some ("Invalid HTTP version (" ++ base_version_number ++ ")"))
            None ;;
          ret false
        else modify (set_request_version version) ;; ret true
    end
  else ret true.

(** The rest of [parse_request] once [self.command] and [self.path] are
    known: the headers and the [Connection] and [Expect] directives. *)
Definition parse_request_headers (r : request) : M bool :=
  match header_lines r with
  | LineTooLong err =>
      send_error 431 (Some "Line too long") (Some err) ;; ret false
  | TooManyHeaders err =>
      send_error 431 (Some "Too many headers") (Some err) ;; ret false
  | HeadersOk hs =>
      modify (set_headers hs) ;;
      let conntype := headers_get hs "Connection" "" in
      (if lower conntype =? "close" then modify (set_close_connection true)
       else if (lower conntype =? "keep-alive")
               && String.leb "HTTP/1.1" protocol_version
            then modify (set_close_connection false)
            else ret tt) ;;
      let expect := headers_get hs "Expect" "" in
      h <- get ;;
      if (lower expect =? "100-continue")
         && String.leb "HTTP/1.1" protocol_version
         && String.leb "HTTP/1.1" (request_version h)
      then handle_expect_100
      else ret true
  end.

Definition parse_request (r : request) : M bool :=
  modify (set_command None) ;;
  modify (set_request_version default_request_version) ;;
  modify (set_close_connection true) ;;
  let requestline := rstrip (raw_requestline r) CRLF in
  modify (set_requestline requestline) ;;
  let words := split_ws requestline in
  match words with
  | [] => ret false
  | _ =>
      ok <- parse_request_version words ;;
      if negb ok then ret false
      else
        match words with
        | command :: path :: rest =>
            if (List.length rest <=? 1)%nat then
              short <- ret (Nat.eqb (List.length rest) 0) ;;
              (if short then modify (set_close_connection true) else ret tt) ;;
              if short && negb (command =? "GET") then
                send_error 400
                  (Some ("Bad HTTP/0.9 request type (" ++ repr P command
                         ++ ")")) None ;;
                ret false
              else
                modify (set_command (Some command)) ;;
                modify (set_path
                          (if startswith path "//"
                           then "/" ++ lstrip path "/" else path)) ;;
                parse_request_headers r
            else
              send_error 400
                (Some ("Bad request syntax (" ++ repr P requestline ++ ")"))
                None ;;
              ret false
        | _ =>
            send_error 400
              (Some ("Bad request syntax (" ++ repr P requestline ++ ")"))
              None ;;
            ret false
        end
  end.

(** [getattr(self, 'do_' + command)] where the class has that method. *)
Variable lookup_method : string -> option (M unit).

Definition handle_one_request (r : request) : M unit :=
  if Z.ltb 65536 (len (raw_requestline r)) then
    modify (set_requestline "") ;;
    modify (set_request_version "") ;;
    modify (set_command (Some "")) ;;
    send_error 414 None None
  else if raw_requestline r =? "" then modify (set_close_connection true)
  else
    ok <- parse_request r ;;
    if negb ok then ret tt
    else
      h <- get ;;
      let command := match command h with Some c => c | None => "" end in
      match lookup_method command with
      | None =>
          send_error 501
            (Some ("Unsupported method (" ++ repr P command ++ ")")) None
      | Some method => method
      end.

(** [handle]: requests are served from the connection while
    [close_connection] is false; [rs] is what the client sends before it
    closes its end, where [readline] returns nothing. *)
Fixpoint handle_next (rs : list request) : M unit :=
  match rs with
  | [] => modify (set_close_connection true)
  | r :: rest =>
      handle_one_request r ;;
      h <- get ;;
      if close_connection h then ret tt else handle_next rest
  end.

Definition handle (rs : list request) : M unit :=
  modify (set_close_connection true) ;;
  handle_next rs.

End Methods.
End BaseHTTPRequestHandler.

(* ================================================================= *)
(** ** [posixpath] *)

Module posixpath.
Import Py.

Definition is_sep (c : ascii) : bool := Ascii.eqb c slash.

(** [os.path.dirname(p)] *)
Definition dirname (p : string) : string :=
  let head := rev (dropwhile (fun c => negb (is_sep c)) (rev (chars p))) in
  match head with
  | [] => ""
  | _ => if forallb is_sep head then str head else rstrip (str head) "/"
  end.

(** [os.path.join(a, b)] *)
Definition join (a b : string) : string :=
  if startswith b "/" then b
  else if (a =? "") || endswith a "/" then a ++ b
  else a ++ "/" ++ b.

(** The loop of the pure Python [normpath] over the components. *)
Fixpoint normpath_comps (initial_slashes : bool) (new_comps : list string)
  (comps : list string) : list string :=
  match comps with
  | [] => new_comps
  | comp :: rest =>
      if (comp =? "") || (comp =? ".")
      then normpath_comps initial_slashes new_comps rest
      else if negb (comp =? "..")
              || (negb initial_slashes
                  && match new_comps with [] => true | _ => false end)
              || (last new_comps "" =? "..")
           then normpath_comps initial_slashes (new_comps ++ [comp])%list rest
           else normpath_comps initial_slashes (removelast new_comps) rest
  end.

(** [posixpath.normpath(path)] as [posixpath.py] defines it. *)
Definition normpath (path : string) : string :=
  if path =? "" then "."
  else
    let initial_slashes := startswith path "/" in
    let two := initial_slashes && startswith path "//"
               && negb (startswith path "///") in
    let comps := normpath_comps initial_slashes [] (split path slash) in
    let path := String.concat "/" comps in
    let path :=
      if initial_slashes then (if two then "//" else "/") ++ path
      else path in
    if path =? "" then "." else path.

End posixpath.

(* ================================================================= *)
(** ** [http.server.SimpleHTTPRequestHandler] *)

Module SimpleHTTPRequestHandler.
Import Py BaseHTTPRequestHandler.

(** The test of the loop of [translate_path]: a component that is not a
    simple file or directory name is ignored. *)
Definition ignored (word : string) : bool :=
  negb (posixpath.dirname word =? "") || (word =? ".") || (word =? "..").

(** [list.sort(key=lambda a: a.lower())]: a stable sort. *)
Fixpoint insert_by_lower (a : string) (l : list string) : list string :=
  match l with
  | [] => [a]
  | b :: r =>
      if String.ltb (lower a) (lower b) then a :: l
      else b :: insert_by_lower a r
  end.
Definition sort_by_lower (l : list string) : list string :=
  fold_left (fun acc a => insert_by_lower a acc) l [].

Section Methods.

Variable P : platform.
Variable FS : filesystem.
Variable end_headers : M unit.

Definition translate_path (directory path : string) : string :=
  let path := split1_head path "?" in
  let path := split1_head path "#" in
  let trailing_slash := endswith (rstrip_ws path) "/" in
  let path := unquote P path in
  let path := normpath P path in
  let words := split path slash in
  let words := filter (fun w => negb (w =? "")) words in
  let path :=
    fold_left (fun path word =>
                 if ignored word then path else posixpath.join path word)
              words directory in
  if trailing_slash then path ++ "/" else path.

Definition isdir (p : string) : M bool :=
  record_access (FsIsdir p) ;; ret (fs_isdir FS p).
Definition isfile (p : string) : M bool :=
  record_access (FsIsfile p) ;; ret (fs_isfile FS p).
Definition islink (p : string) : M bool :=
  record_access (FsIslink p) ;; ret (fs_islink FS p).

(** The loop of [list_directory] over the sorted names. *)
Fixpoint list_entries (path : string) (names : list string)
  : M (list (string * bool * bool)) :=
  match names with
  | [] => ret []
  | name :: rest =>
      let fullname := posixpath.join path name in
      d <- isdir fullname ;;
      l <- islink fullname ;;
      es <- list_entries path rest ;;
      ret ((name, d, l) :: es)
  end.

Definition list_directory (path : string) : M (option file) :=
  record_access (FsListdir path) ;;
  match fs_listdir FS path with
  | None =>
      send_error P end_headers 404 (Some "No permission to list directory")
        None ;;
      ret None
  | Some list =>
      h <- get ;;
      entries <- list_entries path (sort_by_lower list) ;;
      let encoded := render_listing P path (self_path h) entries in
      send_response P 200 None ;;
      send_header "Content-type" ("text/html; charset=" ++ fs_encoding P) ;;
      send_header "Content-Length" (str_of_int (len encoded)) ;;
      end_headers ;;
      ret (Some (mkFile encoded (len encoded) 0))
  end.

(** The second half of [send_head]: the file at [path] is opened and its
    headers are sent. *)
Definition send_file_head (path : string) : M (option file) :=
  let ctype := guess_type P path in
  if endswith path "/" then
    send_error P end_headers 404 (Some "File not found") None ;; ret None
  else
    record_access (FsOpen path) ;;
    match fs_open FS path with
    | OpenOSError =>
        send_error P end_headers 404 (Some "File not found") None ;; ret None
    | OpenRaises e => raise e
    | Opened f =>
        h <- get ;;
        if headers_mem (headers h) "If-Modified-Since"
           && negb (headers_mem (headers h) "If-None-Match")
           && not_modified_since P (headers h) (st_mtime f)
        then
          send_response P 304 None ;;
          end_headers ;;
          ret None
        else
          send_response P 200 None ;;
          send_header "Content-type" ctype ;;
          send_header "Content-Length" (str_of_int (st_size f)) ;;
          send_header "Last-Modified" (format_date P (st_mtime f)) ;;
          end_headers ;;
          ret (Some f)
    end.

Definition send_head : M (option file) :=
  h <- get ;;
  let path := translate_path (directory h) (self_path h) in
  d <- isdir path ;;
  if d then
    if negb (endswith (urlsplit_path P (self_path h)) "/") then
      send_response P 301 None ;;
      send_header "Location" (redirect_url P (self_path h)) ;;
      send_header "Content-Length" "0" ;;
      end_headers ;;
      ret None
    else
      i1 <- isfile (posixpath.join path "index.html") ;;
      if i1 then send_file_head (posixpath.join path "index.html")
      else
        i2 <- isfile (posixpath.join path "index.htm") ;;
        if i2 then send_file_head (posixpath.join path "index.htm")
        else list_directory path
  else send_file_head path.

(** [self.copyfile(f, self.wfile)]: the blocks read from [f] are written in
    order; they are written here as one block. *)
Definition copyfile (f : file) : M unit :=
  if content f =? "" then ret tt else wfile_write (content f).

Definition do_GET : M unit :=
  f <- send_head ;;
  match f with
  | Some f => copyfile f
  | None => ret tt
  end.

Definition do_HEAD : M unit :=
  f <- send_head ;;
  ret tt.

End Methods.
End SimpleHTTPRequestHandler.

(* ================================================================= *)
(** ** [serve_cors.CORSRequestHandler] *)

Module CORSRequestHandler.
Import Py.

(** The four header lines [end_headers] adds, as [send_header] formats
    them. *)
Definition cors_headers : list (string * string) :=
  [ ("Access-Control-Allow-Origin", "*");
    ("Access-Control-Allow-Methods", "GET, OPTIONS");
    ("Access-Control-Allow-Headers", "*");
    ("Cache-Control", "no-store, no-cache, must-revalidate, max-age=0") ].

Section Methods.

Variable P : platform.
Variable FS : filesystem.

Definition end_headers : M unit :=
  BaseHTTPRequestHandler.send_header "Access-Control-Allow-Origin" "*" ;;
  BaseHTTPRequestHandler.send_header "Access-Control-Allow-Methods"
    "GET, OPTIONS" ;;
  BaseHTTPRequestHandler.send_header "Access-Control-Allow-Headers" "*" ;;
  BaseHTTPRequestHandler.send_header "Cache-Control"
    "no-store, no-cache, must-revalidate, max-age=0" ;;
  BaseHTTPRequestHandler.base_end_headers.

Definition do_OPTIONS : M unit :=
  BaseHTTPRequestHandler.send_response P 200 (Some "ok") ;;
  end_headers.

(** The inherited methods, with [self.end_headers] bound to the override. *)
Definition send_error := BaseHTTPRequestHandler.send_error P end_headers.
Definition send_head := SimpleHTTPRequestHandler.send_head P FS end_headers.
Definition do_GET := SimpleHTTPRequestHandler.do_GET P FS end_headers.
Definition do_HEAD := SimpleHTTPRequestHandler.do_HEAD P FS end_headers.

(** The [do_*] attributes of the class. *)
Definition lookup_method (command : string) : option (M unit) :=
  if command =? "GET" then Some do_GET
  else if command =? "HEAD" then Some do_HEAD
  else if command =? "OPTIONS" then Some do_OPTIONS
  else None.

Definition handle_one_request :=
  BaseHTTPRequestHandler.handle_one_request P end_headers lookup_method.
Definition handle :=
  BaseHTTPRequestHandler.handle P end_headers lookup_method.

End Methods.

(** [functools.partial(CORSRequestHandler, directory=...)] called by the
    server with a client address: the instance before [handle] runs. *)
Definition new (directory client : string) : handler :=
  mkHandler directory client "" None "" "" [] true None [] [] [].

End CORSRequestHandler.


(* ================================================================= *)
(** ** The process: [socketserver.TCPServer] and [main] *)

(** What is written on a standard stream: a line by [print], a text by
    [write], the usage line of the argument parser, its help page, or the
    traceback of an exception. *)
Inductive output : Type :=
| Line (text : string)
| Written (text : string)
| Usage
| Help
| Traceback (e : exn).

(** Operations on the listening socket, in program order.  [ServerClose]
    is a call of [server_close], that is of [socket.close]; [FdClose] is the
    release of the descriptor by such a call. *)
Inductive sock_event : Type :=
| Socket
| Bind (port : Z)
| Listen (backlog : Z)
| ServeForever
| ServerClose
| FdClose.

Inductive bind_result : Type :=
| BindOk
| BindOSError (message : string).

(** How [serve_forever] is left: by an interrupt, by a return (after
    [shutdown]), or by another exception. *)
Inductive serve_end : Type :=
| KeyboardInterrupt
| Returns
| ServeRaises (e : exn).

(** An accepted connection: the peer and the requests it sends. *)
Record connection : Type := mkConnection {
  peer_host : string;
  peer_port : Z;
  requests : list BaseHTTPRequestHandler.request
}.

(** What the environment decides during one run of the program. *)
Record world : Type := mkWorld {
  the_platform : platform;
  the_filesystem : filesystem;
  (** [os.path.basename(sys.argv[0])] *)
  prog : string;
  os_bind : Z -> bind_result;
  incoming : list connection;
  ending : serve_end
}.

(** The command line as [argparse] matches it against the two options,
    before the values are converted: the help flag, a command line it
    rejects (unknown argument, missing value), or the values given to
    [--port/-p] and to [--dir/-d], in order. *)
Inductive command_line : Type :=
| CliHelp
| CliRejected (message : string)
| CliOptions (ports dirs : list string).

Record namespace : Type := mkNamespace {
  port : Z;
  dir : string
}.

(** The listening socket: absent, open or closed. *)
Inductive sock_state : Type :=
| NoSocket
| SockOpen
| SockClosed.

Record process : Type := mkProcess {
  stdout : list output;
  proc_stderr : list output;
  listening : sock_state;
  events : list sock_event;
  (** the bytes sent on each accepted connection *)
  responses : list (list string)
}.

Inductive exit_status : Type := Exit (code : Z).

Definition print_stderr (o : output) (p : process) : process :=
  mkProcess (stdout p) (proc_stderr p ++ [o]) (listening p) (events p)
    (responses p).
Definition print_stdout (o : output) (p : process) : process :=
  mkProcess (stdout p ++ [o]) (proc_stderr p) (listening p) (events p)
    (responses p).
Definition log_event (e : sock_event) (p : process) : process :=
  mkProcess (stdout p) (proc_stderr p) (listening p) (events p ++ [e])
    (responses p).
Definition set_listening (s : sock_state) (p : process) : process :=
  mkProcess (stdout p) (proc_stderr p) s (events p) (responses p).
Definition add_response (r : list string) (p : process) : process :=
  mkProcess (stdout p) (proc_stderr p) (listening p) (events p)
    (responses p ++ [r]).

Definition start : process := mkProcess [] [] NoSocket [] [].

Module argparse.

(** [type=int] applied to each value of [--port/-p] in turn; the last one
    is stored.  [inl s] is a value [int] refuses. *)
Fixpoint convert_ports (default : Z) (ports : list string) : string + Z :=
  match ports with
  | [] => inr default
  | s :: rest =>
      match Py.int s with
      | Some n => convert_ports n rest
      | None => inl s
      end
  end.

(** [parser.parse_args()] for the parser of [main]: the namespace, or the
    exit status after the parser has printed. *)
Definition parse_args (P : platform) (prog : string) (cl : command_line)
  (p : process)
  : process * (exit_status + namespace) :=
  match cl with
  | CliHelp => (print_stdout Help p, inl (Exit 0))
  | CliRejected message =>
      (print_stderr (Written (prog ++ ": error: " ++ message ++ Py.LF))
         (print_stderr Usage p),
       inl (Exit 2))
  | CliOptions ports dirs =>
      match convert_ports 8000 ports with
      | inl s =>
          (print_stderr
             (Written (prog ++ ": error: argument --port/-p: "
                       ++ "invalid int value: " ++ repr P s ++ Py.LF))
             (print_stderr Usage p),
           inl (Exit 2))
      | inr n => (p, inr (mkNamespace n (last dirs "public")))
      end
  end.

End argparse.

Module TCPServer.

(** [socket.close()]: the descriptor is released by the first call. *)
Definition server_close (p : process) : process :=
  let p := log_event ServerClose p in
  match listening p with
  | SockOpen => set_listening SockClosed (log_event FdClose p)
  | _ => p
  end.

(** [socket.bind(("", port))]: the port is checked against 0..65535 before
    the system call. *)
Definition server_bind (W : world) (port : Z) (p : process)
  : process * option exn :=
  if Z.ltb port 0 || Z.ltb 65535 port then
    (p, Some (PyException "OverflowError" "bind(): port must be 0-65535."))
  else
    let p := log_event (Bind port) p in
    match os_bind W port with
    | BindOk => (p, None)
    | BindOSError message => (p, Some (PyException "OSError" message))
    end.

Definition request_queue_size : Z := 5.

(** [TCPServer((host, port), handler)]: the socket is created, bound and
    put in listening mode; when that raises, the socket is closed and the
    exception goes on. *)
Definition init (W : world) (port : Z) (p : process) : process * option exn :=
  let p := set_listening SockOpen (log_event Socket p) in
  match server_bind W port p with
  | (p, Some e) => (server_close p, Some e)
  | (p, None) => (log_event (Listen request_queue_size) p, None)
  end.

(** [handle_error]: the exception of a handler is printed. *)
Definition handle_error (P : platform) (c : connection) (e : exn)
  (p : process) : process :=
  let dashes := "----------------------------------------" in
  print_stderr (Line dashes)
    (print_stderr (Traceback e)
       (print_stderr
          (Line ("Exception occurred during processing of request from ("
                 ++ repr P (peer_host c) ++ ", "
                 ++ Py.str_of_int (peer_port c) ++ ")"))
          (print_stderr (Line dashes) p))).

Definition log_lines (lines : list string) (p : process) : process :=
  fold_left (fun p l => print_stderr (Written l) p) lines p.

(** [finish_request]: a handler instance is made for the connection and
    serves it. *)
Definition finish_request (W : world) (directory : string) (c : connection)
  : outcome unit :=
  CORSRequestHandler.handle (the_platform W) (the_filesystem W) (requests c)
    (CORSRequestHandler.new directory (peer_host c)).

(** [_handle_request_noblock] for one accepted connection: an exception of
    the handler is reported and the loop goes on. *)
Definition handle_request (W : world) (directory : string) (c : connection)
  (p : process) : process :=
  let o := finish_request W directory c in
  let p := add_response (wfile (final o)) (log_lines (stderr (final o)) p) in
  match o with
  | Ok _ _ => p
  | Raise e _ => handle_error (the_platform W) c e p
  end.

(** [serve_forever]: the connections are served one at a time until the
    loop is left. *)
Definition serve_forever (W : world) (directory : string) (p : process)
  : process * serve_end :=
  (fold_left (fun p c => handle_request W directory c p) (incoming W)
     (log_event ServeForever p),
   ending W).

End TCPServer.

(** [main()], and the exit status of the interpreter after it. *)
Definition main (W : world) (cl : command_line) : process * exit_status :=
  match argparse.parse_args (the_platform W) (prog W) cl start with
  | (p, inl status) => (p, status)
  | (p, inr args) =>
      match TCPServer.init W (port args) p with
      | (p, Some e) => (print_stderr (Traceback e) p, Exit 1)
      | (p, None) =>
          let p :=
            print_stderr
              (Line ("Serving '" ++ dir args ++ "' at http://localhost:"
                     ++ Py.str_of_int (port args) ++ " with CORS enabled"))
              p in
          let '(p, e) := TCPServer.serve_forever W (dir args) p in
          let p :=
            match e with
            | KeyboardInterrupt =>
                print_stderr (Line "Shutting down server...") p
            | _ => p
            end in
          (* finally: httpd.server_close() *)
          let p := TCPServer.server_close p in
          (* __exit__ of the with statement *)
          let p := TCPServer.server_close p in
          match e with
          | ServeRaises x => (print_stderr (Traceback x) p, Exit 1)
          | _ => (p, Exit 0)
          end
      end
  end.

(* ================================================================= *)
(** ** Observations on handlers *)

(** A header as [send_header] formats it. *)
Definition header_line (keyword value : string) : string :=
  keyword ++ ": " ++ value ++ Py.CRLF.

(** The four lines of the override, as they appear on the connection. *)
Definition cors_block : string :=
  Py.join_bytes
    (map (fun kv => header_line (fst kv) (snd kv))
       CORSRequestHandler.cors_headers).

(** The header lines buffered and not yet sent. *)
Definition pending (h : handler) : string :=
  match _headers_buffer h with
  | Some b => Py.join_bytes b
  | None => ""
  end.

(** The buffered header lines, where the attribute may be missing. *)
Definition buffer_of (h : handler) : list string :=
  match _headers_buffer h with
  | Some b => b
  | None => []
  end.

(** A handler with the same request and new output attributes. *)
Definition with_output (h : handler) (cc : bool) (buf : option (list string))
  (w err : list string) (acc : list fs_access) : handler :=
  mkHandler (directory h) (client_address h) (requestline h) (command h)
    (path h) (request_version h) (headers h) cc buf w err acc.

(** The status line [send_response_only] buffers. *)
Definition reason (code : Z) (message : option string) : string :=
  match message with
  | Some m => m
  | None => match BaseHTTPRequestHandler.responses code with
            | Some (phrase, _) => phrase
            | None => ""
            end
  end.
Definition status_line (code : Z) (message : option string) : string :=
  BaseHTTPRequestHandler.protocol_version ++ " " ++ Py.str_of_int code ++ " "
  ++ reason code message ++ Py.CRLF.

(** The line [log_message] writes. *)
Definition log_entry (P : platform) (h : handler) (message : string)
  : string :=
  client_address h ++ " - - [" ++ log_date_now P ++ "] "
  ++ BaseHTTPRequestHandler.translate_control message ++ Py.LF.

(** The effect of [send_header] on [close_connection]. *)
Definition connection_after (keyword value : string) (cc : bool) : bool :=
  if Py.lower keyword =? "connection" then
    if Py.lower value =? "close" then true
    else if Py.lower value =? "keep-alive" then false
    else cc
  else cc.

(** The reason phrase [send_error] uses. *)
Definition error_message (code : Z) (message : option string) : string :=
  match message with
  | Some m => m
  | None =>
      fst (match BaseHTTPRequestHandler.responses code with
           | Some r => r
           | None => ("???", "???")
           end)
  end.

(** The three lines of [send_response]. *)
Definition response_lines (P : platform) (code : Z) (message : option string)
  : list string :=
  [ status_line code message;
    header_line "Server" (BaseHTTPRequestHandler.version_string P);
    header_line "Date" (date_now P) ].

(** The part of a handler that the request determines and that no method
    sending a response changes. *)
Definition request_of (h : handler) :=
  (directory h, client_address h, requestline h, command h, path h,
   request_version h, headers h).

(** The chunks a computation writes on the connection. *)
Definition emitted {A : Type} (c : M A) (h : handler) : list string :=
  skipn (List.length (wfile h)) (wfile (final (c h))).

(** Frame: a computation that only logs, buffers and sends leaves the
    request and the list of file-system calls alone. *)
Definition keeps {A : Type} (c : M A) : Prop :=
  forall h,
    request_of (final (c h)) = request_of h
    /\ accesses (final (c h)) = accesses h.

(** A simple file or directory name: not empty, not [.] or [..], and
    without a separator. *)
Definition simple_name (w : string) : bool :=
  negb (w =? "") && negb (w =? ".") && negb (w =? "..")
  && negb (existsb posixpath.is_sep (Py.chars w)).

(** [descends root p]: the path [p] is [root] extended by simple names,
    each added by [os.path.join], and by separators; no step goes up.  (For
    an empty [root] the names are relative to the current directory, and
    [root ++ "/"] is ["/"].) *)
Inductive descends (root : string) : string -> Prop :=
| descends_root : descends root root
| descends_join (p name : string) :
    descends root p -> simple_name name = true ->
    descends root (posixpath.join p name)
| descends_slash (p : string) :
    descends root p -> descends root (p ++ "/").

(** The calls whose result reaches the response body, [open] and
    [os.listdir], are on paths that descend from the root. *)
Definition ok_access (root : string) (a : fs_access) : Prop :=
  match a with
  | FsOpen p | FsListdir p => descends root p
  | _ => True
  end.

Definition confined (root : string) {A : Type} (c : M A) : Prop :=
  forall h,
    directory h = root ->
    request_of (final (c h)) = request_of h
    /\ exists new,
         accesses (final (c h)) = app (accesses h) new
         /\ Forall (ok_access root) new.

(** [answered_with code message h h']: between [h] and [h'] one header
    chunk was sent, made of the lines buffered in [h], the status line,
    further header lines, the four lines of the override and the blank
    line; then the chunks of a body. *)
Definition answered_with (code : Z) (message : option string)
  (h h' : handler) : Prop :=
  request_version h' = request_version h
  /\ exists hdrs body,
       wfile h'
       = app (wfile h)
           ((pending h ++ Py.join_bytes (status_line code message :: hdrs)
             ++ cors_block ++ Py.CRLF) :: body).

Definition answered (h h' : handler) : Prop :=
  exists code message, answered_with code message h h'.

(** A computation that, on a request that is not HTTP/0.9, answers, or
    raises before anything is sent. *)
Definition answers {A : Type} (c : M A) : Prop :=
  forall h,
    request_version h <> "HTTP/0.9" ->
    match c h with
    | Ok _ h' => answered h h'
    | Raise _ h' => wfile h' = wfile h
    end.

(** A computation that returns and leaves the version, the connection and
    the buffer alone. *)
Definition silent {A : Type} (c : M A) : Prop :=
  forall h,
    exists a h',
      c h = Ok a h'
      /\ request_version h' = request_version h
      /\ wfile h' = wfile h
      /\ _headers_buffer h' = _headers_buffer h.

(** A computation that returns and only adds chunks to the connection. *)
Definition appends {A : Type} (c : M A) : Prop :=
  forall h,
    exists a h' more,
      c h = Ok a h'
      /\ request_version h' = request_version h
      /\ wfile h' = app (wfile h) more.

(** The line [main] prints once the server is bound. *)
Definition serving_message (args : namespace) : output :=
  Line ("Serving '" ++ dir args ++ "' at http://localhost:"
        ++ Py.str_of_int (port args) ++ " with CORS enabled").

(** What is printed, and the exit status, once [serve_forever] is left. *)
Definition epilogue (e : serve_end) : list output :=
  match e with
  | KeyboardInterrupt => [Line "Shutting down server..."]
  | Returns => []
  | ServeRaises x => [Traceback x]
  end.
Definition exit_after (e : serve_end) : exit_status :=
  match e with
  | ServeRaises _ => Exit 1
  | _ => Exit 0
  end.

(** The response sent on a connection by a server rooted at [directory]. *)
Definition response_to (W : world) (directory : string) (c : connection)
  : list string :=
  wfile (final (TCPServer.finish_request W directory c)).


Definition sock_event_eqb (a b : sock_event) : bool :=
  match a, b with
  | Socket, Socket | ServeForever, ServeForever
  | ServerClose, ServerClose | FdClose, FdClose => true
  | Bind x, Bind y | Listen x, Listen y => Z.eqb x y
  | _, _ => false
  end.

(** How many times an operation occurs in a run. *)
Definition count (e : sock_event) (l : list sock_event) : nat :=
  List.length (filter (sock_event_eqb e) l).

Definition is_bind (e : sock_event) : bool :=
  match e with Bind _ => true | _ => false end.

(** The bytes [end_headers] puts on the connection between the lines that
    were already buffered and the blank line. *)
Definition added (h : handler) : string :=
  let e := Py.join_bytes (emitted CORSRequestHandler.end_headers h) in
  substring (String.length (pending h))
    (String.length e - String.length (pending h) - String.length Py.CRLF) e.

(** [replied h h']: since [h] a header chunk that ends with the four lines
    of the override and the blank line was sent, then the chunks of a body. *)
Definition replied (h h' : handler) : Prop :=
  exists code message hdrs body,
    wfile h'
    = app (wfile h)
        ((pending h ++ Py.join_bytes (status_line code message :: hdrs)
          ++ cors_block ++ Py.CRLF) :: body).

(** A computation that returns and leaves the connection and the buffer
    alone. *)
Definition quiet {A : Type} (c : M A) : Prop :=
  forall h,
    exists a h',
      c h = Ok a h'
      /\ wfile h' = wfile h
      /\ _headers_buffer h' = _headers_buffer h.

(** The steps of [parse_request]: on success nothing is sent; on failure
    the request is HTTP/0.9, or an error was replied. *)
Definition parses (c : M bool) : Prop :=
  forall h,
    match c h with
    | Ok true h' =>
        wfile h' = wfile h /\ _headers_buffer h' = _headers_buffer h
    | Ok false h' | Raise _ h' =>
        request_version h' = "HTTP/0.9" \/ replied h h'
    end.

(** The response contains each of the four header lines. *)
Definition has_cors_headers (response : string) : bool :=
  forallb (fun kv => Py.contains response (header_line (fst kv) (snd kv)))
    CORSRequestHandler.cors_headers.

(** The response starts with a status line for [code]. *)
Definition has_status (code : Z) (response : string) : bool :=
  Py.startswith response
    (BaseHTTPRequestHandler.protocol_version ++ " " ++ Py.str_of_int code
     ++ " ").

(** A computation that keeps the root directory of the handler and whose
    calls of [open] and [os.listdir] are on paths that descend from it. *)
Definition rooted (root : string) {A : Type} (c : M A) : Prop :=
  forall h,
    directory h = root ->
    directory (final (c h)) = root
    /\ exists new,
         accesses (final (c h)) = app (accesses h) new
         /\ Forall (ok_access root) new.

(** A computation that does not re-open a connection that is to be closed. *)
Definition closing {A : Type} (c : M A) : Prop :=
  forall h, close_connection h = true -> close_connection (final (c h)) = true.

(** The explanation [send_error] puts in the page. *)
Definition error_explain (code : Z) (explain : option string) : string :=
  match explain with
  | Some e => e
  | None =>
      snd (match BaseHTTPRequestHandler.responses code with
           | Some r => r
           | None => ("???", "???")
           end)
  end.

(** The page of an error response, as it is sent. *)
Definition error_page (code : Z) (message explain : option string) : string :=
  Py.utf8
    (BaseHTTPRequestHandler.error_message_format code
       (Py.html_escape (error_message code message))
       (Py.html_escape (error_explain code explain))).

(** The header chunk of a response: the lines buffered before, the status
    line with the two headers of [send_response], further header lines, the
    four lines of the override and the blank line. *)
Definition header_chunk (P : platform) (h : handler) (code : Z)
  (message : option string) (more : list string) : string :=
  pending h
  ++ Py.join_bytes (response_lines P code message ++ more)%list
  ++ cors_block ++ Py.CRLF.

(** The request is for [HEAD]. *)
Definition is_head (h : handler) : bool :=
  match command h with Some c => c =? "HEAD" | None => false end.

(* ================================================================= *)
(** ** Sample inputs *)

(** A platform, a file system and worlds to run the program on. *)

Module Demo.

Definition epoch : string := "Thu, 01 Jan 1970 00:00:00 GMT".

(** Request paths without percent escapes are their own unquoting. *)
Definition P : platform :=
  mkPlatform "Python/3.11.2" epoch (fun _ => epoch) "01/Jan/1970 00:00:00"
    (fun s => "'" ++ s ++ "'") (fun s => s) posixpath.normpath
    (fun p => if Py.endswith p ".txt" then "text/plain"
              else "application/octet-stream")
    (fun s => Py.split1_head (Py.split1_head s "?") "#")
    (fun s => s ++ "/") (fun _ _ => false)
    (fun _ _ _ => "<!DOCTYPE HTML>") "utf-8".

(** The directory [public] holds the one file [a.txt]. *)
Definition FS : filesystem :=
  mkFilesystem
    (fun p => (p =? "public") || (p =? "public/"))
    (fun p => p =? "public/a.txt")
    (fun _ => false)
    (fun p => if p =? "public/a.txt" then Opened (mkFile "hello" 5 0)
              else OpenOSError)
    (fun p => if (p =? "public") || (p =? "public/") then Some ["a.txt"]
              else None).

Definition request (line : string) : BaseHTTPRequestHandler.request :=
  BaseHTTPRequestHandler.mkRequest (line ++ Py.CRLF)
    (BaseHTTPRequestHandler.HeadersOk []).

Definition fresh : handler := CORSRequestHandler.new "public" "127.0.0.1".

(** The handler after it has served one request line. *)
Definition serve (line : string) : handler :=
  final (CORSRequestHandler.handle_one_request P FS (request line) fresh).

(** The handler once a request line is parsed, before its method runs. *)
Definition parsed (line : string) : handler :=
  final (BaseHTTPRequestHandler.parse_request P
           CORSRequestHandler.end_headers (request line) fresh).

Definition W (b : bind_result) (e : serve_end) : world :=
  mkWorld P FS "serve_cors.py" (fun _ => b)
    [mkConnection "127.0.0.1" 50000 [request "GET /a.txt HTTP/1.1"]] e.



(** [urllib.parse.unquote] on a path whose percent escapes are those of
    ASCII characters: [%00] to [%7F] are decoded, the rest is kept. *)
Definition hex_val (c : ascii) : option N :=
  let n := N_of_ascii c in
  if ((48 <=? n) && (n <=? 57))%N then Some (n - 48)%N
  else if ((65 <=? n) && (n <=? 70))%N then Some (n - 55)%N
  else if ((97 <=? n) && (n <=? 102))%N then Some (n - 87)%N
  else None.

Fixpoint unquote_chars (l : list ascii) : list ascii :=
  match l with
  | [] => []
  | c :: r =>
      match r with
      | a :: b :: r' =>
          match hex_val a, hex_val b with
          | Some x, Some y =>
              if Ascii.eqb c "%" && (x <? 8)%N
              then ascii_of_N (16 * x + y) :: unquote_chars r'
              else c :: unquote_chars r
          | _, _ => c :: unquote_chars r
          end
      | _ => c :: unquote_chars r
      end
  end.

Definition unquote_ascii (s : string) : string :=
  Py.str (unquote_chars (Py.chars s)).

(** [P] with the percent escapes of request paths decoded. *)
Definition P1 : platform :=
  mkPlatform (sys_version P) (date_now P) (format_date P) (log_date_now P)
    (repr P) unquote_ascii (normpath P) (guess_type P) (urlsplit_path P)
    (redirect_url P) (not_modified_since P) (render_listing P)
    (fs_encoding P).

Definition has_nul (p : string) : bool :=
  existsb (Ascii.eqb Ascii.zero) (Py.chars p).

Definition null_byte : exn := PyException "ValueError" "embedded null byte".

(** [FS] behind the interpreter's interface to the operating system: a path
    with a null character is refused before any system call, so that the
    [os.path] predicates answer [False] and [open] raises [ValueError]. *)
Definition OS : filesystem :=
  mkFilesystem
    (fun p => negb (has_nul p) && fs_isdir FS p)
    (fun p => negb (has_nul p) && fs_isfile FS p)
    (fun p => negb (has_nul p) && fs_islink FS p)
    (fun p => if has_nul p then OpenRaises null_byte else fs_open FS p)
    (fun p => if has_nul p then None else fs_listdir FS p).

(** A request line of 65537 characters, the most [readline] returns. *)
Definition long_request : BaseHTTPRequestHandler.request :=
  BaseHTTPRequestHandler.mkRequest
    (Py.str (repeat "a"%char (Z.to_nat 65537)))
    (BaseHTTPRequestHandler.HeadersOk []).

End Demo.

(* ================================================================= *)
(** ** Proofs *)

Lemma append_nil_r (s : string) : s ++ "" = s.
Proof. induction s; cbn; congruence. Qed.

Lemma append_assoc (a b c : string) : (a ++ b) ++ c = a ++ (b ++ c).
Proof. induction a; cbn; congruence. Qed.

Lemma join_bytes_app (a b : list string) :
  Py.join_bytes (a ++ b) = Py.join_bytes a ++ Py.join_bytes b.
Proof.
  unfold Py.join_bytes.
  induction a as [|x a IH]; cbn; [reflexivity|].
  now rewrite IH, append_assoc.
Qed.

Lemma version_neq (h : handler) :
  request_version h <> "HTTP/0.9" ->
  (request_version h =? "HTTP/0.9") = false.
Proof. intro H. now apply String.eqb_neq. Qed.

(** [int] strips the white space of [Py_ISSPACE] and the two white space
    characters from 127 on, not the separators U+001C to U+001F. *)
Lemma int_white_space :
  Py.int (Py.chr 31 ++ "8093") = None
  /\ Py.int ("8093" ++ Py.chr 28) = None
  /\ Py.int (Py.chr 160 ++ "8093" ++ Py.chr 133) = Some 8093
  /\ Py.int (Py.chr 9 ++ " +8_0" ++ Py.LF) = Some 80.
Proof. vm_compute. repeat split. Qed.

(** *** Running computations *)

Lemma bind_Ok {A B : Type} (c : M A) (k : A -> M B) (h h' : handler) (a : A) :
  c h = Ok a h' -> bind c k h = k a h'.
Proof. unfold bind. now intros ->. Qed.

Lemma bind_assoc {A B C : Type} (c : M A) (k : A -> M B) (k' : B -> M C)
  (h : handler) :
  bind (bind c k) k' h = bind c (fun a => bind (k a) k') h.
Proof. unfold bind. now destruct (c h). Qed.

Lemma final_bind {A B : Type} (c : M A) (k : A -> M B) (h : handler) :
  final (bind c k h)
  = match c h with
    | Ok a h' => final (k a h')
    | Raise _ h' => h'
    end.
Proof. unfold bind. now destruct (c h). Qed.

(** *** Frame lemmas *)

Lemma keeps_ret {A : Type} (a : A) : keeps (ret a).
Proof. now intros h. Qed.

Lemma keeps_get : keeps get.
Proof. now intros h. Qed.

Lemma keeps_raise {A : Type} (e : exn) : keeps (@raise A e).
Proof. now intros h. Qed.

Lemma keeps_bind {A B : Type} (c : M A) (k : A -> M B) :
  keeps c -> (forall a, keeps (k a)) -> keeps (bind c k).
Proof.
  intros Hc Hk h. rewrite final_bind.
  destruct (Hc h) as [Hr Ha]. destruct (c h) as [a h'|e h']; cbn in *.
  - destruct (Hk a h') as [Hr' Ha']. split; congruence.
  - now split.
Qed.

Lemma keeps_modify (f : handler -> handler) :
  (forall h, request_of (f h) = request_of h /\ accesses (f h) = accesses h) ->
  keeps (modify f).
Proof. intros H h. apply H. Qed.

Lemma keeps_if {A : Type} (b : bool) (c1 c2 : M A) :
  keeps c1 -> keeps c2 -> keeps (if b then c1 else c2).
Proof. now destruct b. Qed.

Ltac keeps_step :=
  first
    [ apply keeps_ret
    | apply keeps_get
    | apply keeps_raise
    | apply keeps_modify; intros ?; split; reflexivity
    | apply keeps_bind; [ | intros ? ]
    | apply keeps_if
    | assumption
    | match goal with
      | |- keeps (match ?x with _ => _ end) => destruct x
      end ].

Ltac keeps_auto := repeat keeps_step.

Section FrameLemmas.
Import BaseHTTPRequestHandler.
Variable P : platform.

Lemma keeps_wfile_write data : keeps (wfile_write data).
Proof. unfold wfile_write. keeps_auto. Qed.

Lemma keeps_log_message m : keeps (log_message P m).
Proof. unfold log_message, stderr_write. keeps_auto. Qed.

Lemma keeps_send_response_only code m : keeps (send_response_only code m).
Proof. unfold send_response_only, buffer_append. keeps_auto. Qed.

Lemma keeps_send_header k v : keeps (send_header k v).
Proof. unfold send_header, buffer_append. keeps_auto. Qed.

Lemma keeps_base_end_headers : keeps base_end_headers.
Proof.
  unfold base_end_headers, flush_headers, buffer_append, wfile_write.
  keeps_auto.
Qed.

Lemma keeps_send_response code m : keeps (send_response P code m).
Proof.
  unfold send_response, log_request.
  keeps_auto;
    auto using keeps_log_message, keeps_send_response_only, keeps_send_header.
Qed.

Lemma keeps_end_headers : keeps CORSRequestHandler.end_headers.
Proof.
  unfold CORSRequestHandler.end_headers.
  keeps_auto; auto using keeps_send_header, keeps_base_end_headers.
Qed.

Lemma keeps_send_error eh code m e :
  keeps eh -> keeps (send_error P eh code m e).
Proof.
  intros Heh. unfold send_error, log_error.
  keeps_auto;
    auto using keeps_log_message, keeps_send_response, keeps_send_header,
      keeps_wfile_write.
Qed.

End FrameLemmas.

(** *** Path translation *)

Lemma dropwhile_nil (f : ascii -> bool) (l : list ascii) :
  Py.dropwhile f l = [] -> forallb f l = true.
Proof.
  induction l as [|c l IH]; cbn; [reflexivity|].
  destruct (f c); cbn; [exact IH | discriminate].
Qed.

Lemma forallb_rev (f : ascii -> bool) (l : list ascii) :
  forallb f (rev l) = forallb f l.
Proof.
  induction l as [|c l IH]; cbn; [reflexivity|].
  rewrite forallb_app, IH. cbn. rewrite andb_true_r. apply andb_comm.
Qed.

Lemma existsb_forallb_negb (f : ascii -> bool) (l : list ascii) :
  existsb f l = negb (forallb (fun c => negb (f c)) l).
Proof.
  induction l as [|c l IH]; cbn; [reflexivity|].
  rewrite IH. now destruct (f c).
Qed.

Lemma str_nil (l : list ascii) : Py.str l = "" -> l = [].
Proof. destruct l; [reflexivity | discriminate]. Qed.

Lemma chars_str (l : list ascii) : Py.chars (Py.str l) = l.
Proof. apply list_ascii_of_string_of_list_ascii. Qed.

Lemma rev_nil {A : Type} (l : list A) : rev l = [] -> l = [].
Proof.
  intros H. apply (f_equal (@rev A)) in H. now rewrite rev_involutive in H.
Qed.

Lemma forallb_pointwise (f g : ascii -> bool) (l : list ascii) :
  (forall c, f c = g c) -> forallb f l = forallb g l.
Proof. intros H. induction l; cbn; [reflexivity | now rewrite H, IHl]. Qed.

Lemma mem_char_slash (c : ascii) : Py.mem_char "/" c = posixpath.is_sep c.
Proof. unfold Py.mem_char, posixpath.is_sep. cbn. apply orb_false_r. Qed.

(** A name with an empty [dirname] has no separator. *)
Lemma dirname_empty (w : string) :
  posixpath.dirname w = "" -> existsb posixpath.is_sep (Py.chars w) = false.
Proof.
  unfold posixpath.dirname. intros H.
  rewrite existsb_forallb_negb, <- forallb_rev.
  destruct (Py.dropwhile _ (rev (Py.chars w))) as [|c l] eqn:E.
  - apply dropwhile_nil in E. now rewrite E.
  - exfalso. cbn [rev] in H.
    destruct (rev l ++ [c])%list as [|c' l'] eqn:E'.
    + now destruct (rev l).
    + destruct (forallb posixpath.is_sep (c' :: l')) eqn:F.
      * discriminate.
      * unfold Py.rstrip in H. apply str_nil, rev_nil in H.
        rewrite chars_str in H. apply dropwhile_nil in H.
        rewrite forallb_rev in H.
        rewrite (forallb_pointwise _ _ _ mem_char_slash) in H.
        congruence.
Qed.

Lemma ignored_simple (w : string) :
  (w =? "") = false -> SimpleHTTPRequestHandler.ignored w = false ->
  simple_name w = true.
Proof.
  unfold SimpleHTTPRequestHandler.ignored, simple_name. intros Hw H.
  apply orb_false_elim in H as [H H2]. apply orb_false_elim in H as [H0 H1].
  rewrite Hw, H1, H2. cbn.
  apply negb_false_iff, String.eqb_eq, dirname_empty in H0. now rewrite H0.
Qed.

Lemma translate_words root (words : list string) (p : string) :
  descends root p ->
  descends root
    (fold_left
       (fun path word =>
          if SimpleHTTPRequestHandler.ignored word then path
          else posixpath.join path word)
       (filter (fun w => negb (w =? "")) words) p).
Proof.
  revert p. induction words as [|w words IH]; intros p Hp; cbn; [exact Hp|].
  destruct (w =? "") eqn:Hw; cbn; [now apply IH|].
  apply IH. destruct (SimpleHTTPRequestHandler.ignored w) eqn:Hi; [exact Hp|].
  apply descends_join; [exact Hp | now apply ignored_simple].
Qed.

(** A path that descends from the root starts with the root. *)
Lemma simple_name_relative (name : string) :
  simple_name name = true -> Py.startswith name "/" = false.
Proof.
  unfold simple_name, Py.startswith. intros H.
  apply andb_true_iff in H as [_ H]. apply negb_true_iff in H.
  destruct name as [|c name]; [reflexivity|].
  change (String.prefix "/" (String c name))
    with (if ascii_dec "/" c then String.prefix "" name else false).
  destruct (ascii_dec "/" c) as [<-|Hc]; [discriminate | reflexivity].
Qed.

Lemma descends_extends (root p : string) :
  descends root p -> exists rest, p = root ++ rest.
Proof.
  induction 1 as [|p name Hp [rest ->] Hn|p Hp [rest ->]].
  - exists "". now rewrite append_nil_r.
  - unfold posixpath.join. rewrite (simple_name_relative name Hn).
    destruct ((root ++ rest =? "") || Py.endswith (root ++ rest) "/").
    + exists (rest ++ name). now rewrite append_assoc.
    + exists (rest ++ "/" ++ name). now rewrite append_assoc.
  - exists (rest ++ "/"). now rewrite append_assoc.
Qed.

(** Whatever the request path, its translation descends from the root. *)
Lemma translate_path_descends (P : platform) (root path : string) :
  descends root (SimpleHTTPRequestHandler.translate_path P root path).
Proof.
  unfold SimpleHTTPRequestHandler.translate_path.
  match goal with |- context [if ?b then _ else _] => destruct b end.
  - apply descends_slash, translate_words, descends_root.
  - apply translate_words, descends_root.
Qed.

(** *** File-system calls of [GET] and [HEAD] *)

Lemma keeps_confined root {A : Type} (c : M A) : keeps c -> confined root c.
Proof.
  intros Hc h Hd. destruct (Hc h) as [Hr Ha]. split; [exact Hr|].
  exists []. now rewrite app_nil_r.
Qed.

Lemma confined_bind root {A B : Type} (c : M A) (k : A -> M B) :
  confined root c -> (forall a, confined root (k a)) ->
  confined root (bind c k).
Proof.
  intros Hc Hk h Hd. rewrite final_bind.
  destruct (Hc h Hd) as (Hr1 & new1 & Ha1 & Hn1).
  destruct (c h) as [a h'|e h']; cbn in *.
  - assert (Hd1 : directory h' = root)
      by (unfold request_of in Hr1; congruence).
    destruct (Hk a h' Hd1) as (Hr2 & new2 & Ha2 & Hn2).
    split; [congruence|].
    exists (new1 ++ new2)%list. split.
    + now rewrite Ha2, Ha1, app_assoc.
    + now apply Forall_app.
  - split; [exact Hr1|]. now exists new1.
Qed.

Lemma confined_get_bind root {B : Type} (k : handler -> M B) :
  (forall h0, directory h0 = root -> confined root (k h0)) ->
  confined root (bind get k).
Proof. intros Hk h Hd. unfold bind, get. now apply Hk. Qed.

Lemma confined_record root (a : fs_access) :
  ok_access root a -> confined root (record_access a).
Proof.
  intros Ha h Hd. cbn. split; [reflexivity|]. exists [a].
  split; [reflexivity|]. now constructor.
Qed.

Ltac confined_step :=
  first
    [ apply keeps_confined; solve [ keeps_auto ]
    | apply confined_bind; [ | intros ? ]
    | apply confined_record; cbn; solve [ auto ]
    | match goal with
      | |- confined _ (if ?b then _ else _) => destruct b
      | |- confined _ (match ?x with _ => _ end) => destruct x
      end ].

Section Confinement.
Import SimpleHTTPRequestHandler.
Variable P : platform.
Variable FS : filesystem.
Variable eh : M unit.
Hypothesis keeps_eh : keeps eh.
Variable root : string.

Lemma confined_list_entries path names :
  confined root (list_entries FS path names).
Proof.
  induction names as [|name names IH]; cbn [list_entries].
  - apply keeps_confined, keeps_ret.
  - unfold isdir, islink. repeat confined_step. exact IH.
Qed.

Lemma confined_list_directory path :
  descends root path -> confined root (list_directory P FS eh path).
Proof.
  intros Hp. unfold list_directory.
  pose proof keeps_send_response. pose proof keeps_send_header.
  repeat confined_step;
    auto using keeps_confined, confined_list_entries.
Qed.

Lemma confined_send_file_head path :
  descends root path -> confined root (send_file_head P FS eh path).
Proof.
  intros Hp. unfold send_file_head.
  pose proof keeps_send_response. pose proof keeps_send_header.
  repeat confined_step; auto using keeps_confined.
Qed.

Lemma confined_send_head : confined root (send_head P FS eh).
Proof.
  unfold send_head. apply confined_get_bind. intros h0 Hd.
  pose proof (translate_path_descends P root (self_path h0)) as Ht.
  rewrite Hd. unfold isdir, isfile.
  pose proof keeps_send_response. pose proof keeps_send_header.
  repeat first
    [ apply confined_list_directory; exact Ht
    | apply confined_send_file_head; auto using descends_join
    | confined_step ].
Qed.

Lemma confined_do_GET : confined root (do_GET P FS eh).
Proof.
  unfold do_GET, copyfile, wfile_write. apply confined_bind.
  - apply confined_send_head.
  - intros f. repeat confined_step.
Qed.

Lemma confined_do_HEAD : confined root (do_HEAD P FS eh).
Proof.
  unfold do_HEAD. apply confined_bind.
  - apply confined_send_head.
  - intros f. repeat confined_step.
Qed.

End Confinement.

(** *** Running the methods on a request that is not HTTP/0.9 *)

Lemma join_bytes_snoc (l : list string) (x : string) :
  Py.join_bytes (l ++ [x]) = Py.join_bytes l ++ x.
Proof. rewrite join_bytes_app. cbn. now rewrite append_nil_r. Qed.

Section Runs.
Import BaseHTTPRequestHandler.
Variable P : platform.

Lemma send_response_only_run code message h :
  request_version h <> "HTTP/0.9" ->
  send_response_only code message h
  = Ok tt (with_output h (close_connection h)
             (Some (buffer_of h ++ [status_line code message])%list)
             (wfile h) (stderr h) (accesses h)).
Proof.
  intros Hv%version_neq. unfold send_response_only, bind, get.
  rewrite Hv. unfold buffer_append, modify, buffer_of, status_line, reason.
  destruct message, (_headers_buffer h); reflexivity.
Qed.

Lemma send_header_run keyword value h :
  request_version h <> "HTTP/0.9" ->
  send_header keyword value h
  = Ok tt (with_output h
             (connection_after keyword value (close_connection h))
             (Some (buffer_of h ++ [header_line keyword value])%list)
             (wfile h) (stderr h) (accesses h)).
Proof.
  intros Hv%version_neq. unfold send_header, bind, get.
  rewrite Hv. unfold buffer_append, modify, buffer_of, connection_after.
  cbn.
  destruct (_headers_buffer h), (Py.lower keyword =? "connection");
    try reflexivity;
    destruct (Py.lower value =? "close"); try reflexivity;
    destruct (Py.lower value =? "keep-alive"); reflexivity.
Qed.

Lemma send_response_run code message h :
  request_version h <> "HTTP/0.9" ->
  send_response P code message h
  = Ok tt (with_output h (close_connection h)
             (Some (buffer_of h ++ response_lines P code message)%list)
             (wfile h)
             (app (stderr h)
                [log_entry P h (Py.DQUOTE ++ requestline h ++ Py.DQUOTE
                                ++ " " ++ Py.str_of_int code ++ " -")])
             (accesses h)).
Proof.
  intros Hv. unfold send_response.
  unfold bind at 1. unfold log_request, bind at 1, get at 1.
  unfold log_message, bind at 1, get at 1, stderr_write, modify.
  erewrite bind_Ok by (apply send_response_only_run; exact Hv).
  erewrite bind_Ok by (apply send_header_run; exact Hv).
  rewrite send_header_run by exact Hv.
  unfold with_output, response_lines, log_entry; cbn.
  now rewrite <- !app_assoc.
Qed.

Lemma end_headers_run h :
  request_version h <> "HTTP/0.9" ->
  CORSRequestHandler.end_headers h
  = Ok tt (with_output h (close_connection h) (Some [])
             (app (wfile h) [pending h ++ cors_block ++ Py.CRLF])
             (stderr h) (accesses h)).
Proof.
  intros Hv. unfold CORSRequestHandler.end_headers.
  do 4 (erewrite bind_Ok by (apply send_header_run; exact Hv)).
  unfold base_end_headers, bind, get. cbn.
  rewrite (version_neq _ Hv). cbn.
  unfold with_output, pending, buffer_of, modify.
  destruct (_headers_buffer h); cbn; [|reflexivity].
  do 3 f_equal. fold (Py.join_bytes
    (((((l ++ [header_line "Access-Control-Allow-Origin" "*"])
        ++ [header_line "Access-Control-Allow-Methods" "GET, OPTIONS"])
       ++ [header_line "Access-Control-Allow-Headers" "*"])
      ++ [header_line "Cache-Control"
            "no-store, no-cache, must-revalidate, max-age=0"])
     ++ [Py.CRLF])%list).
  rewrite !join_bytes_snoc, !append_assoc. reflexivity.
Qed.
Lemma log_message_run message h :
  log_message P message h
  = Ok tt (with_output h (close_connection h) (_headers_buffer h) (wfile h)
             (app (stderr h) [log_entry P h message]) (accesses h)).
Proof. reflexivity. Qed.

Lemma pending_buffer_app h (l : list string) :
  Py.join_bytes (buffer_of h ++ l) = pending h ++ Py.join_bytes l.
Proof.
  rewrite join_bytes_app. unfold pending, buffer_of.
  now destruct (_headers_buffer h).
Qed.

End Runs.

Lemma with_output_twice h cc buf w err acc cc' buf' w' err' acc' :
  with_output (with_output h cc buf w err acc) cc' buf' w' err' acc'
  = with_output h cc' buf' w' err' acc'.
Proof. reflexivity. Qed.

Lemma buffer_of_same h cc w err acc :
  buffer_of (with_output h cc (_headers_buffer h) w err acc) = buffer_of h.
Proof. reflexivity. Qed.

Lemma pending_some h cc b w err acc :
  pending (with_output h cc (Some b) w err acc) = Py.join_bytes b.
Proof. reflexivity. Qed.

Lemma log_entry_same P h cc buf w err acc m :
  log_entry P (with_output h cc buf w err acc) m = log_entry P h m.
Proof. reflexivity. Qed.

Ltac simpl_state :=
  cbn [with_output directory client_address requestline command path
       request_version headers close_connection _headers_buffer wfile stderr
       accesses buffer_of];
  rewrite ?with_output_twice, ?buffer_of_same, ?pending_some, ?log_entry_same.

Ltac exec_one Hv :=
  erewrite bind_Ok
    by (first
          [ apply log_message_run
          | apply send_response_run; exact Hv
          | apply send_response_only_run; exact Hv
          | apply send_header_run; exact Hv
          | apply end_headers_run; exact Hv
          | reflexivity ]).

Ltac exec Hv :=
  repeat first [ rewrite bind_assoc | exec_one Hv; simpl_state ].

Section Responses.
Import BaseHTTPRequestHandler.
Variable P : platform.
Variable FS : filesystem.

(** [do_OPTIONS] sends one chunk: the status line [200 ok], the two headers
    of [send_response], the four headers of the override and the blank
    line. *)
Lemma do_OPTIONS_run h :
  request_version h <> "HTTP/0.9" ->
  CORSRequestHandler.do_OPTIONS P h
  = Ok tt (with_output h (close_connection h) (Some [])
             (app (wfile h)
                [pending h
                 ++ Py.join_bytes (response_lines P 200 (Some "ok"))
                 ++ cors_block ++ Py.CRLF])
             (app (stderr h)
                [log_entry P h (Py.DQUOTE ++ requestline h ++ Py.DQUOTE
                                ++ " 200 -")])
             (accesses h)).
Proof.
  intros Hv. unfold CORSRequestHandler.do_OPTIONS. exec Hv.
  rewrite end_headers_run by exact Hv.
  unfold with_output. cbn [wfile stderr accesses close_connection directory
    client_address requestline command path request_version headers].
  unfold pending at 1. cbn [_headers_buffer].
  now rewrite pending_buffer_app, append_assoc.
Qed.

(** [send_error] sends a header chunk that starts with the status line
    and ends with the four headers of the override, then the page if any. *)
Lemma send_error_run code message explain h :
  request_version h <> "HTTP/0.9" ->
  exists h' hdrs body,
    CORSRequestHandler.send_error P code message explain h = Ok tt h'
    /\ request_of h' = request_of h
    /\ accesses h' = accesses h
    /\ _headers_buffer h' = Some []
    /\ wfile h'
       = app (wfile h)
           ((pending h
             ++ Py.join_bytes
                  (status_line code (Some (error_message code message))
                   :: hdrs)
             ++ cors_block ++ Py.CRLF) :: body).
Proof.
  intros Hv. unfold CORSRequestHandler.send_error, send_error, log_error.
  cbv zeta. fold (error_message code message).
  exec Hv.
  destruct (Z.leb 200 code && negb (bodyless code)); exec Hv;
    [ match goal with
      | |- context [if ?b then _ else _] => destruct b
      end | ];
    [ eexists _, _, [_] | eexists _, _, [] | eexists _, _, [] ];
    (split; [reflexivity|]); repeat split;
    cbn [wfile set_wfile with_output];
    rewrite <- ?app_assoc, pending_buffer_app; cbn [app response_lines];
    rewrite append_assoc; reflexivity.
Qed.

Lemma answers_silent_bind {A B : Type} (c : M A) (k : A -> M B) :
  silent c -> (forall a, answers (k a)) -> answers (bind c k).
Proof.
  intros Hc Hk h Hv. destruct (Hc h) as (a & h1 & E & Hv1 & Hw & Hb).
  rewrite (bind_Ok _ _ _ _ _ E).
  assert (Hp : pending h1 = pending h) by (unfold pending; now rewrite Hb).
  specialize (Hk a h1). rewrite Hv1 in Hk. specialize (Hk Hv).
  destruct (k a h1) as [b h2|e h2].
  - destruct Hk as (code & message & Hv2 & hdrs & body & Hw2).
    exists code, message. split; [congruence|]. exists hdrs, body.
    now rewrite Hw2, Hw, Hp.
  - congruence.
Qed.

Lemma answers_bind_appends {A B : Type} (c : M A) (k : A -> M B) :
  answers c -> (forall a, appends (k a)) -> answers (bind c k).
Proof.
  intros Hc Hk h Hv. specialize (Hc h Hv). unfold bind.
  destruct (c h) as [a h1|e h1]; [|exact Hc].
  destruct (Hk a h1) as (b & h2 & more & E & Hv2 & Hw2). rewrite E.
  destruct Hc as (code & message & Hv1 & hdrs & body & Hw1).
  exists code, message. split; [congruence|]. exists hdrs, (body ++ more)%list.
  rewrite Hw2, Hw1, <- app_assoc. reflexivity.
Qed.

Lemma silent_get : silent get.
Proof. intros h. now exists h, h. Qed.

Lemma silent_record a : silent (record_access a).
Proof. intros h. now eexists _, _. Qed.

Lemma silent_bind {A B : Type} (c : M A) (k : A -> M B) :
  silent c -> (forall a, silent (k a)) -> silent (bind c k).
Proof.
  intros Hc Hk h. destruct (Hc h) as (a & h1 & E & Hv1 & Hw1 & Hb1).
  destruct (Hk a h1) as (b & h2 & E2 & Hv2 & Hw2 & Hb2).
  exists b, h2. rewrite (bind_Ok _ _ _ _ _ E). repeat split; congruence.
Qed.

Lemma silent_ret {A : Type} (a : A) : silent (ret a).
Proof. intros h. now exists a, h. Qed.

Lemma silent_list_entries path names :
  silent (SimpleHTTPRequestHandler.list_entries FS path names).
Proof.
  induction names as [|name names IH];
    cbn [SimpleHTTPRequestHandler.list_entries].
  - apply silent_ret.
  - unfold SimpleHTTPRequestHandler.isdir, SimpleHTTPRequestHandler.islink.
    repeat first [ apply silent_bind; [|intros ?] | apply silent_record
                 | apply silent_ret | exact IH ].
Qed.

Lemma appends_ret {A : Type} (a : A) : appends (ret a).
Proof. intros h. exists a, h, []. now rewrite app_nil_r. Qed.

Lemma appends_wfile_write data : appends (wfile_write data).
Proof. intros h. now eexists _, _, [data]. Qed.

(** A response made of [send_response], more headers and [end_headers]. *)
Lemma answers_send_error code message explain :
  answers (CORSRequestHandler.send_error P code message explain).
Proof.
  intros h Hv.
  destruct (send_error_run code message explain h Hv)
    as (h' & hdrs & body & E & Hr & _ & _ & Hw).
  rewrite E. exists code, (Some (error_message code message)). split.
  - unfold request_of in Hr. congruence.
  - now exists hdrs, body.
Qed.

Ltac answer_leaf :=
  let h := fresh "h" in
  let Hv := fresh "Hv" in
  intros h Hv; exec Hv; try rewrite end_headers_run by exact Hv;
  unfold ret; simpl_state;
  eexists _, _; split; [reflexivity|]; eexists _, [];
  rewrite <- ?app_assoc, pending_buffer_app; cbn [app response_lines];
  rewrite append_assoc; reflexivity.

Lemma answers_do_OPTIONS : answers (CORSRequestHandler.do_OPTIONS P).
Proof. unfold CORSRequestHandler.do_OPTIONS. answer_leaf. Qed.

Section Files.
Import SimpleHTTPRequestHandler.

Lemma answers_list_directory path :
  answers (list_directory P FS CORSRequestHandler.end_headers path).
Proof.
  unfold list_directory.
  apply answers_silent_bind; [apply silent_record | intros _].
  destruct (fs_listdir FS path) as [names|].
  - apply answers_silent_bind; [apply silent_get | intros h0].
    apply answers_silent_bind; [apply silent_list_entries | intros entries].
    answer_leaf.
  - apply answers_bind_appends; [apply answers_send_error | intros _].
    apply appends_ret.
Qed.

Lemma answers_send_file_head path :
  answers (send_file_head P FS CORSRequestHandler.end_headers path).
Proof.
  unfold send_file_head.
  destruct (Py.endswith path "/").
  - apply answers_bind_appends; [apply answers_send_error | intros _].
    apply appends_ret.
  - apply answers_silent_bind; [apply silent_record | intros _].
    destruct (fs_open FS path) as [f| |e].
    + apply answers_silent_bind; [apply silent_get | intros h0].
      match goal with |- answers (if ?b then _ else _) => destruct b end;
        answer_leaf.
    + apply answers_bind_appends; [apply answers_send_error | intros _].
      apply appends_ret.
    + intros h _. reflexivity.
Qed.

Lemma answers_send_head :
  answers (send_head P FS CORSRequestHandler.end_headers).
Proof.
  unfold send_head, isdir, isfile.
  apply answers_silent_bind; [apply silent_get | intros h0].
  apply answers_silent_bind;
    [apply silent_bind; [apply silent_record | intros _; apply silent_ret]
    | intros d].
  destruct d; [|apply answers_send_file_head].
  match goal with |- answers (if ?b then _ else _) => destruct b end.
  - answer_leaf.
  - apply answers_silent_bind;
      [apply silent_bind; [apply silent_record | intros _; apply silent_ret]
      | intros i1].
    destruct i1; [apply answers_send_file_head|].
    apply answers_silent_bind;
      [apply silent_bind; [apply silent_record | intros _; apply silent_ret]
      | intros i2].
    destruct i2; [apply answers_send_file_head | apply answers_list_directory].
Qed.

Lemma answers_do_GET : answers (CORSRequestHandler.do_GET P FS).
Proof.
  unfold CORSRequestHandler.do_GET, do_GET, copyfile.
  apply answers_bind_appends; [apply answers_send_head | intros f].
  destruct f as [f|]; [|apply appends_ret].
  destruct (content f =? ""); [apply appends_ret | apply appends_wfile_write].
Qed.

Lemma answers_do_HEAD : answers (CORSRequestHandler.do_HEAD P FS).
Proof.
  unfold CORSRequestHandler.do_HEAD, do_HEAD.
  apply answers_bind_appends; [apply answers_send_head | intros f].
  apply appends_ret.
Qed.


(** A [GET] for a path that is no directory and that ends with a separator
    or cannot be opened is answered by [404 File not found]. *)
Lemma do_GET_not_found h :
  request_version h <> "HTTP/0.9" ->
  let p := translate_path P (directory h) (self_path h) in
  fs_isdir FS p = false ->
  Py.endswith p "/" = true \/ fs_open FS p = OpenOSError ->
  exists h',
    CORSRequestHandler.do_GET P FS h = Ok tt h'
    /\ answered_with 404 (Some "File not found") h h'.
Proof.
  intros Hv p Hd Ho.
  unfold CORSRequestHandler.do_GET, do_GET, send_head.
  rewrite bind_assoc. unfold bind at 1, get at 1.
  rewrite bind_assoc. unfold isdir at 1. rewrite bind_assoc.
  unfold bind at 1, record_access at 1, modify at 1.
  unfold bind at 1, ret at 1. fold p. rewrite Hd.
  unfold send_file_head.
  match goal with
  | |- context [send_error P ?e 404 ?m ?x] =>
      change (send_error P e 404 m x)
        with (CORSRequestHandler.send_error P 404 m x)
  end.
  destruct (Py.endswith p "/").
  - rewrite !bind_assoc.
    match goal with
    | |- context [bind (CORSRequestHandler.send_error P 404 ?m ?x) ?k ?st] =>
        destruct (send_error_run 404 m x st Hv)
          as (h' & hdrs & body & E & Hr & _ & _ & Hw);
        rewrite (bind_Ok _ _ _ _ _ E)
    end.
    exists h'. split; [reflexivity|]. split.
    + unfold request_of in Hr. cbn in Hr. congruence.
    + exists hdrs, body. exact Hw.
  - destruct Ho as [Ho|Ho]; [discriminate|].
    rewrite !bind_assoc.
    unfold bind at 1, record_access at 1, modify at 1. rewrite Ho.
    rewrite !bind_assoc.
    match goal with
    | |- context [bind (CORSRequestHandler.send_error P 404 ?m ?x) ?k ?st] =>
        destruct (send_error_run 404 m x st Hv)
          as (h' & hdrs & body & E & Hr & _ & _ & Hw);
        rewrite (bind_Ok _ _ _ _ _ E)
    end.
    exists h'. split; [reflexivity|]. split.
    + unfold request_of in Hr. cbn in Hr. congruence.
    + exists hdrs, body. exact Hw.
Qed.

(** When [open] raises an exception that is not [OSError], [GET] raises it
    before anything is sent. *)
Lemma do_GET_open_raises h e :
  let p := translate_path P (directory h) (self_path h) in
  fs_isdir FS p = false ->
  Py.endswith p "/" = false ->
  fs_open FS p = OpenRaises e ->
  exists h',
    CORSRequestHandler.do_GET P FS h = Raise e h'
    /\ wfile h' = wfile h
    /\ _headers_buffer h' = _headers_buffer h
    /\ stderr h' = stderr h.
Proof.
  intros p Hd He Ho.
  unfold CORSRequestHandler.do_GET, do_GET, send_head.
  rewrite bind_assoc. unfold bind at 1, get at 1.
  rewrite bind_assoc. unfold isdir at 1. rewrite bind_assoc.
  unfold bind at 1, record_access at 1, modify at 1.
  unfold bind at 1, ret at 1. fold p. rewrite Hd.
  unfold send_file_head. rewrite He.
  rewrite !bind_assoc.
  unfold bind at 1, record_access at 1, modify at 1. rewrite Ho.
  eexists. split; [reflexivity|]. repeat split.
Qed.

End Files.

End Responses.

(** *** The server loop *)

Lemma log_lines_frame lines p :
  stdout (TCPServer.log_lines lines p) = stdout p
  /\ listening (TCPServer.log_lines lines p) = listening p
  /\ events (TCPServer.log_lines lines p) = events p
  /\ responses (TCPServer.log_lines lines p) = responses p
  /\ proc_stderr (TCPServer.log_lines lines p)
     = app (proc_stderr p) (map Written lines).
Proof.
  unfold TCPServer.log_lines. revert p.
  induction lines as [|l lines IH]; intros p; cbn.
  - now rewrite app_nil_r.
  - destruct (IH (print_stderr (Written l) p)) as (H1 & H2 & H3 & H4 & H5).
    rewrite H1, H2, H3, H4, H5. cbn. now rewrite <- app_assoc.
Qed.

(** One connection adds one response and lines on the error stream, and
    leaves the listening socket and the standard output alone. *)
Lemma handle_request_frame W directory c p :
  let p' := TCPServer.handle_request W directory c p in
  stdout p' = stdout p
  /\ listening p' = listening p
  /\ events p' = events p
  /\ responses p'
     = app (responses p)
         [wfile (final (TCPServer.finish_request W directory c))]
  /\ exists more, proc_stderr p' = app (proc_stderr p) more.
Proof.
  unfold TCPServer.handle_request.
  destruct (log_lines_frame
              (stderr (final (TCPServer.finish_request W directory c))) p)
    as (H1 & H2 & H3 & H4 & H5).
  destruct (TCPServer.finish_request W directory c) as [u h|e h]; cbn in *;
    rewrite ?H1, ?H2, ?H3, ?H4, ?H5; repeat split; eauto.
  eexists. rewrite <- !app_assoc. reflexivity.
Qed.

(** The exception of a handler is printed on the error stream. *)
Lemma handle_request_reports W directory c p e h :
  TCPServer.finish_request W directory c = Raise e h ->
  In (Traceback e)
    (proc_stderr (TCPServer.handle_request W directory c p)).
Proof.
  intros E. unfold TCPServer.handle_request. rewrite E.
  unfold TCPServer.handle_error. cbn.
  apply in_or_app. left. apply in_or_app. right. now left.
Qed.

Lemma serve_loop_frame W directory conns p :
  let p' :=
    fold_left (fun p c => TCPServer.handle_request W directory c p) conns p in
  stdout p' = stdout p
  /\ listening p' = listening p
  /\ events p' = events p
  /\ responses p'
     = app (responses p)
         (map (fun c => wfile (final (TCPServer.finish_request W directory c)))
            conns)
  /\ exists more, proc_stderr p' = app (proc_stderr p) more.
Proof.
  revert p. induction conns as [|c conns IH]; intros p; cbn.
  - rewrite app_nil_r. repeat split. exists []. now rewrite app_nil_r.
  - destruct (handle_request_frame W directory c p)
      as (H1 & H2 & H3 & H4 & more & H5).
    destruct (IH (TCPServer.handle_request W directory c p))
      as (I1 & I2 & I3 & I4 & more' & I5).
    cbn in *. rewrite I1, I2, I3, I4, I5, H1, H2, H3, H4, H5.
    repeat split.
    + now rewrite <- app_assoc.
    + exists (more ++ more')%list. now rewrite <- app_assoc.
Qed.

Lemma serve_forever_frame W directory p :
  let p' := fst (TCPServer.serve_forever W directory p) in
  stdout p' = stdout p
  /\ listening p' = listening p
  /\ events p' = app (events p) [ServeForever]
  /\ responses p'
     = app (responses p)
         (map (fun c => wfile (final (TCPServer.finish_request W directory c)))
            (incoming W))
  /\ exists more, proc_stderr p' = app (proc_stderr p) more.
Proof.
  unfold TCPServer.serve_forever. cbn [fst].
  apply (serve_loop_frame W directory (incoming W) (log_event ServeForever p)).
Qed.

(** *** The runs of [main] *)

Lemma main_rejects_port W ports dirs s :
  argparse.convert_ports 8000 ports = inl s ->
  main W (CliOptions ports dirs)
  = (mkProcess []
       [Usage;
        Written (prog W ++ ": error: argument --port/-p: "
                 ++ "invalid int value: " ++ repr (the_platform W) s
                 ++ Py.LF)]
       NoSocket [] [],
     Exit 2).
Proof. intros H. unfold main, argparse.parse_args. now rewrite H. Qed.

Lemma port_in_range n :
  0 <= n <= 65535 -> Z.ltb n 0 || Z.ltb 65535 n = false.
Proof. intros Hn. apply orb_false_iff. split; apply Z.ltb_ge; lia. Qed.

Lemma main_port_out_of_range W ports dirs n :
  argparse.convert_ports 8000 ports = inr n ->
  n < 0 \/ 65535 < n ->
  main W (CliOptions ports dirs)
  = (mkProcess []
       [Traceback
          (PyException "OverflowError" "bind(): port must be 0-65535.")]
       SockClosed [Socket; ServerClose; FdClose] [],
     Exit 1).
Proof.
  intros H Hn. unfold main, argparse.parse_args. rewrite H.
  cbn [port dir]. unfold TCPServer.init, TCPServer.server_bind.
  replace (Z.ltb n 0 || Z.ltb 65535 n) with true; [reflexivity|].
  symmetry. apply orb_true_iff.
  destruct Hn; [left | right]; now apply Z.ltb_lt.
Qed.

Lemma main_bind_fails W ports dirs n message :
  argparse.convert_ports 8000 ports = inr n ->
  0 <= n <= 65535 ->
  os_bind W n = BindOSError message ->
  main W (CliOptions ports dirs)
  = (mkProcess [] [Traceback (PyException "OSError" message)] SockClosed
       [Socket; Bind n; ServerClose; FdClose] [],
     Exit 1).
Proof.
  intros H Hn Hb. unfold main, argparse.parse_args. rewrite H.
  cbn [port dir]. unfold TCPServer.init, TCPServer.server_bind.
  rewrite (port_in_range n Hn). cbn. now rewrite Hb.
Qed.

(** What the handlers and [handle_error] print is never the line of the
    shutdown. *)
Lemma log_lines_no_line lines p :
  exists more,
    proc_stderr (TCPServer.log_lines lines p) = app (proc_stderr p) more
    /\ Forall (fun o => o <> Line "Shutting down server...") more.
Proof.
  destruct (log_lines_frame lines p) as (_ & _ & _ & _ & H).
  exists (map Written lines). split; [exact H|].
  apply Forall_forall. intros o Ho. apply in_map_iff in Ho as (l & <- & _).
  discriminate.
Qed.

Lemma handle_request_no_line W root c p :
  exists more,
    proc_stderr (TCPServer.handle_request W root c p)
    = app (proc_stderr p) more
    /\ Forall (fun o => o <> Line "Shutting down server...") more.
Proof.
  unfold TCPServer.handle_request.
  destruct (log_lines_no_line
              (stderr (final (TCPServer.finish_request W root c))) p)
    as (more & H & Hm).
  destruct (TCPServer.finish_request W root c) as [u h|e h]; cbn in *.
  - exists more. now split.
  - eexists. rewrite H, <- !app_assoc. split; [reflexivity|].
    apply Forall_app. split; [exact Hm|].
    repeat constructor; discriminate.
Qed.

Lemma serve_loop_no_line W root conns p :
  exists more,
    proc_stderr
      (fold_left (fun p c => TCPServer.handle_request W root c p) conns p)
    = app (proc_stderr p) more
    /\ Forall (fun o => o <> Line "Shutting down server...") more.
Proof.
  revert p. induction conns as [|c conns IH]; intros p; cbn.
  - exists []. now rewrite app_nil_r.
  - destruct (handle_request_no_line W root c p) as (m1 & H1 & F1).
    destruct (IH (TCPServer.handle_request W root c p)) as (m2 & H2 & F2).
    exists (m1 ++ m2)%list. rewrite H2, H1, <- app_assoc.
    split; [reflexivity | now apply Forall_app].
Qed.

Lemma serve_forever_no_line W root p :
  exists more,
    proc_stderr (fst (TCPServer.serve_forever W root p))
    = app (proc_stderr p) more
    /\ Forall (fun o => o <> Line "Shutting down server...") more.
Proof.
  unfold TCPServer.serve_forever. cbn [fst].
  apply (serve_loop_no_line W root (incoming W) (log_event ServeForever p)).
Qed.

Lemma main_serves_logs W ports dirs n :
  argparse.convert_ports 8000 ports = inr n ->
  0 <= n <= 65535 ->
  os_bind W n = BindOk ->
  let args := mkNamespace n (last dirs "public") in
  exists logs,
    main W (CliOptions ports dirs)
    = (mkProcess []
         (serving_message args :: logs ++ epilogue (ending W))
         SockClosed
         [Socket; Bind n; Listen 5; ServeForever; ServerClose; FdClose;
          ServerClose]
         (map (response_to W (dir args)) (incoming W)),
       exit_after (ending W))
    /\ Forall (fun o => o <> Line "Shutting down server...") logs.
Proof.
  intros H Hn Hb args. unfold main, argparse.parse_args. rewrite H.
  cbn [port dir]. unfold TCPServer.init, TCPServer.server_bind.
  rewrite (port_in_range n Hn). rewrite Hb. cbv iota beta.
  match goal with
  | |- context [TCPServer.serve_forever W ?d ?p0] =>
      destruct (serve_forever_frame W d p0) as (H1 & H2 & H3 & H4 & _);
      destruct (serve_forever_no_line W d p0) as (logs & H5 & F);
      destruct (TCPServer.serve_forever W d p0) as [p' e] eqn:E
  end.
  assert (He : e = ending W)
    by (unfold TCPServer.serve_forever in E; congruence).
  clear E. destruct p' as [so se li ev rs].
  cbn in H1, H2, H3, H4, H5. exists logs. subst. split; [|exact F].
  subst args. unfold serving_message.
  destruct (ending W);
    cbv beta iota zeta
      delta [TCPServer.server_close log_event set_listening print_stderr
             stdout proc_stderr listening events responses epilogue
             exit_after dir port TCPServer.request_queue_size];
    cbn [app]; rewrite <- ?app_assoc, ?app_nil_r; reflexivity.
Qed.

Lemma main_serves W ports dirs n :
  argparse.convert_ports 8000 ports = inr n ->
  0 <= n <= 65535 ->
  os_bind W n = BindOk ->
  let args := mkNamespace n (last dirs "public") in
  exists logs,
    main W (CliOptions ports dirs)
    = (mkProcess []
         (serving_message args :: logs ++ epilogue (ending W))
         SockClosed
         [Socket; Bind n; Listen 5; ServeForever; ServerClose; FdClose;
          ServerClose]
         (map (response_to W (dir args)) (incoming W)),
       exit_after (ending W)).
Proof.
  intros H Hn Hb args.
  destruct (main_serves_logs W ports dirs n H Hn Hb) as (logs & E & _).
  now exists logs.
Qed.


(** *** From the request line to the response *)

Lemma replied_from (h h1 h2 : handler) :
  wfile h1 = wfile h -> _headers_buffer h1 = _headers_buffer h ->
  replied h1 h2 -> replied h h2.
Proof.
  intros Hw Hb (code & message & hdrs & body & H).
  exists code, message, hdrs, body. unfold pending in *.
  now rewrite H, Hw, Hb.
Qed.

Section Requests.
Import BaseHTTPRequestHandler.
Variable P : platform.
Variable FS : filesystem.

(** An error response: the request is HTTP/0.9 and stays so, or the error
    is replied with its headers. *)
Lemma error_exit code message explain h :
  let h' :=
    final (send_error P CORSRequestHandler.end_headers code message explain h)
  in
  request_version h' = "HTTP/0.9" \/ replied h h'.
Proof.
  cbn zeta. destruct (string_dec (request_version h) "HTTP/0.9") as [Hv|Hv].
  - left.
    destruct (keeps_send_error P CORSRequestHandler.end_headers code message
                explain keeps_end_headers h) as [Hr _].
    unfold request_of in Hr. congruence.
  - right.
    destruct (send_error_run P code message explain h Hv)
      as (h' & hdrs & body & E & _ & _ & _ & Hw).
    unfold CORSRequestHandler.send_error in E. rewrite E. cbn.
    now exists code, (Some (error_message code message)), hdrs, body.
Qed.

Lemma parses_error code message explain :
  parses (send_error P CORSRequestHandler.end_headers code message explain ;;
          ret false).
Proof.
  intros h. pose proof (error_exit code message explain h) as H.
  unfold bind. cbn zeta in H.
  destruct (send_error P CORSRequestHandler.end_headers code message explain
              h); exact H.
Qed.

Lemma parses_ret_true : parses (ret true).
Proof. now intros h. Qed.

Lemma parses_quiet_bind {A : Type} (c : M A) (k : A -> M bool) :
  quiet c -> (forall a, parses (k a)) -> parses (bind c k).
Proof.
  intros Hc Hk h. destruct (Hc h) as (a & h1 & E & Hw & Hb).
  rewrite (bind_Ok _ _ _ _ _ E). specialize (Hk a h1).
  destruct (k a h1) as [[|] h2|e h2].
  - destruct Hk. split; congruence.
  - destruct Hk; [now left | right; eauto using replied_from].
  - destruct Hk; [now left | right; eauto using replied_from].
Qed.

Lemma parses_then (c : M bool) (rest : M bool) :
  parses c -> parses rest ->
  parses (ok <- c ;; if negb ok then ret false else rest).
Proof.
  intros Hc Hr h. specialize (Hc h). unfold bind.
  destruct (c h) as [[|] h1|e h1]; cbn; try exact Hc.
  destruct Hc as [Hw Hb]. specialize (Hr h1).
  destruct (rest h1) as [[|] h2|e h2].
  - destruct Hr. split; congruence.
  - destruct Hr; [now left | right; eauto using replied_from].
  - destruct Hr; [now left | right; eauto using replied_from].
Qed.

Lemma quiet_modify (f : handler -> handler) :
  (forall h, wfile (f h) = wfile h
             /\ _headers_buffer (f h) = _headers_buffer h) ->
  quiet (modify f).
Proof. intros H h. exists tt, (f h). split; [reflexivity | apply H]. Qed.

Lemma quiet_ret {A : Type} (a : A) : quiet (ret a).
Proof. intros h. now exists a, h. Qed.

Lemma quiet_get : quiet get.
Proof. intros h. now exists h, h. Qed.

Ltac quiet_step :=
  first
    [ apply quiet_ret
    | apply quiet_get
    | apply quiet_modify; intros ?; split; reflexivity
    | match goal with
      | |- quiet (if ?b then _ else _) => destruct b
      end ].

Ltac parses_step :=
  first
    [ apply parses_ret_true
    | apply parses_error
    | apply parses_quiet_bind; [ solve [ repeat quiet_step ] | intros ? ]
    | match goal with
      | |- parses (if ?b then _ else _) => destruct b
      | |- parses (match ?x with _ => _ end) => destruct x
      end ].

Lemma parses_version words :
  parses (parse_request_version P CORSRequestHandler.end_headers words).
Proof. unfold parse_request_version. repeat parses_step. Qed.

Lemma parses_headers r :
  parses (parse_request_headers P CORSRequestHandler.end_headers r).
Proof.
  unfold parse_request_headers.
  destruct (header_lines r);
    repeat first
      [ match goal with
        | |- parses (if ?a && String.leb "HTTP/1.1" protocol_version && ?b
                     then _ else _) =>
            change (String.leb "HTTP/1.1" protocol_version) with false;
            rewrite andb_false_r; cbn [andb]
        end
      | parses_step ].
Qed.

Lemma parses_at (c : M bool) (h h1 : handler) :
  parses c ->
  wfile h1 = wfile h -> _headers_buffer h1 = _headers_buffer h ->
  match c h1 with
  | Ok true h' => wfile h' = wfile h /\ _headers_buffer h' = _headers_buffer h
  | Ok false h' | Raise _ h' => request_version h' = "HTTP/0.9" \/ replied h h'
  end.
Proof.
  intros Hc Hw Hb. specialize (Hc h1).
  destruct (c h1) as [[|] h2|e h2].
  - destruct Hc. split; congruence.
  - destruct Hc; [now left | right; eauto using replied_from].
  - destruct Hc; [now left | right; eauto using replied_from].
Qed.

Lemma parses_request r :
  parses (parse_request P CORSRequestHandler.end_headers r).
Proof.
  intros h. unfold parse_request.
  do 4 (erewrite bind_Ok by reflexivity).
  destruct (Py.split_ws (Py.rstrip (raw_requestline r) Py.CRLF))
    as [|command ws].
  - left. reflexivity.
  - apply parses_at; [|reflexivity|reflexivity].
    apply parses_then; [apply parses_version|].
    repeat first [ apply parses_headers | parses_step ].
Qed.

(** A method that answers and keeps the request: whatever the request
    version, its run ends in one of three ways. *)
Lemma method_cases (method : M unit) (h : handler) :
  answers method ->
  (forall h0, request_of (final (method h0)) = request_of h0) ->
  let h' := final (method h) in
  request_version h' = "HTTP/0.9" \/ wfile h' = wfile h \/ replied h h'.
Proof.
  intros Ha Hf. cbn zeta.
  destruct (string_dec (request_version h) "HTTP/0.9") as [Hv|Hv].
  - left. specialize (Hf h). unfold request_of in Hf. congruence.
  - right. specialize (Ha h Hv). destruct (method h) as [u h'|e h']; cbn.
    + right. destruct Ha as (code & message & _ & hdrs & body & Hw).
      now exists code, message, hdrs, body.
    + now left.
Qed.

Lemma frames_do_GET h0 :
  request_of (final (CORSRequestHandler.do_GET P FS h0)) = request_of h0.
Proof.
  now destruct (confined_do_GET P FS CORSRequestHandler.end_headers
                  keeps_end_headers (directory h0) h0 eq_refl).
Qed.

Lemma frames_do_HEAD h0 :
  request_of (final (CORSRequestHandler.do_HEAD P FS h0)) = request_of h0.
Proof.
  now destruct (confined_do_HEAD P FS CORSRequestHandler.end_headers
                  keeps_end_headers (directory h0) h0 eq_refl).
Qed.

Lemma keeps_do_OPTIONS : keeps (CORSRequestHandler.do_OPTIONS P).
Proof.
  unfold CORSRequestHandler.do_OPTIONS.
  apply keeps_bind; [apply keeps_send_response | intros _].
  apply keeps_end_headers.
Qed.

(** Every run of [handle_one_request] ends in one of three ways: the
    request version is HTTP/0.9, nothing was sent, or a reply was sent whose
    header chunk ends with the four lines of the override. *)
Lemma handle_one_request_cases r h :
  let h' := final (CORSRequestHandler.handle_one_request P FS r h) in
  request_version h' = "HTTP/0.9" \/ wfile h' = wfile h \/ replied h h'.
Proof.
  cbn zeta.
  unfold CORSRequestHandler.handle_one_request, handle_one_request.
  destruct (Z.ltb 65536 (Py.len (raw_requestline r))).
  - do 3 (erewrite bind_Ok by reflexivity).
    match goal with
    | |- context [send_error P ?e ?c ?m ?x ?st] =>
        destruct (error_exit c m x st) as [H|H]
    end.
    + now left.
    + right. right. eapply replied_from; [| |exact H]; reflexivity.
  - destruct (raw_requestline r =? ""); [right; left; reflexivity|].
    pose proof (parses_request r h) as Hp. rewrite final_bind.
    destruct (parse_request P CORSRequestHandler.end_headers r h)
      as [[|] h1|e h1].
    + destruct Hp as [Hw Hb]. cbn [negb].
      rewrite (bind_Ok _ _ _ _ _ (eq_refl : get h1 = Ok h1 h1)).
      assert (forall m : M unit,
                 answers m ->
                 (forall h0, request_of (final (m h0)) = request_of h0) ->
                 request_version (final (m h1)) = "HTTP/0.9"
                 \/ wfile (final (m h1)) = wfile h
                 \/ replied h (final (m h1))) as Hm.
      { intros m Ha Hf. destruct (method_cases m h1 Ha Hf) as [H|[H|H]].
        - now left.
        - right. left. congruence.
        - right. right. eauto using replied_from. }
      unfold CORSRequestHandler.lookup_method.
      repeat match goal with
             | |- context [if ?b then _ else _] => destruct b
             end.
      * apply Hm; [apply answers_do_GET | apply frames_do_GET].
      * apply Hm; [apply answers_do_HEAD | apply frames_do_HEAD].
      * apply Hm;
          [apply answers_do_OPTIONS | intros h0; apply keeps_do_OPTIONS].
      * match goal with
        | |- context [send_error P ?e ?c ?m ?x ?st] =>
            destruct (error_exit c m x st) as [H|H]
        end.
        -- now left.
        -- right. right. eauto using replied_from.
    + cbn. destruct Hp; [now left | now right; right].
    + destruct Hp; [now left | now right; right].
Qed.

(** A run of [handle_one_request] that returns, on a request that is not
    empty, has replied unless the request version is HTTP/0.9. *)
Lemma handle_one_request_returns r h u h' :
  CORSRequestHandler.handle_one_request P FS r h = Ok u h' ->
  request_version h' = "HTTP/0.9"
  \/ raw_requestline r = ""
  \/ replied h h'.
Proof.
  unfold CORSRequestHandler.handle_one_request, handle_one_request.
  destruct (Z.ltb 65536 (Py.len (raw_requestline r))).
  - do 3 (erewrite bind_Ok by reflexivity). intros E.
    match type of E with
    | send_error P ?e ?c ?m ?x ?st = _ =>
        destruct (error_exit c m x st) as [H|H]; rewrite E in H; cbn in H
    end.
    + now left.
    + right. right. eapply replied_from; [| |exact H]; reflexivity.
  - destruct (raw_requestline r =? "") eqn:Hraw.
    { intros _. right. left. now apply String.eqb_eq. }
    pose proof (parses_request r h) as Hp. unfold bind at 1.
    destruct (parse_request P CORSRequestHandler.end_headers r h)
      as [[|] h1|e h1]; [| |discriminate].
    + destruct Hp as [Hw Hb]. cbn [negb].
      rewrite (bind_Ok _ _ _ _ _ (eq_refl : get h1 = Ok h1 h1)).
      assert (forall m : M unit,
                 answers m ->
                 (forall h0, request_of (final (m h0)) = request_of h0) ->
                 m h1 = Ok u h' ->
                 request_version h' = "HTTP/0.9"
                 \/ raw_requestline r = "" \/ replied h h') as Hm.
      { intros m Ha Hf E.
        destruct (string_dec (request_version h1) "HTTP/0.9") as [Hv|Hv].
        - left. specialize (Hf h1). rewrite E in Hf. unfold request_of in Hf.
          cbn in Hf. congruence.
        - right. right. specialize (Ha h1 Hv). rewrite E in Ha.
          destruct Ha as (code & message & _ & hdrs & body & Hw').
          eapply replied_from; [exact Hw | exact Hb |].
          now exists code, message, hdrs, body. }
      unfold CORSRequestHandler.lookup_method.
      repeat match goal with
             | |- context [if ?b then _ else _] => destruct b
             end.
      * apply Hm; [apply answers_do_GET | apply frames_do_GET].
      * apply Hm; [apply answers_do_HEAD | apply frames_do_HEAD].
      * apply Hm;
          [apply answers_do_OPTIONS | intros h0; apply keeps_do_OPTIONS].
      * intros E.
        match type of E with
        | send_error P ?e ?c ?m ?x ?st = _ =>
            destruct (error_exit c m x st) as [H|H]; rewrite E in H; cbn in H
        end.
        -- now left.
        -- right. right. eauto using replied_from.
    + cbn. intros E. injection E as _ <-.
      destruct Hp; [now left | now right; right].
Qed.

End Requests.

(** *** The root directory of a connection *)

Lemma rooted_confined root {A : Type} (c : M A) :
  confined root c -> rooted root c.
Proof.
  intros Hc h Hd. destruct (Hc h Hd) as (Hr & new & Ha & Hn).
  split; [|now exists new]. unfold request_of in Hr. congruence.
Qed.

Lemma rooted_keeps root {A : Type} (c : M A) : keeps c -> rooted root c.
Proof. intros Hc. now apply rooted_confined, keeps_confined. Qed.

Lemma rooted_bind root {A B : Type} (c : M A) (k : A -> M B) :
  rooted root c -> (forall a, rooted root (k a)) -> rooted root (bind c k).
Proof.
  intros Hc Hk h Hd. rewrite final_bind.
  destruct (Hc h Hd) as (Hd1 & new1 & Ha1 & Hn1).
  destruct (c h) as [a h'|e h']; cbn in *.
  - destruct (Hk a h' Hd1) as (Hd2 & new2 & Ha2 & Hn2).
    split; [exact Hd2|].
    exists (new1 ++ new2)%list. split.
    + now rewrite Ha2, Ha1, app_assoc.
    + now apply Forall_app.
  - split; [exact Hd1|]. now exists new1.
Qed.

Lemma rooted_modify root (f : handler -> handler) :
  (forall h, directory (f h) = directory h /\ accesses (f h) = accesses h) ->
  rooted root (modify f).
Proof.
  intros H h Hd. destruct (H h) as [H1 H2]. cbn. split; [congruence|].
  exists []. now rewrite app_nil_r.
Qed.

Ltac rooted_step :=
  cbv beta;
  lazymatch goal with
  | |- rooted _ (bind _ _) => simple apply rooted_bind; [ | intros ? ]
  | |- rooted _ (if ?b then _ else _) => destruct b
  | |- rooted _ (match ?x with _ => _ end) => destruct x
  | |- rooted _ (modify _) =>
      simple apply rooted_modify; intros ?; split; reflexivity
  | |- rooted _ (ret _) => apply rooted_keeps, keeps_ret
  | |- rooted _ get => apply rooted_keeps, keeps_get
  | |- rooted _ (raise _) => apply rooted_keeps, keeps_raise
  | |- rooted _ (BaseHTTPRequestHandler.send_error _ _ _ _ _) =>
      apply rooted_keeps, keeps_send_error, keeps_end_headers
  | |- rooted _ (BaseHTTPRequestHandler.send_response_only _ _) =>
      apply rooted_keeps, keeps_send_response_only
  | |- rooted _ CORSRequestHandler.end_headers =>
      apply rooted_keeps, keeps_end_headers
  end.

Section Connections.
Import BaseHTTPRequestHandler.
Variable P : platform.
Variable FS : filesystem.
Variable root : string.

Lemma rooted_parse_request r :
  rooted root (parse_request P CORSRequestHandler.end_headers r).
Proof.
  unfold parse_request, parse_request_version, parse_request_headers,
    handle_expect_100.
  repeat rooted_step.
Qed.

Lemma rooted_handle_one_request r :
  rooted root (CORSRequestHandler.handle_one_request P FS r).
Proof.
  unfold CORSRequestHandler.handle_one_request, handle_one_request.
  destruct (Z.ltb 65536 (Py.len (raw_requestline r)));
    [repeat rooted_step|].
  destruct (raw_requestline r =? ""); [repeat rooted_step|].
  apply rooted_bind; [apply rooted_parse_request | intros ok].
  destruct ok; cbn [negb]; [|repeat rooted_step].
  apply rooted_bind; [repeat rooted_step | intros h0].
  unfold CORSRequestHandler.lookup_method.
  repeat match goal with
         | |- context [if ?b then Some _ else _] => destruct b
         end.
  - apply rooted_confined, confined_do_GET, keeps_end_headers.
  - apply rooted_confined, confined_do_HEAD, keeps_end_headers.
  - apply rooted_keeps, keeps_do_OPTIONS.
  - repeat rooted_step.
Qed.

Lemma rooted_handle rs :
  rooted root (CORSRequestHandler.handle P FS rs).
Proof.
  unfold CORSRequestHandler.handle, handle.
  apply rooted_bind; [repeat rooted_step | intros _].
  induction rs as [|r rs IH]; cbn [handle_next]; [repeat rooted_step|].
  apply rooted_bind; [apply rooted_handle_one_request | intros _].
  apply rooted_bind; [repeat rooted_step | intros h0].
  destruct (close_connection h0); [repeat rooted_step | exact IH].
Qed.

End Connections.

(** *** What [end_headers] emits *)

Lemma skipn_length_app {A : Type} (a b : list A) :
  skipn (List.length a) (a ++ b) = b.
Proof. induction a; cbn; auto. Qed.

Lemma base_end_headers_run h b :
  request_version h <> "HTTP/0.9" ->
  _headers_buffer h = Some b ->
  BaseHTTPRequestHandler.base_end_headers h
  = Ok tt (with_output h (close_connection h) (Some [])
             (app (wfile h) [Py.join_bytes b ++ Py.CRLF])
             (stderr h) (accesses h)).
Proof.
  intros Hv%version_neq Hb.
  unfold BaseHTTPRequestHandler.base_end_headers, bind, get.
  rewrite Hv, Hb. cbn. rewrite Hb. cbn. unfold with_output.
  now rewrite join_bytes_snoc.
Qed.

Lemma end_headers_http09 h :
  request_version h = "HTTP/0.9" ->
  CORSRequestHandler.end_headers h = Ok tt h.
Proof.
  intros Hv.
  unfold CORSRequestHandler.end_headers, BaseHTTPRequestHandler.send_header,
    BaseHTTPRequestHandler.base_end_headers, bind, get, ret.
  cbn. repeat (rewrite Hv; cbn). reflexivity.
Qed.

Lemma length_append (a b : string) :
  String.length (a ++ b) = (String.length a + String.length b)%nat.
Proof. induction a; cbn; auto. Qed.

Lemma substring_all (b c : string) :
  substring 0 (String.length b) (b ++ c) = b.
Proof.
  induction b as [|x b IH]; cbn [String.length append substring].
  - now destruct c.
  - now rewrite IH.
Qed.

Lemma substring_middle (a b : string) :
  substring (String.length a)
    (String.length (a ++ b ++ Py.CRLF) - String.length a
     - String.length Py.CRLF)
    (a ++ b ++ Py.CRLF)
  = b.
Proof.
  rewrite !length_append.
  replace (String.length a + (String.length b + String.length Py.CRLF)
           - String.length a - String.length Py.CRLF)%nat
    with (String.length b) by lia.
  induction a as [|c a IH]; cbn [String.length append substring].
  - apply substring_all.
  - exact IH.
Qed.

Lemma added_is_cors_block h :
  request_version h <> "HTTP/0.9" -> added h = cors_block.
Proof.
  intros Hv. unfold added, emitted. rewrite end_headers_run by exact Hv.
  cbn [final with_output wfile]. rewrite skipn_length_app.
  cbn [Py.join_bytes fold_right]. rewrite append_nil_r.
  apply substring_middle.
Qed.

Lemma added_http09 h : request_version h = "HTTP/0.9" -> added h = "".
Proof.
  intros Hv. unfold added, emitted. rewrite end_headers_http09 by exact Hv.
  cbn [final]. rewrite skipn_all. cbn.
  now destruct (String.length (pending h)).
Qed.

(* ================================================================= *)
(** ** Properties of the server *)

(** C1 (as amended).  For every request that is handled with a request
    version other than HTTP/0.9, whatever its method, its path and the
    resulting status code: what the handler sends starts with one header
    chunk made of the lines buffered before, the status line and the headers
    of the base handler, then the four lines [Access-Control-Allow-Origin:
    *], [Access-Control-Allow-Methods: GET, OPTIONS],
    [Access-Control-Allow-Headers: *] and [Cache-Control: no-store,
    no-cache, must-revalidate, max-age=0], then the blank line; and such a
    reply is sent whenever the request is not empty and its handling
    returns.  The override sends the lines the base [end_headers] would
    send, unchanged, with the four lines added after them. *)
Theorem cors_headers_follow_base_headers (P : platform) (FS : filesystem) :
  (forall r h,
      let h' := final (CORSRequestHandler.handle_one_request P FS r h) in
      request_version h' <> "HTTP/0.9" ->
      wfile h' <> wfile h ->
      replied h h')
  /\ (forall r h u h',
         CORSRequestHandler.handle_one_request P FS r h = Ok u h' ->
         request_version h' <> "HTTP/0.9" ->
         BaseHTTPRequestHandler.raw_requestline r <> "" ->
         replied h h')
  /\ (forall h b,
         request_version h <> "HTTP/0.9" ->
         _headers_buffer h = Some b ->
         emitted BaseHTTPRequestHandler.base_end_headers h
         = [Py.join_bytes b ++ Py.CRLF]
         /\ emitted CORSRequestHandler.end_headers h
            = [Py.join_bytes b ++ cors_block ++ Py.CRLF]).
Proof.
  split; [|split].
  - intros r h h' Hv Hw.
    destruct (handle_one_request_cases P FS r h) as [H|[H|H]];
      [contradiction | contradiction | exact H].
  - intros r h u h' E Hv Hr.
    destruct (handle_one_request_returns P FS r h u h' E) as [H|[H|H]];
      [contradiction | contradiction | exact H].
  - intros h b Hv Hb. unfold emitted.
    rewrite (base_end_headers_run h b Hv Hb), (end_headers_run h Hv).
    cbn [final with_output wfile]. rewrite !skipn_length_app.
    unfold pending. now rewrite Hb.
Qed.

Lemma cors_headers_follow_base_headers_witness :
  let r := Demo.request "GET /a.txt HTTP/1.1" in
  let h' :=
    final (CORSRequestHandler.handle_one_request Demo.P Demo.FS r Demo.fresh)
  in
  request_version h' <> "HTTP/0.9"
  /\ wfile h' <> wfile Demo.fresh
  /\ replied Demo.fresh h'.
Proof.
  cbv zeta.
  assert (H1 : request_version
                 (final (CORSRequestHandler.handle_one_request Demo.P Demo.FS
                           (Demo.request "GET /a.txt HTTP/1.1") Demo.fresh))
               <> "HTTP/0.9") by (vm_compute; discriminate).
  assert (H2 : wfile
                 (final (CORSRequestHandler.handle_one_request Demo.P Demo.FS
                           (Demo.request "GET /a.txt HTTP/1.1") Demo.fresh))
               <> wfile Demo.fresh) by (vm_compute; discriminate).
  split; [exact H1|]. split; [exact H2|].
  exact (proj1 (cors_headers_follow_base_headers Demo.P Demo.FS)
           (Demo.request "GET /a.txt HTTP/1.1") Demo.fresh H1 H2).
Defined.

(** The request line [GET /a.txt] has no version: it is served as
    HTTP/0.9, and the response is the file and nothing else.  A request
    line with a fourth word is refused with the page of error 400 alone,
    without status line or header. *)
Lemma http09_response_without_cors_headers :
  let h' := Demo.serve "GET /a.txt" in
  let e' := Demo.serve "GET /a.txt HTTP/1.1 x" in
  command h' = Some "GET"
  /\ sent h' = "hello"
  /\ has_cors_headers (sent h') = false
  /\ Py.contains (sent e') "Error code: 400" = true
  /\ has_status 400 (sent e') = false
  /\ has_cors_headers (sent e') = false.
Proof. vm_compute. repeat split. Qed.

(** C2.  For every [GET] or [HEAD] request, whatever its path: the paths
    given to [open] and to [os.listdir] descend from the root directory;
    they are the root extended by simple names and separators, so that no
    [..] of the request reaches the file system. *)
Theorem traversal_stays_under_root (P : platform) (FS : filesystem)
  (h : handler) (a : fs_access) :
  In a (accesses (final (CORSRequestHandler.do_GET P FS h)))
  \/ In a (accesses (final (CORSRequestHandler.do_HEAD P FS h))) ->
  In a (accesses h) \/ ok_access (directory h) a.
Proof.
  intros [H|H].
  - destruct (confined_do_GET P FS _ keeps_end_headers (directory h) h eq_refl)
      as (_ & new & Ha & Hn).
    unfold CORSRequestHandler.do_GET in H. rewrite Ha in H.
    apply in_app_or in H as [H|H]; [now left | right].
    rewrite Forall_forall in Hn. now apply Hn.
  - destruct (confined_do_HEAD P FS _ keeps_end_headers (directory h) h eq_refl)
      as (_ & new & Ha & Hn).
    unfold CORSRequestHandler.do_HEAD in H. rewrite Ha in H.
    apply in_app_or in H as [H|H]; [now left | right].
    rewrite Forall_forall in Hn. now apply Hn.
Qed.

Lemma traversal_stays_under_root_witness :
  let h := Demo.parsed "GET /../../etc/passwd HTTP/1.1" in
  let a := FsOpen "public/etc/passwd" in
  (In a (accesses (final (CORSRequestHandler.do_GET Demo.P Demo.FS h)))
   \/ In a (accesses (final (CORSRequestHandler.do_HEAD Demo.P Demo.FS h))))
  /\ (In a (accesses h) \/ ok_access (directory h) a).
Proof.
  cbv zeta.
  assert (H : In (FsOpen "public/etc/passwd")
                (accesses
                   (final (CORSRequestHandler.do_GET Demo.P Demo.FS
                             (Demo.parsed "GET /../../etc/passwd HTTP/1.1"))))
              \/ In (FsOpen "public/etc/passwd")
                   (accesses
                      (final
                         (CORSRequestHandler.do_HEAD Demo.P Demo.FS
                            (Demo.parsed "GET /../../etc/passwd HTTP/1.1")))))
    by (left; vm_compute; right; left; reflexivity).
  split; [exact H|].
  exact (traversal_stays_under_root Demo.P Demo.FS
           (Demo.parsed "GET /../../etc/passwd HTTP/1.1")
           (FsOpen "public/etc/passwd") H).
Defined.

(** C3 (as amended).  For every [OPTIONS] request handled with a request
    version other than HTTP/0.9, on any path: the method of the class for
    [OPTIONS] is [do_OPTIONS], which returns after it has sent one chunk,
    made of the status line [200 ok], the [Server] and [Date] headers, the
    four CORS and no-cache headers and the blank line; it sends no body and
    makes no file-system call. *)
Theorem options_preflight_reply (P : platform) (h : handler) :
  request_version h <> "HTTP/0.9" ->
  exists h',
    (forall FS,
        CORSRequestHandler.lookup_method P FS "OPTIONS"
        = Some (CORSRequestHandler.do_OPTIONS P))
    /\ CORSRequestHandler.do_OPTIONS P h = Ok tt h'
    /\ emitted (CORSRequestHandler.do_OPTIONS P) h
       = [pending h
          ++ Py.join_bytes
               [status_line 200 (Some "ok");
                header_line "Server"
                  (BaseHTTPRequestHandler.version_string P);
                header_line "Date" (date_now P)]
          ++ cors_block ++ Py.CRLF]
    /\ accesses h' = accesses h.
Proof.
  intros Hv. eexists. split; [reflexivity|].
  split; [apply (do_OPTIONS_run P h Hv)|].
  unfold emitted. rewrite (do_OPTIONS_run P h Hv).
  cbn [final with_output wfile accesses]. rewrite skipn_length_app.
  split; reflexivity.
Qed.

Lemma options_preflight_reply_witness :
  let h := Demo.parsed "OPTIONS /anything HTTP/1.1" in
  request_version h <> "HTTP/0.9"
  /\ exists h',
       (forall FS,
           CORSRequestHandler.lookup_method Demo.P FS "OPTIONS"
           = Some (CORSRequestHandler.do_OPTIONS Demo.P))
       /\ CORSRequestHandler.do_OPTIONS Demo.P h = Ok tt h'
       /\ emitted (CORSRequestHandler.do_OPTIONS Demo.P) h
          = [pending h
             ++ Py.join_bytes
                  [status_line 200 (Some "ok");
                   header_line "Server"
                     (BaseHTTPRequestHandler.version_string Demo.P);
                   header_line "Date" (date_now Demo.P)]
             ++ cors_block ++ Py.CRLF]
       /\ accesses h' = accesses h.
Proof.
  cbv zeta.
  assert (H : request_version (Demo.parsed "OPTIONS /anything HTTP/1.1")
              <> "HTTP/0.9") by (vm_compute; discriminate).
  split; [exact H|].
  exact (options_preflight_reply Demo.P
           (Demo.parsed "OPTIONS /anything HTTP/1.1") H).
Defined.

(** The request line [OPTIONS /anything HTTP/0.9] is dispatched to
    [do_OPTIONS] and nothing at all is sent: no status [200], no header. *)
Lemma options_http09_sends_nothing :
  let h' := Demo.serve "OPTIONS /anything HTTP/0.9" in
  command h' = Some "OPTIONS"
  /\ wfile h' = []
  /\ has_status 200 (sent h') = false
  /\ has_cors_headers (sent h') = false.
Proof. vm_compute. repeat split. Qed.

(** C4 (as amended).  For every [GET] request handled with a request
    version other than HTTP/0.9 whose translated path is no directory: when
    the path ends with a separator or [open] fails with [OSError] (no such
    file, no permission), the handler returns after it has sent the status
    line [404 File not found], headers, the four CORS and no-cache headers
    and the blank line; when [open] raises another exception ([ValueError]
    for a path with a null character), the handler raises it and nothing is
    sent or logged by the handler.  In both cases the error stays within the
    connection: the handler of a connection keeps its root directory, the
    server prints the exception of a handler on its error stream and goes
    on, and whatever the connections and the outcomes of their handlers,
    serving them leaves the listening socket, the operations made on it and
    the standard output as they were, each connection being answered by a
    handler of its own made for the root directory. *)
Theorem missing_file_is_404_and_contained (P : platform) (FS : filesystem) :
  (forall h,
      request_version h <> "HTTP/0.9" ->
      let p :=
        SimpleHTTPRequestHandler.translate_path P (directory h) (self_path h)
      in
      fs_isdir FS p = false ->
      (Py.endswith p "/" = true \/ fs_open FS p = OpenOSError ->
       exists h',
         CORSRequestHandler.do_GET P FS h = Ok tt h'
         /\ answered_with 404 (Some "File not found") h h')
      /\ (forall e,
             Py.endswith p "/" = false ->
             fs_open FS p = OpenRaises e ->
             exists h',
               CORSRequestHandler.do_GET P FS h = Raise e h'
               /\ wfile h' = wfile h
               /\ stderr h' = stderr h))
  /\ (forall W root c p,
         let o :=
           CORSRequestHandler.handle (the_platform W) (the_filesystem W)
             (requests c) (CORSRequestHandler.new root (peer_host c)) in
         let p' := TCPServer.handle_request W root c p in
         directory (final o) = root
         /\ listening p' = listening p
         /\ events p' = events p
         /\ stdout p' = stdout p
         /\ responses p' = app (responses p) [wfile (final o)]
         /\ (forall e h, o = Raise e h -> In (Traceback e) (proc_stderr p')))
  /\ (forall W root conns p,
         let p' :=
           fold_left (fun p c => TCPServer.handle_request W root c p) conns p
         in
         listening p' = listening p
         /\ events p' = events p
         /\ stdout p' = stdout p
         /\ responses p'
            = app (responses p)
                (map (fun c =>
                        wfile
                          (final
                             (CORSRequestHandler.handle (the_platform W)
                                (the_filesystem W) (requests c)
                                (CORSRequestHandler.new root (peer_host c)))))
                   conns)).
Proof.
  split; [|split].
  - intros h Hv p Hd. split.
    + intros Ho. now apply do_GET_not_found.
    + intros e He Ho.
      destruct (do_GET_open_raises P FS h e Hd He Ho)
        as (h' & E & Hw & _ & Hs).
      now exists h'.
  - intros W root c p. cbn zeta.
    destruct (handle_request_frame W root c p) as (H1 & H2 & H3 & H4 & _).
    split.
    + now destruct (rooted_handle (the_platform W) (the_filesystem W) root
                      (requests c) (CORSRequestHandler.new root (peer_host c))
                      eq_refl).
    + repeat split; try assumption.
      intros e h E. now apply (handle_request_reports W root c p e h).
  - intros W root conns p.
    destruct (serve_loop_frame W root conns p) as (H1 & H2 & H3 & H4 & _).
    cbn zeta. repeat split; assumption.
Qed.

Lemma missing_file_is_404_and_contained_witness :
  let h := Demo.parsed "GET /missing.txt HTTP/1.1" in
  let p :=
    SimpleHTTPRequestHandler.translate_path Demo.P (directory h) (self_path h)
  in
  request_version h <> "HTTP/0.9"
  /\ fs_isdir Demo.FS p = false
  /\ fs_open Demo.FS p = OpenOSError
  /\ exists h',
       CORSRequestHandler.do_GET Demo.P Demo.FS h = Ok tt h'
       /\ answered_with 404 (Some "File not found") h h'.
Proof.
  cbv zeta.
  assert (H1 : request_version (Demo.parsed "GET /missing.txt HTTP/1.1")
               <> "HTTP/0.9") by (vm_compute; discriminate).
  assert (H2 : fs_isdir Demo.FS
                 (SimpleHTTPRequestHandler.translate_path Demo.P
                    (directory (Demo.parsed "GET /missing.txt HTTP/1.1"))
                    (self_path (Demo.parsed "GET /missing.txt HTTP/1.1")))
               = false) by (vm_compute; reflexivity).
  assert (H3 : fs_open Demo.FS
                 (SimpleHTTPRequestHandler.translate_path Demo.P
                    (directory (Demo.parsed "GET /missing.txt HTTP/1.1"))
                    (self_path (Demo.parsed "GET /missing.txt HTTP/1.1")))
               = OpenOSError) by (vm_compute; reflexivity).
  repeat (split; [assumption|]).
  exact (proj1
           (proj1 (missing_file_is_404_and_contained Demo.P Demo.FS)
              (Demo.parsed "GET /missing.txt HTTP/1.1") H1 H2)
           (or_intror H3)).
Defined.

(** The request line [GET /missing.txt] has no version: the page of the
    error is sent without a status line and without any header.  The
    request line [GET /a.txt%00junk HTTP/1.1] names no file: [open] refuses
    the null character, the handler raises [ValueError] and no response at
    all is sent. *)
Lemma missing_file_without_404 :
  let h' := Demo.serve "GET /missing.txt" in
  let o :=
    CORSRequestHandler.handle_one_request Demo.P1 Demo.OS
      (Demo.request "GET /a.txt%00junk HTTP/1.1") Demo.fresh in
  let p := "public/a.txt" ++ Py.chr 0 ++ "junk" in
  fs_open Demo.FS "public/missing.txt" = OpenOSError
  /\ accesses h' = [FsIsdir "public/missing.txt"; FsOpen "public/missing.txt"]
  /\ has_status 404 (sent h') = false
  /\ has_cors_headers (sent h') = false
  /\ fs_isdir Demo.OS p = false
  /\ fs_isfile Demo.OS p = false
  /\ (exists h, o = Raise Demo.null_byte h
                /\ request_version h = "HTTP/1.1"
                /\ accesses h = [FsIsdir p; FsOpen p])
  /\ wfile (final o) = [].
Proof.
  vm_compute. repeat split. eexists. repeat split; reflexivity.
Qed.

(** C5.  If the listening socket cannot be bound on the configured port
    (the system call fails: address in use, permission denied), the process
    exits with status 1 without entering [serve_forever]; it prints the
    traceback of the error and no line at all, so never the message
    [Serving ...]; the only [bind] of the run is the one on the configured
    port, and the socket is closed. *)
Theorem bind_failure_is_fatal (W : world) (ports dirs : list string)
  (n : Z) (message : string) :
  argparse.convert_ports 8000 ports = inr n ->
  0 <= n <= 65535 ->
  os_bind W n = BindOSError message ->
  let p := fst (main W (CliOptions ports dirs)) in
  snd (main W (CliOptions ports dirs)) = Exit 1
  /\ ~ In ServeForever (events p)
  /\ (forall text, ~ In (Line text) (proc_stderr p))
  /\ proc_stderr p = [Traceback (PyException "OSError" message)]
  /\ stdout p = []
  /\ filter is_bind (events p) = [Bind n]
  /\ listening p = SockClosed.
Proof.
  intros H Hn Hb. rewrite (main_bind_fails W ports dirs n message H Hn Hb).
  cbn. repeat split; try reflexivity.
  - intros [E|[E|[E|[E|[]]]]]; discriminate.
  - intros text [E|[]]. discriminate.
Qed.

Lemma bind_failure_is_fatal_witness :
  let W := Demo.W (BindOSError "[Errno 98] Address already in use")
             KeyboardInterrupt in
  let p := fst (main W (CliOptions ["8000"] ["public"])) in
  argparse.convert_ports 8000 ["8000"] = inr 8000
  /\ 0 <= 8000 <= 65535
  /\ os_bind W 8000 = BindOSError "[Errno 98] Address already in use"
  /\ snd (main W (CliOptions ["8000"] ["public"])) = Exit 1
  /\ ~ In ServeForever (events p)
  /\ (forall text, ~ In (Line text) (proc_stderr p))
  /\ proc_stderr p
     = [Traceback (PyException "OSError" "[Errno 98] Address already in use")]
  /\ stdout p = []
  /\ filter is_bind (events p) = [Bind 8000]
  /\ listening p = SockClosed.
Proof.
  cbv zeta.
  assert (H1 : argparse.convert_ports 8000 ["8000"] = inr 8000)
    by (vm_compute; reflexivity).
  assert (H2 : 0 <= 8000 <= 65535) by lia.
  assert (H3 : os_bind
                 (Demo.W (BindOSError "[Errno 98] Address already in use")
                    KeyboardInterrupt) 8000
               = BindOSError "[Errno 98] Address already in use")
    by reflexivity.
  repeat (split; [assumption|]).
  exact (bind_failure_is_fatal
           (Demo.W (BindOSError "[Errno 98] Address already in use")
              KeyboardInterrupt)
           ["8000"] ["public"] 8000 "[Errno 98] Address already in use"
           H1 H2 H3).
Defined.

(** C6 (as amended).  In every run that creates the listening socket, its
    descriptor is released exactly once and the socket ends closed.  The
    calls of [server_close] are two in every run that enters
    [serve_forever], one by the [finally] clause and one by the exit of the
    [with] statement, the second on a socket that is already closed; they
    are one in a run where the socket cannot be bound. *)
Theorem socket_released_once (W : world) (cl : command_line) :
  let p := fst (main W cl) in
  (events p = [] /\ listening p = NoSocket)
  \/ (count FdClose (events p) = 1%nat
      /\ listening p = SockClosed
      /\ count ServerClose (events p)
         = if existsb (sock_event_eqb ServeForever) (events p)
           then 2%nat else 1%nat).
Proof.
  cbn zeta. destruct cl as [|message|ports dirs]; [now left | now left|].
  destruct (argparse.convert_ports 8000 ports) as [s|n] eqn:H.
  - left. now rewrite (main_rejects_port W ports dirs s H).
  - right. destruct (Z_lt_ge_dec n 0) as [Hlo|Hlo].
    + rewrite (main_port_out_of_range W ports dirs n H) by now left.
      cbn. repeat split.
    + destruct (Z_lt_ge_dec 65535 n) as [Hhi|Hhi].
      * rewrite (main_port_out_of_range W ports dirs n H) by now right.
        cbn. repeat split.
      * assert (Hn : 0 <= n <= 65535) by lia.
        destruct (os_bind W n) as [|message] eqn:Hb.
        -- destruct (main_serves W ports dirs n H Hn Hb) as (logs & E).
           rewrite E. cbn. repeat split.
        -- rewrite (main_bind_fails W ports dirs n message H Hn Hb).
           cbn. repeat split.
Qed.

(** With the default options and an interrupt, [server_close] is called
    twice on the listening socket. *)
Lemma server_close_called_twice :
  let p := fst (main (Demo.W BindOk KeyboardInterrupt) (CliOptions [] [])) in
  count ServerClose (events p) = 2%nat
  /\ count ServerClose (events p) <> 1%nat.
Proof. vm_compute. split; [reflexivity | discriminate]. Qed.

(** C7 (as amended).  The port is any integer that [int] reads from the
    value of [--port/-p], 8000 when the option is absent; the argument
    parser checks no range.  A value [int] refuses makes the parser print
    the usage and exit with status 2 before any socket exists.  An integer
    below 0 or above 65535 is refused by [bind]: the process prints a
    traceback, not the usage, and exits with status 1 without entering
    [serve_forever].  Every integer from 0 to 65535, 0 included, is given to
    [bind], and the server is entered when [bind] succeeds. *)
Theorem port_is_any_integer (W : world) (ports dirs : list string) :
  let p := fst (main W (CliOptions ports dirs)) in
  let status := snd (main W (CliOptions ports dirs)) in
  argparse.convert_ports 8000 [] = inr 8000
  /\ match argparse.convert_ports 8000 ports with
     | inl s =>
         status = Exit 2 /\ In Usage (proc_stderr p) /\ events p = []
     | inr n =>
         if Z.ltb n 0 || Z.ltb 65535 n then
           status = Exit 1
           /\ ~ In Usage (proc_stderr p)
           /\ ~ In ServeForever (events p)
         else
           In (Bind n) (events p)
           /\ match os_bind W n with
              | BindOk => In ServeForever (events p)
              | BindOSError _ => ~ In ServeForever (events p)
              end
     end.
Proof.
  cbn zeta. split; [reflexivity|].
  destruct (argparse.convert_ports 8000 ports) as [s|n] eqn:H.
  - rewrite (main_rejects_port W ports dirs s H). cbn. auto.
  - destruct (Z.ltb n 0 || Z.ltb 65535 n) eqn:Hr.
    + apply orb_true_iff in Hr.
      rewrite (main_port_out_of_range W ports dirs n H)
        by (destruct Hr as [Hr|Hr]; apply Z.ltb_lt in Hr; auto).
      cbn. repeat split.
      * intros [X|[]]. discriminate.
      * intros [X|[X|[X|[]]]]; discriminate.
    + apply orb_false_iff in Hr as [Hlo Hhi].
      apply Z.ltb_ge in Hlo, Hhi.
      assert (Hn : 0 <= n <= 65535) by lia.
      destruct (os_bind W n) as [|message] eqn:Hb.
      * destruct (main_serves W ports dirs n H Hn Hb) as (logs & E).
        rewrite E. cbn. auto 10.
      * rewrite (main_bind_fails W ports dirs n message H Hn Hb). cbn.
        split; [auto|]. intros [E|[E|[E|[E|[]]]]]; discriminate.
Qed.

(** [--port 0] is outside 1..65535 and the server is entered; [--port
    70000] ends the process without the usage being printed. *)
Lemma port_out_of_range_not_rejected :
  let W := Demo.W BindOk KeyboardInterrupt in
  let zero := main W (CliOptions ["0"] []) in
  let large := main W (CliOptions ["70000"] []) in
  argparse.convert_ports 8000 ["0"] = inr 0
  /\ In ServeForever (events (fst zero))
  /\ hd_error (proc_stderr (fst zero))
     = Some (Line "Serving 'public' at http://localhost:0 with CORS enabled")
  /\ snd zero = Exit 0
  /\ argparse.convert_ports 8000 ["70000"] = inr 70000
  /\ proc_stderr (fst large)
     = [Traceback
          (PyException "OverflowError" "bind(): port must be 0-65535.")].
Proof. vm_compute. repeat split. auto 10. Qed.

(** C8.  When an interrupt is received while serving, the process prints
    [Shutting down server...] as the last line of its error stream, where
    [Serving '<dir>' at http://localhost:<port> with CORS enabled] was the
    first; it prints nothing on its standard output and exits with
    status 0. *)
Theorem interrupt_prints_shutdown_message (W : world)
  (ports dirs : list string) (n : Z) :
  argparse.convert_ports 8000 ports = inr n ->
  0 <= n <= 65535 ->
  os_bind W n = BindOk ->
  ending W = KeyboardInterrupt ->
  let p := fst (main W (CliOptions ports dirs)) in
  (exists logs,
      proc_stderr p
      = serving_message (mkNamespace n (last dirs "public"))
        :: logs ++ [Line "Shutting down server..."])
  /\ stdout p = []
  /\ snd (main W (CliOptions ports dirs)) = Exit 0
  /\ listening p = SockClosed.
Proof.
  intros H Hn Hb He.
  destruct (main_serves W ports dirs n H Hn Hb) as (logs & E).
  rewrite E, He. cbn. repeat split. now exists logs.
Qed.

Lemma interrupt_prints_shutdown_message_witness :
  let W := Demo.W BindOk KeyboardInterrupt in
  let p := fst (main W (CliOptions ["8080"] ["public"])) in
  argparse.convert_ports 8000 ["8080"] = inr 8080
  /\ 0 <= 8080 <= 65535
  /\ os_bind W 8080 = BindOk
  /\ ending W = KeyboardInterrupt
  /\ (exists logs,
         proc_stderr p
         = serving_message (mkNamespace 8080 (last ["public"] "public"))
           :: logs ++ [Line "Shutting down server..."])
  /\ stdout p = []
  /\ snd (main W (CliOptions ["8080"] ["public"])) = Exit 0
  /\ listening p = SockClosed.
Proof.
  cbv zeta.
  assert (H1 : argparse.convert_ports 8000 ["8080"] = inr 8080)
    by (vm_compute; reflexivity).
  assert (H2 : 0 <= 8080 <= 65535) by lia.
  assert (H3 : os_bind (Demo.W BindOk KeyboardInterrupt) 8080 = BindOk)
    by reflexivity.
  assert (H4 : ending (Demo.W BindOk KeyboardInterrupt) = KeyboardInterrupt)
    by reflexivity.
  repeat (split; [assumption|]).
  exact (interrupt_prints_shutdown_message (Demo.W BindOk KeyboardInterrupt)
           ["8080"] ["public"] 8080 H1 H2 H3 H4).
Defined.



(** C10 (as amended).  The bytes [end_headers] adds between the buffered
    header lines and the blank line do not depend on the request: for any
    two requests that are both handled with a request version other than
    HTTP/0.9, whatever their method, path, request headers and buffered
    lines, they are the same, namely the four lines with their constant
    values; for a request handled as HTTP/0.9 nothing is added. *)
Theorem cors_header_values_are_constant (h1 h2 : handler) :
  (request_version h1 <> "HTTP/0.9" ->
   request_version h2 <> "HTTP/0.9" ->
   added h1 = added h2 /\ added h1 = cors_block)
  /\ (request_version h1 = "HTTP/0.9" -> added h1 = "").
Proof.
  split.
  - intros H1 H2.
    rewrite (added_is_cors_block h1 H1), (added_is_cors_block h2 H2). auto.
  - apply added_http09.
Qed.

Lemma cors_header_values_are_constant_witness :
  let h1 := Demo.parsed "GET /a.txt HTTP/1.1" in
  let h2 :=
    set_headers [("Origin", "http://localhost:3000")]
      (Demo.parsed "OPTIONS /api/items?page=2 HTTP/1.0") in
  request_version h1 <> "HTTP/0.9"
  /\ request_version h2 <> "HTTP/0.9"
  /\ added h1 = added h2
  /\ added h1 = cors_block.
Proof.
  cbv zeta.
  assert (H1 : request_version (Demo.parsed "GET /a.txt HTTP/1.1")
               <> "HTTP/0.9") by (vm_compute; discriminate).
  assert (H2 : request_version
                 (set_headers [("Origin", "http://localhost:3000")]
                    (Demo.parsed "OPTIONS /api/items?page=2 HTTP/1.0"))
               <> "HTTP/0.9") by (vm_compute; discriminate).
  split; [exact H1|]. split; [exact H2|].
  exact (proj1
           (cors_header_values_are_constant
              (Demo.parsed "GET /a.txt HTTP/1.1")
              (set_headers [("Origin", "http://localhost:3000")]
                 (Demo.parsed "OPTIONS /api/items?page=2 HTTP/1.0")))
           H1 H2).
Defined.

(** The same file asked for with and without a version: [end_headers] adds
    the four lines for [GET /a.txt HTTP/1.1] and nothing for [GET /a.txt],
    which is handled as HTTP/0.9. *)
Lemma http09_request_adds_no_cors_values :
  let h1 := Demo.parsed "GET /a.txt HTTP/1.1" in
  let h2 := Demo.parsed "GET /a.txt" in
  command h1 = command h2
  /\ self_path h1 = self_path h2
  /\ added h1 = cors_block
  /\ added h2 = ""
  /\ added h1 <> added h2.
Proof. vm_compute. repeat split. discriminate. Qed.

(* ================================================================= *)
(** ** Further properties of the handler and of [main] *)

(** *** A connection is closed after its first request *)

Lemma closing_ret {A : Type} (a : A) : closing (ret a).
Proof. now intros h. Qed.

Lemma closing_get : closing get.
Proof. now intros h. Qed.

Lemma closing_raise {A : Type} (e : exn) : closing (@raise A e).
Proof. now intros h. Qed.

Lemma closing_bind {A B : Type} (c : M A) (k : A -> M B) :
  closing c -> (forall a, closing (k a)) -> closing (bind c k).
Proof.
  intros Hc Hk h Hh. rewrite final_bind. specialize (Hc h Hh).
  destruct (c h) as [a h'|e h']; cbn in *; [now apply Hk | exact Hc].
Qed.

Lemma closing_modify (f : handler -> handler) :
  (forall h, close_connection h = true -> close_connection (f h) = true) ->
  closing (modify f).
Proof. intros H h. apply H. Qed.

Section Closing.
Import BaseHTTPRequestHandler.
Variable P : platform.

Lemma closing_send_header k v :
  connection_after k v true = true -> closing (send_header k v).
Proof.
  unfold connection_after, send_header, buffer_append. intros H.
  apply closing_bind; [apply closing_get | intros h0].
  apply closing_bind.
  - destruct (request_version h0 =? "HTTP/0.9");
      [apply closing_ret | now apply closing_modify].
  - intros _.
    destruct (Py.lower k =? "connection"); [|apply closing_ret].
    destruct (Py.lower v =? "close"); [now apply closing_modify|].
    destruct (Py.lower v =? "keep-alive"); [discriminate | apply closing_ret].
Qed.

End Closing.

Ltac closing_step :=
  cbv beta;
  lazymatch goal with
  | |- closing (ret _) => simple apply closing_ret
  | |- closing get => simple apply closing_get
  | |- closing (raise _) => simple apply closing_raise
  | |- closing (BaseHTTPRequestHandler.send_header _ _) =>
      simple apply closing_send_header; reflexivity
  | |- closing (modify (set_close_connection false)) => fail
  | |- closing (modify _) =>
      simple apply closing_modify; intros ? ?; first [ reflexivity | assumption ]
  | |- closing (wfile_write _) =>
      apply closing_modify; intros ? ?; assumption
  | |- closing (stderr_write _) =>
      apply closing_modify; intros ? ?; assumption
  | |- closing (record_access _) =>
      apply closing_modify; intros ? ?; assumption
  | |- closing (BaseHTTPRequestHandler.buffer_append _) =>
      apply closing_modify; intros ? ?; assumption
  | |- closing (bind _ _) => simple apply closing_bind; [ | intros ? ]
  | |- closing (if ?b then _ else _) => destruct b
  | |- closing (match ?x with _ => _ end) => destruct x
  | |- closing ?c => first [ assumption | fail ]
  end.

Section Closing2.
Import BaseHTTPRequestHandler.
Variable P : platform.

Lemma closing_log_message m : closing (log_message P m).
Proof. unfold log_message. repeat closing_step. Qed.

Lemma closing_send_response_only code m : closing (send_response_only code m).
Proof. unfold send_response_only. repeat closing_step. Qed.

Lemma closing_base_end_headers : closing base_end_headers.
Proof. unfold base_end_headers, flush_headers. repeat closing_step. Qed.

Lemma closing_end_headers : closing CORSRequestHandler.end_headers.
Proof.
  pose proof closing_base_end_headers.
  unfold CORSRequestHandler.end_headers. repeat closing_step.
Qed.

Lemma closing_send_response code m : closing (send_response P code m).
Proof.
  unfold send_response, log_request.
  repeat first [ simple apply closing_log_message
               | simple apply closing_send_response_only
               | closing_step ].
Qed.

Lemma closing_send_error code m e :
  closing (send_error P CORSRequestHandler.end_headers code m e).
Proof.
  unfold send_error, log_error.
  repeat first [ simple apply closing_log_message
               | simple apply closing_send_response
               | simple apply closing_end_headers
               | closing_step ].
Qed.

Lemma closing_parse_request r :
  closing (parse_request P CORSRequestHandler.end_headers r).
Proof.
  unfold parse_request, parse_request_version, parse_request_headers,
    handle_expect_100.
  change (String.leb "HTTP/1.1" protocol_version) with false.
  repeat first [ rewrite andb_false_r
               | simple apply closing_send_error
               | simple apply closing_send_response_only
               | simple apply closing_end_headers
               | closing_step ].
Qed.

End Closing2.


Section Closing3.
Import BaseHTTPRequestHandler SimpleHTTPRequestHandler.
Variable P : platform.
Variable FS : filesystem.

Ltac closing_leaf :=
  first [ simple apply closing_log_message
        | simple apply closing_send_response
        | simple apply closing_send_response_only
        | simple apply closing_send_error
        | simple apply closing_end_headers
        | closing_step ].

Lemma closing_list_entries path names :
  closing (list_entries FS path names).
Proof.
  induction names as [|name names IH]; cbn [list_entries].
  - apply closing_ret.
  - unfold isdir, islink. repeat first [ exact IH | closing_leaf ].
Qed.

Lemma closing_list_directory path :
  closing (list_directory P FS CORSRequestHandler.end_headers path).
Proof.
  unfold list_directory.
  repeat first [ simple apply closing_list_entries | closing_leaf ].
Qed.

Lemma closing_send_file_head path :
  closing (send_file_head P FS CORSRequestHandler.end_headers path).
Proof. unfold send_file_head. repeat closing_leaf. Qed.

Lemma closing_send_head :
  closing (send_head P FS CORSRequestHandler.end_headers).
Proof.
  unfold send_head, isdir, isfile.
  repeat first [ simple apply closing_list_directory
               | simple apply closing_send_file_head
               | closing_leaf ].
Qed.

Lemma closing_handle_one_request r :
  closing (CORSRequestHandler.handle_one_request P FS r).
Proof.
  unfold CORSRequestHandler.handle_one_request, handle_one_request.
  destruct (Z.ltb 65536 (Py.len (raw_requestline r)));
    [repeat closing_leaf|].
  destruct (raw_requestline r =? ""); [repeat closing_step|].
  apply closing_bind; [apply closing_parse_request | intros ok].
  destruct ok; cbn [negb]; [|repeat closing_step].
  apply closing_bind; [repeat closing_step | intros h0].
  unfold CORSRequestHandler.lookup_method.
  repeat match goal with
         | |- context [if ?b then Some _ else _] => destruct b
         end.
  - unfold CORSRequestHandler.do_GET, do_GET, copyfile.
    repeat first [ simple apply closing_send_head | closing_leaf ].
  - unfold CORSRequestHandler.do_HEAD, do_HEAD.
    repeat first [ simple apply closing_send_head | closing_leaf ].
  - unfold CORSRequestHandler.do_OPTIONS. repeat closing_leaf.
  - repeat closing_leaf.
Qed.

(** Once [close_connection] is set, the loop of [handle] stops after the
    first request. *)
Lemma handle_next_first r rest h :
  close_connection h = true ->
  handle_next P CORSRequestHandler.end_headers
    (CORSRequestHandler.lookup_method P FS) (r :: rest) h
  = (CORSRequestHandler.handle_one_request P FS r ;; ret tt) h.
Proof.
  intros Hc. cbn [handle_next].
  pose proof (closing_handle_one_request r h Hc) as H.
  unfold CORSRequestHandler.handle_one_request in *. unfold bind.
  destruct (handle_one_request P CORSRequestHandler.end_headers
              (CORSRequestHandler.lookup_method P FS) r h) as [u h1|e h1];
    [|reflexivity].
  cbn in H. unfold get. now rewrite H.
Qed.

Lemma handle_first r rest h :
  CORSRequestHandler.handle P FS (r :: rest) h
  = (CORSRequestHandler.handle_one_request P FS r ;; ret tt)
      (set_close_connection true h).
Proof.
  unfold CORSRequestHandler.handle, handle.
  unfold bind at 1. unfold modify at 1.
  now apply handle_next_first.
Qed.

End Closing3.

(** X3.  No connection is kept alive: whatever the client sends after
    its first request (and whatever the version and the [Connection] header
    of that request), [handle] serves the first request only, and
    [close_connection] is set when it is done. *)
Theorem one_request_per_connection (P : platform) (FS : filesystem)
  (r : BaseHTTPRequestHandler.request)
  (rest : list BaseHTTPRequestHandler.request) (h : handler) :
  CORSRequestHandler.handle P FS (r :: rest) h
  = CORSRequestHandler.handle P FS [r] h
  /\ close_connection (final (CORSRequestHandler.handle P FS (r :: rest) h))
     = true.
Proof.
  rewrite (handle_first P FS r rest h), (handle_first P FS r [] h).
  split; [reflexivity|].
  rewrite final_bind.
  pose proof (closing_handle_one_request P FS r
                (set_close_connection true h) eq_refl) as H.
  destruct (CORSRequestHandler.handle_one_request P FS r
              (set_close_connection true h)); exact H.
Qed.

(** *** [send_response] on a request handled as HTTP/0.9 *)

Lemma send_response_http09 P code message h :
  request_version h = "HTTP/0.9" ->
  BaseHTTPRequestHandler.send_response P code message h
  = Ok tt (with_output h (close_connection h) (_headers_buffer h) (wfile h)
             (app (stderr h)
                [log_entry P h (Py.DQUOTE ++ requestline h ++ Py.DQUOTE
                                ++ " " ++ Py.str_of_int code ++ " -")])
             (accesses h)).
Proof.
  intros Hv.
  unfold BaseHTTPRequestHandler.send_response,
    BaseHTTPRequestHandler.log_request, BaseHTTPRequestHandler.log_message,
    BaseHTTPRequestHandler.send_response_only,
    BaseHTTPRequestHandler.send_header, stderr_write, bind, get, ret, modify.
  cbn. repeat (rewrite Hv; cbn). reflexivity.
Qed.

(** X1.  [end_headers] returns on every handler, also on one where no
    header was buffered before.  It leaves the request, [close_connection],
    the log and the file-system calls alone.  On a request handled as
    HTTP/0.9 it does nothing at all; otherwise it sends one chunk, the
    lines buffered before followed by the four lines and the blank line,
    and leaves the buffer empty. *)
Theorem end_headers_always_returns (h : handler) :
  exists h',
    CORSRequestHandler.end_headers h = Ok tt h'
    /\ request_of h' = request_of h
    /\ close_connection h' = close_connection h
    /\ stderr h' = stderr h
    /\ accesses h' = accesses h
    /\ if request_version h =? "HTTP/0.9"
       then wfile h' = wfile h /\ _headers_buffer h' = _headers_buffer h
       else wfile h' = app (wfile h) [pending h ++ cors_block ++ Py.CRLF]
            /\ _headers_buffer h' = Some [].
Proof.
  destruct (string_dec (request_version h) "HTTP/0.9") as [Hv|Hv].
  - exists h. rewrite (end_headers_http09 h Hv).
    apply String.eqb_eq in Hv. rewrite Hv. repeat split.
  - eexists. rewrite (end_headers_run h Hv), (version_neq h Hv).
    repeat split.
Qed.

(** X2.  [do_OPTIONS] returns on every handler and logs one line, the
    request line with status [200], also for a request handled as HTTP/0.9
    to which nothing is sent.  It leaves the request, [close_connection]
    and the file-system calls alone; when the request version is not
    HTTP/0.9 it sends the one chunk of its reply and leaves the buffer
    empty. *)
Theorem options_always_returns_and_is_logged (P : platform) (h : handler) :
  exists h',
    CORSRequestHandler.do_OPTIONS P h = Ok tt h'
    /\ stderr h'
       = app (stderr h)
           [log_entry P h (Py.DQUOTE ++ requestline h ++ Py.DQUOTE
                           ++ " 200 -")]
    /\ request_of h' = request_of h
    /\ close_connection h' = close_connection h
    /\ accesses h' = accesses h
    /\ if request_version h =? "HTTP/0.9"
       then wfile h' = wfile h /\ _headers_buffer h' = _headers_buffer h
       else wfile h'
            = app (wfile h)
                [pending h
                 ++ Py.join_bytes (response_lines P 200 (Some "ok"))
                 ++ cors_block ++ Py.CRLF]
            /\ _headers_buffer h' = Some [].
Proof.
  destruct (string_dec (request_version h) "HTTP/0.9") as [Hv|Hv].
  - eexists. unfold CORSRequestHandler.do_OPTIONS.
    rewrite (bind_Ok _ _ _ _ _ (send_response_http09 P 200 (Some "ok") h Hv)).
    rewrite end_headers_http09 by exact Hv.
    apply String.eqb_eq in Hv. rewrite Hv. repeat split.
  - eexists. rewrite (do_OPTIONS_run P h Hv), (version_neq h Hv).
    repeat split.
Qed.

(** X4.  For the handler that [functools.partial] makes for a connection:
    whatever the requests on the connection, every path given to [open] or
    to [os.listdir] while it is served descends from the directory the
    handler was made for. *)
Theorem connection_stays_under_root (W : world) (root : string)
  (c : connection) (a : fs_access) :
  In a (accesses (final (TCPServer.finish_request W root c))) ->
  ok_access root a.
Proof.
  intros H. unfold TCPServer.finish_request in H.
  destruct (rooted_handle (the_platform W) (the_filesystem W) root
              (requests c) (CORSRequestHandler.new root (peer_host c))
              eq_refl) as (_ & new & Ha & Hn).
  rewrite Ha in H. cbn in H. rewrite Forall_forall in Hn. now apply Hn.
Qed.

Lemma connection_stays_under_root_witness :
  let c :=
    mkConnection "127.0.0.1" 50000
      [Demo.request "GET /../../etc/passwd HTTP/1.1"] in
  let a := FsOpen "public/etc/passwd" in
  In a (accesses (final (TCPServer.finish_request
                           (Demo.W BindOk Returns) "public" c)))
  /\ ok_access "public" a.
Proof.
  cbv zeta.
  assert (H : In (FsOpen "public/etc/passwd")
                (accesses
                   (final
                      (TCPServer.finish_request (Demo.W BindOk Returns)
                         "public"
                         (mkConnection "127.0.0.1" 50000
                            [Demo.request "GET /../../etc/passwd HTTP/1.1"])))))
    by (vm_compute; right; left; reflexivity).
  split; [exact H|].
  exact (connection_stays_under_root (Demo.W BindOk Returns) "public"
           (mkConnection "127.0.0.1" 50000
              [Demo.request "GET /../../etc/passwd HTTP/1.1"])
           (FsOpen "public/etc/passwd") H).
Defined.

(** *** What [main] prints *)

(** X5.  The program prints on its standard output only the help page:
    every message, the usage and every traceback go to the error stream,
    and so does what the handlers log. *)
Theorem only_help_goes_to_stdout (W : world) (cl : command_line) :
  stdout (fst (main W cl))
  = match cl with CliHelp => [Help] | _ => [] end.
Proof.
  destruct cl as [|message|ports dirs]; [reflexivity | reflexivity|].
  destruct (argparse.convert_ports 8000 ports) as [s|n] eqn:H.
  - now rewrite (main_rejects_port W ports dirs s H).
  - destruct (Z_lt_ge_dec n 0) as [Hlo|Hlo].
    + now rewrite (main_port_out_of_range W ports dirs n H) by now left.
    + destruct (Z_lt_ge_dec 65535 n) as [Hhi|Hhi].
      * now rewrite (main_port_out_of_range W ports dirs n H) by now right.
      * assert (Hn : 0 <= n <= 65535) by lia.
        destruct (os_bind W n) as [|message] eqn:Hb.
        -- destruct (main_serves W ports dirs n H Hn Hb) as (logs & E).
           now rewrite E.
        -- now rewrite (main_bind_fails W ports dirs n message H Hn Hb).
Qed.

(** X6.  The line [Shutting down server...] is printed exactly when
    [serve_forever] was entered and left by [KeyboardInterrupt]: not when it
    returns or raises another exception, not when startup fails, and never
    by a handler or by [handle_error]. *)
Theorem shutdown_message_iff_interrupted (W : world) (cl : command_line) :
  In (Line "Shutting down server...") (proc_stderr (fst (main W cl)))
  <-> In ServeForever (events (fst (main W cl)))
      /\ ending W = KeyboardInterrupt.
Proof.
  destruct cl as [|message|ports dirs].
  - cbn. split; [intros [] | intros [[] _]].
  - cbn. split; [intros [E|[E|[]]]; discriminate | intros [[] _]].
  - destruct (argparse.convert_ports 8000 ports) as [s|n] eqn:H.
    { rewrite (main_rejects_port W ports dirs s H). cbn.
      split; [intros [E|[E|[]]]; discriminate | intros [[] _]]. }
    assert (forall e l,
               In (Line "Shutting down server...") [Traceback e] ->
               In ServeForever l /\ ending W = KeyboardInterrupt) as Ht
      by (intros e l [E|[]]; discriminate).
    destruct (Z_lt_ge_dec n 0) as [Hlo|Hlo].
    { rewrite (main_port_out_of_range W ports dirs n H) by now left.
      cbn [fst proc_stderr events]. split; [apply Ht|].
      intros [[E|[E|[E|[]]]] _]; discriminate. }
    destruct (Z_lt_ge_dec 65535 n) as [Hhi|Hhi].
    { rewrite (main_port_out_of_range W ports dirs n H) by now right.
      cbn [fst proc_stderr events]. split; [apply Ht|].
      intros [[E|[E|[E|[]]]] _]; discriminate. }
    assert (Hn : 0 <= n <= 65535) by lia.
    destruct (os_bind W n) as [|message] eqn:Hb.
    + destruct (main_serves_logs W ports dirs n H Hn Hb) as (logs & E & F).
      rewrite E. cbn [fst proc_stderr events].
      rewrite Forall_forall in F. split.
      * intros [X|X]; [discriminate|].
        apply in_app_or in X as [X|X]; [now apply F in X|].
        split; [cbn; auto 10|].
        destruct (ending W); cbn in X;
          [reflexivity | destruct X | destruct X as [X|[]]; discriminate].
      * intros [_ He]. rewrite He. right. apply in_or_app. right. now left.
    + rewrite (main_bind_fails W ports dirs n message H Hn Hb).
      cbn [fst proc_stderr events]. split; [apply Ht|].
      intros [[E|[E|[E|[E|[]]]]] _]; discriminate.
Qed.

(** *** The responses, chunk by chunk *)

Section Exact.
Import BaseHTTPRequestHandler SimpleHTTPRequestHandler.
Variable P : platform.
Variable FS : filesystem.

Lemma send_error_exact (code : Z) (message explain : option string)
  (h : handler) :
  request_version h <> "HTTP/0.9" ->
  200 <= code ->
  bodyless code = false ->
  exists h',
    send_error P CORSRequestHandler.end_headers code message explain h
    = Ok tt h'
    /\ wfile h'
       = app (wfile h)
           (header_chunk P h code (Some (error_message code message))
              [header_line "Connection" "close";
               header_line "Content-Type" error_content_type;
               header_line "Content-Length"
                 (Py.str_of_int (Py.len (error_page code message explain)))]
            :: (if is_head h || (error_page code message explain =? "")
                then [] else [error_page code message explain]))
    /\ close_connection h' = true
    /\ _headers_buffer h' = Some []
    /\ request_of h' = request_of h
    /\ accesses h' = accesses h.
Proof.
  intros Hv Hc Hb.
  unfold send_error, log_error.
  cbv zeta. fold (error_message code message).
  fold (error_explain code explain).
  fold (error_page code message explain).
  exec Hv.
  replace (Z.leb 200 code) with true by (symmetry; now apply Z.leb_le).
  rewrite Hb. cbn [andb negb].
  exec Hv. fold (is_head h). unfold header_chunk.
  assert (Hj : forall l,
             Py.join_bytes
               (buffer_of h
                ++ response_lines P code (Some (error_message code message))
                ++ l)
             = pending h
               ++ Py.join_bytes
                    (response_lines P code (Some (error_message code message))
                     ++ l)%list)
    by (intros l; apply pending_buffer_app).
  destruct (is_head h); cbn [negb andb orb];
    [|destruct (error_page code message explain =? ""); cbn [negb]];
    (eexists; split; [reflexivity|]); repeat split;
    cbn [wfile with_output set_wfile]; rewrite <- !app_assoc, Hj;
    cbn [app]; now rewrite append_assoc.
Qed.

(** [send_head] up to the test of [isdir]. *)
Lemma send_head_isdir h :
  let p := translate_path P (directory h) (self_path h) in
  send_head P FS CORSRequestHandler.end_headers h
  = (if fs_isdir FS p then
       if negb (Py.endswith (urlsplit_path P (self_path h)) "/") then
         send_response P 301 None ;;
         send_header "Location" (redirect_url P (self_path h)) ;;
         send_header "Content-Length" "0" ;;
         CORSRequestHandler.end_headers ;;
         ret None
       else
         i1 <- isfile FS (posixpath.join p "index.html") ;;
         if i1
         then send_file_head P FS CORSRequestHandler.end_headers
                (posixpath.join p "index.html")
         else
           i2 <- isfile FS (posixpath.join p "index.htm") ;;
           if i2
           then send_file_head P FS CORSRequestHandler.end_headers
                  (posixpath.join p "index.htm")
           else list_directory P FS CORSRequestHandler.end_headers p
     else send_file_head P FS CORSRequestHandler.end_headers p)
      (set_accesses (accesses h ++ [FsIsdir p]) h).
Proof. reflexivity. Qed.

(** The file at [p] is opened and its headers are sent. *)
Lemma send_file_head_run h p f :
  request_version h <> "HTTP/0.9" ->
  Py.endswith p "/" = false ->
  fs_open FS p = Opened f ->
  headers_mem (headers h) "If-Modified-Since" = false ->
  send_file_head P FS CORSRequestHandler.end_headers p h
  = Ok (Some f)
      (with_output h (close_connection h) (Some [])
         (app (wfile h)
            [header_chunk P h 200 None
               [header_line "Content-type" (guess_type P p);
                header_line "Content-Length" (Py.str_of_int (st_size f));
                header_line "Last-Modified" (format_date P (st_mtime f))]])
         (app (stderr h)
            [log_entry P h (Py.DQUOTE ++ requestline h ++ Py.DQUOTE
                            ++ " 200 -")])
         (app (accesses h) [FsOpen p])).
Proof.
  intros Hv He Ho Hm. unfold send_file_head. rewrite He.
  unfold bind at 1, record_access at 1, modify at 1. rewrite Ho.
  unfold bind at 1, get at 1. cbn [headers set_accesses]. rewrite Hm.
  cbn [andb].
  assert (Hv' : request_version (set_accesses (accesses h ++ [FsOpen p]) h)
                <> "HTTP/0.9") by exact Hv.
  exec Hv'.
  unfold ret, header_chunk.
  change (buffer_of (set_accesses (accesses h ++ [FsOpen p]) h))
    with (buffer_of h).
  rewrite <- !app_assoc, pending_buffer_app, append_assoc. reflexivity.
Qed.

(** X8.  A [GET] handled with a request version other than HTTP/0.9 for
    a path that is no directory, does not end with a separator and can be
    opened, without [If-Modified-Since]: one header chunk is sent, with the
    status line [200 OK], [Server], [Date], [Content-type],
    [Content-Length] (the size of the file) and [Last-Modified], then the
    four lines of the override and the blank line; then the content of the
    file, if it is not empty.  [HEAD] sends the same header chunk and no
    content.  The file-system calls are [isdir] and [open] on the
    translated path. *)
Theorem get_sends_headers_then_file (h : handler) (f : file) :
  request_version h <> "HTTP/0.9" ->
  let p := translate_path P (directory h) (self_path h) in
  fs_isdir FS p = false ->
  Py.endswith p "/" = false ->
  fs_open FS p = Opened f ->
  headers_mem (headers h) "If-Modified-Since" = false ->
  let head :=
    header_chunk P h 200 None
      [header_line "Content-type" (guess_type P p);
       header_line "Content-Length" (Py.str_of_int (st_size f));
       header_line "Last-Modified" (format_date P (st_mtime f))] in
  (exists h',
      CORSRequestHandler.do_GET P FS h = Ok tt h'
      /\ wfile h'
         = app (wfile h)
             (head :: if content f =? "" then [] else [content f])
      /\ accesses h' = app (accesses h) [FsIsdir p; FsOpen p])
  /\ (exists h',
         CORSRequestHandler.do_HEAD P FS h = Ok tt h'
         /\ wfile h' = app (wfile h) [head]
         /\ accesses h' = app (accesses h) [FsIsdir p; FsOpen p]).
Proof.
  intros Hv p Hd He Ho Hm head.
  assert (E : send_head P FS CORSRequestHandler.end_headers h
              = Ok (Some f)
                  (with_output h (close_connection h) (Some [])
                     (app (wfile h) [head])
                     (app (stderr h)
                        [log_entry P h
                           (Py.DQUOTE ++ requestline h ++ Py.DQUOTE
                            ++ " 200 -")])
                     (app (accesses h) [FsIsdir p; FsOpen p]))).
  { rewrite send_head_isdir. fold p. rewrite Hd.
    rewrite (send_file_head_run
               (set_accesses (accesses h ++ [FsIsdir p]) h) p f Hv He Ho Hm).
    unfold with_output.
    cbn [wfile stderr accesses close_connection directory client_address
         requestline command path request_version headers set_accesses
         _headers_buffer].
    now rewrite <- app_assoc. }
  split.
  - unfold CORSRequestHandler.do_GET, do_GET.
    rewrite (bind_Ok _ _ _ _ _ E). unfold copyfile.
    destruct (content f =? ""); eexists; (split; [reflexivity|]);
      cbn; rewrite <- ?app_assoc; split; reflexivity.
  - unfold CORSRequestHandler.do_HEAD, do_HEAD.
    rewrite (bind_Ok _ _ _ _ _ E). eexists. split; [reflexivity|].
    split; reflexivity.
Qed.

(** X14.  An error response for a status code from 200 on that has a
    body, on a request that is not HTTP/0.9: one header chunk with the
    status line, [Server], [Date], [Connection: close], [Content-Type] and
    a [Content-Length] that is the length of the page as it is sent, then
    the four lines of the override and the blank line; then the page,
    unless the request is a [HEAD].  The connection is to be closed, and
    the request and the file-system calls are left alone. *)
Theorem error_reply_is_consistent (code : Z) (message explain : option string)
  (h : handler) :
  request_version h <> "HTTP/0.9" ->
  200 <= code ->
  bodyless code = false ->
  exists h',
    CORSRequestHandler.send_error P code message explain h = Ok tt h'
    /\ wfile h'
       = app (wfile h)
           (header_chunk P h code (Some (error_message code message))
              [header_line "Connection" "close";
               header_line "Content-Type" error_content_type;
               header_line "Content-Length"
                 (Py.str_of_int (Py.len (error_page code message explain)))]
            :: (if is_head h || (error_page code message explain =? "")
                then [] else [error_page code message explain]))
    /\ close_connection h' = true
    /\ _headers_buffer h' = Some []
    /\ request_of h' = request_of h
    /\ accesses h' = accesses h.
Proof. unfold CORSRequestHandler.send_error. apply send_error_exact. Qed.

Lemma error_page_nonempty code message explain :
  (error_page code message explain =? "") = false.
Proof. reflexivity. Qed.

(** X9.  A [GET] handled with a request version other than HTTP/0.9 for
    a directory whose request path does not end with a separator is
    redirected: one header chunk with the status line [301 Moved
    Permanently], [Location], [Content-Length: 0] and the four lines of the
    override, no body, and no file-system call other than [isdir]. *)
Theorem directory_without_slash_is_redirected (h : handler) :
  request_version h <> "HTTP/0.9" ->
  let p := translate_path P (directory h) (self_path h) in
  fs_isdir FS p = true ->
  Py.endswith (urlsplit_path P (self_path h)) "/" = false ->
  exists h',
    CORSRequestHandler.do_GET P FS h = Ok tt h'
    /\ wfile h'
       = app (wfile h)
           [header_chunk P h 301 None
              [header_line "Location" (redirect_url P (self_path h));
               header_line "Content-Length" "0"]]
    /\ accesses h' = app (accesses h) [FsIsdir p].
Proof.
  intros Hv p Hd He.
  assert (E : send_head P FS CORSRequestHandler.end_headers h
              = Ok None
                  (with_output h (close_connection h) (Some [])
                     (app (wfile h)
                        [header_chunk P h 301 None
                           [header_line "Location"
                              (redirect_url P (self_path h));
                            header_line "Content-Length" "0"]])
                     (app (stderr h)
                        [log_entry P h
                           (Py.DQUOTE ++ requestline h ++ Py.DQUOTE
                            ++ " 301 -")])
                     (app (accesses h) [FsIsdir p]))).
  { rewrite send_head_isdir. fold p. rewrite Hd, He. cbn [negb].
    assert (Hv' : request_version
                    (set_accesses (accesses h ++ [FsIsdir p]) h)
                  <> "HTTP/0.9") by exact Hv.
    exec Hv'. unfold ret, header_chunk.
    change (buffer_of (set_accesses (accesses h ++ [FsIsdir p]) h))
      with (buffer_of h).
    rewrite <- !app_assoc, pending_buffer_app, append_assoc. reflexivity. }
  unfold CORSRequestHandler.do_GET, do_GET.
  rewrite (bind_Ok _ _ _ _ _ E). eexists. split; [reflexivity|].
  split; reflexivity.
Qed.

(** An empty request line is not parsed. *)
Lemma parse_request_empty (r : request) (h : handler) :
  raw_requestline r = "" ->
  exists h',
    parse_request P CORSRequestHandler.end_headers r h = Ok false h'.
Proof.
  intros H. unfold parse_request. rewrite H. eexists. reflexivity.
Qed.

(** X7.  A request whose method is none of [GET], [HEAD] and [OPTIONS]
    (the comparison is on the exact word), parsed with a request version
    other than HTTP/0.9, is answered by [501 Unsupported method (...)]: one
    header chunk with [Connection: close], the content type and the length
    of the page and the four lines of the override, then the page; nothing
    was sent while the request was parsed, no file-system call is made and
    the connection is to be closed. *)
Theorem unsupported_method_is_501 (r : request) (h h1 : handler)
  (c : string) :
  Py.len (raw_requestline r) <= 65536 ->
  parse_request P CORSRequestHandler.end_headers r h = Ok true h1 ->
  command h1 = Some c ->
  c <> "GET" -> c <> "HEAD" -> c <> "OPTIONS" ->
  request_version h1 <> "HTTP/0.9" ->
  let message := Some ("Unsupported method (" ++ repr P c ++ ")") in
  exists h',
    CORSRequestHandler.handle_one_request P FS r h = Ok tt h'
    /\ wfile h1 = wfile h
    /\ wfile h'
       = app (wfile h1)
           [header_chunk P h1 501 message
              [header_line "Connection" "close";
               header_line "Content-Type" error_content_type;
               header_line "Content-Length"
                 (Py.str_of_int (Py.len (error_page 501 message None)))];
            error_page 501 message None]
    /\ close_connection h' = true
    /\ accesses h' = accesses h1.
Proof.
  intros Hl Hp Hc Hg Hh Ho Hv message.
  unfold CORSRequestHandler.handle_one_request, handle_one_request.
  replace (Z.ltb 65536 (Py.len (raw_requestline r))) with false
    by (symmetry; apply Z.ltb_ge; lia).
  destruct (raw_requestline r =? "") eqn:Hraw.
  { apply String.eqb_eq in Hraw.
    destruct (parse_request_empty r h Hraw) as (h0 & E0). congruence. }
  rewrite (bind_Ok _ _ _ _ _ Hp). cbn [negb].
  unfold bind at 1, get at 1. rewrite Hc.
  unfold CORSRequestHandler.lookup_method.
  apply String.eqb_neq in Hg, Hh, Ho. rewrite Hg, Hh, Ho.
  destruct (send_error_exact 501 message None h1 Hv)
    as (h' & E & Hw & Hcc & _ & _ & Ha); [lia | reflexivity |].
  exists h'.
  split; [exact E|].
  pose proof (parses_request P r h) as Hq. rewrite Hp in Hq.
  destruct Hq as [Hw1 _]. split; [exact Hw1|].
  assert (Hn : is_head h1 = false) by (unfold is_head; now rewrite Hc).
  rewrite Hn, error_page_nonempty in Hw. cbn [orb] in Hw.
  repeat split; assumption.
Qed.

(** X10.  A request line of more than 65536 characters is not parsed: it
    is answered by [414 Request-URI Too Long] with [Connection: close], the
    four lines of the override and the page of the error; the request line
    of the handler is empty, the connection is to be closed and no
    file-system call is made. *)
Theorem oversized_request_line_is_414 (r : request) (h : handler) :
  65536 < Py.len (raw_requestline r) ->
  exists h',
    CORSRequestHandler.handle_one_request P FS r h = Ok tt h'
    /\ wfile h'
       = app (wfile h)
           [header_chunk P h 414 (Some "Request-URI Too Long")
              [header_line "Connection" "close";
               header_line "Content-Type" error_content_type;
               header_line "Content-Length"
                 (Py.str_of_int (Py.len (error_page 414 None None)))];
            error_page 414 None None]
    /\ requestline h' = ""
    /\ close_connection h' = true
    /\ accesses h' = accesses h.
Proof.
  intros Hl.
  unfold CORSRequestHandler.handle_one_request, handle_one_request.
  replace (Z.ltb 65536 (Py.len (raw_requestline r))) with true
    by (symmetry; now apply Z.ltb_lt).
  unfold bind at 1, modify at 1. unfold bind at 1, modify at 1.
  unfold bind at 1, modify at 1.
  set (st := set_command (Some "")
               (set_request_version "" (set_requestline "" h))).
  assert (Hv : request_version st <> "HTTP/0.9") by (cbn; discriminate).
  assert (H200 : 200 <= 414) by lia.
  destruct (send_error_exact 414 None None st Hv H200 eq_refl)
    as (h' & E & Hw & Hcc & _ & Hr & Ha).
  exists h'.
  split; [exact E|].
  rewrite error_page_nonempty in Hw.
  change (is_head st) with false in Hw. cbn [orb] in Hw.
  change (wfile st) with (wfile h) in Hw.
  change (header_chunk P st) with (header_chunk P h) in Hw.
  change (error_message 414 None) with "Request-URI Too Long" in Hw.
  split; [exact Hw|].
  unfold request_of in Hr. repeat split; try assumption.
  injection Hr as _ _ Hq _ _ _ _. exact Hq.
Qed.

End Exact.

Lemma get_sends_headers_then_file_witness :
  let h := Demo.parsed "GET /a.txt HTTP/1.1" in
  let f := mkFile "hello" 5 0 in
  let p :=
    SimpleHTTPRequestHandler.translate_path Demo.P (directory h) (self_path h)
  in
  request_version h <> "HTTP/0.9"
  /\ fs_isdir Demo.FS p = false
  /\ Py.endswith p "/" = false
  /\ fs_open Demo.FS p = Opened f
  /\ BaseHTTPRequestHandler.headers_mem (headers h) "If-Modified-Since"
     = false
  /\ exists h',
       CORSRequestHandler.do_GET Demo.P Demo.FS h = Ok tt h'
       /\ wfile h'
          = app (wfile h)
              [header_chunk Demo.P h 200 None
                 [header_line "Content-type" "text/plain";
                  header_line "Content-Length" "5";
                  header_line "Last-Modified" Demo.epoch];
               "hello"].
Proof.
  cbv zeta.
  assert (H1 : request_version (Demo.parsed "GET /a.txt HTTP/1.1")
               <> "HTTP/0.9") by (vm_compute; discriminate).
  assert (H2 : fs_isdir Demo.FS
                 (SimpleHTTPRequestHandler.translate_path Demo.P
                    (directory (Demo.parsed "GET /a.txt HTTP/1.1"))
                    (self_path (Demo.parsed "GET /a.txt HTTP/1.1")))
               = false) by (vm_compute; reflexivity).
  assert (H3 : Py.endswith
                 (SimpleHTTPRequestHandler.translate_path Demo.P
                    (directory (Demo.parsed "GET /a.txt HTTP/1.1"))
                    (self_path (Demo.parsed "GET /a.txt HTTP/1.1"))) "/"
               = false) by (vm_compute; reflexivity).
  assert (H4 : fs_open Demo.FS
                 (SimpleHTTPRequestHandler.translate_path Demo.P
                    (directory (Demo.parsed "GET /a.txt HTTP/1.1"))
                    (self_path (Demo.parsed "GET /a.txt HTTP/1.1")))
               = Opened (mkFile "hello" 5 0)) by (vm_compute; reflexivity).
  assert (H5 : BaseHTTPRequestHandler.headers_mem
                 (headers (Demo.parsed "GET /a.txt HTTP/1.1"))
                 "If-Modified-Since" = false) by (vm_compute; reflexivity).
  repeat (split; [assumption|]).
  destruct (proj1 (get_sends_headers_then_file Demo.P Demo.FS
                     (Demo.parsed "GET /a.txt HTTP/1.1") (mkFile "hello" 5 0)
                     H1 H2 H3 H4 H5)) as (h' & E & Hw & _).
  exists h'. split; [exact E|]. rewrite Hw. vm_compute. reflexivity.
Defined.

Lemma error_reply_is_consistent_witness :
  let h := Demo.parsed "GET /missing.txt HTTP/1.1" in
  request_version h <> "HTTP/0.9"
  /\ 200 <= 404
  /\ BaseHTTPRequestHandler.bodyless 404 = false
  /\ exists h',
       CORSRequestHandler.send_error Demo.P 404 (Some "File not found") None h
       = Ok tt h'
       /\ close_connection h' = true.
Proof.
  cbv zeta.
  assert (H1 : request_version (Demo.parsed "GET /missing.txt HTTP/1.1")
               <> "HTTP/0.9") by (vm_compute; discriminate).
  assert (H2 : 200 <= 404) by lia.
  assert (H3 : BaseHTTPRequestHandler.bodyless 404 = false) by reflexivity.
  repeat (split; [assumption|]).
  destruct (error_reply_is_consistent Demo.P 404 (Some "File not found") None
              (Demo.parsed "GET /missing.txt HTTP/1.1") H1 H2 H3)
    as (h' & E & _ & Hc & _).
  exists h'. split; [exact E | exact Hc].
Defined.

Lemma directory_without_slash_is_redirected_witness :
  let h := Demo.parsed "GET /. HTTP/1.1" in
  let p :=
    SimpleHTTPRequestHandler.translate_path Demo.P (directory h) (self_path h)
  in
  request_version h <> "HTTP/0.9"
  /\ fs_isdir Demo.FS p = true
  /\ Py.endswith (urlsplit_path Demo.P (self_path h)) "/" = false
  /\ exists h',
       CORSRequestHandler.do_GET Demo.P Demo.FS h = Ok tt h'
       /\ wfile h'
          = app (wfile h)
              [header_chunk Demo.P h 301 None
                 [header_line "Location" "/./";
                  header_line "Content-Length" "0"]].
Proof.
  cbv zeta.
  assert (H1 : request_version (Demo.parsed "GET /. HTTP/1.1")
               <> "HTTP/0.9") by (vm_compute; discriminate).
  assert (H2 : fs_isdir Demo.FS
                 (SimpleHTTPRequestHandler.translate_path Demo.P
                    (directory (Demo.parsed "GET /. HTTP/1.1"))
                    (self_path (Demo.parsed "GET /. HTTP/1.1")))
               = true) by (vm_compute; reflexivity).
  assert (H3 : Py.endswith
                 (urlsplit_path Demo.P
                    (self_path (Demo.parsed "GET /. HTTP/1.1"))) "/"
               = false) by (vm_compute; reflexivity).
  repeat (split; [assumption|]).
  destruct (directory_without_slash_is_redirected Demo.P Demo.FS
              (Demo.parsed "GET /. HTTP/1.1") H1 H2 H3) as (h' & E & Hw & _).
  exists h'. split; [exact E|]. rewrite Hw. vm_compute. reflexivity.
Defined.

Lemma unsupported_method_is_501_witness :
  let r := Demo.request "POST /a.txt HTTP/1.1" in
  let h1 := Demo.parsed "POST /a.txt HTTP/1.1" in
  Py.len (BaseHTTPRequestHandler.raw_requestline r) <= 65536
  /\ BaseHTTPRequestHandler.parse_request Demo.P
       CORSRequestHandler.end_headers r Demo.fresh = Ok true h1
  /\ command h1 = Some "POST"
  /\ request_version h1 <> "HTTP/0.9"
  /\ exists h',
       CORSRequestHandler.handle_one_request Demo.P Demo.FS r Demo.fresh
       = Ok tt h'
       /\ close_connection h' = true
       /\ accesses h' = [].
Proof.
  cbv zeta.
  assert (H1 : Py.len (BaseHTTPRequestHandler.raw_requestline
                         (Demo.request "POST /a.txt HTTP/1.1")) <= 65536)
    by (vm_compute; discriminate).
  assert (H2 : BaseHTTPRequestHandler.parse_request Demo.P
                 CORSRequestHandler.end_headers
                 (Demo.request "POST /a.txt HTTP/1.1") Demo.fresh
               = Ok true (Demo.parsed "POST /a.txt HTTP/1.1"))
    by (vm_compute; reflexivity).
  assert (H3 : command (Demo.parsed "POST /a.txt HTTP/1.1") = Some "POST")
    by (vm_compute; reflexivity).
  assert (H4 : request_version (Demo.parsed "POST /a.txt HTTP/1.1")
               <> "HTTP/0.9") by (vm_compute; discriminate).
  repeat (split; [assumption|]).
  assert (Hg : "POST" <> "GET") by discriminate.
  assert (Hh : "POST" <> "HEAD") by discriminate.
  assert (Ho : "POST" <> "OPTIONS") by discriminate.
  destruct (unsupported_method_is_501 Demo.P Demo.FS
              (Demo.request "POST /a.txt HTTP/1.1") Demo.fresh
              (Demo.parsed "POST /a.txt HTTP/1.1") "POST"
              H1 H2 H3 Hg Hh Ho H4) as (h' & E & _ & _ & Hc & Ha).
  exists h'. split; [exact E|]. split; [exact Hc|]. rewrite Ha.
  vm_compute. reflexivity.
Defined.

Lemma oversized_request_line_is_414_witness :
  let r :=
    Demo.long_request in
  65536 < Py.len (BaseHTTPRequestHandler.raw_requestline r)
  /\ exists h',
       CORSRequestHandler.handle_one_request Demo.P Demo.FS r Demo.fresh
       = Ok tt h'
       /\ requestline h' = ""
       /\ close_connection h' = true.
Proof.
  cbv zeta.
  assert (H : 65536
              < Py.len (BaseHTTPRequestHandler.raw_requestline
                          Demo.long_request))
    by (vm_compute; reflexivity).
  split; [exact H|].
  destruct (oversized_request_line_is_414 Demo.P Demo.FS
              Demo.long_request Demo.fresh H) as (h' & E & _ & Hq & Hc & _).
  exists h'. split; [exact E|]. split; [exact Hq | exact Hc].
Defined.

(** *** The options of the command line *)

Lemma convert_ports_app default ports s :
  argparse.convert_ports default (ports ++ [s])
  = match argparse.convert_ports default ports with
    | inl bad => inl bad
    | inr _ => match Py.int s with Some n => inr n | None => inl s end
    end.
Proof.
  revert default. induction ports as [|x ports IH]; intros default; cbn.
  - now destruct (Py.int s).
  - destruct (Py.int x); [apply IH | reflexivity].
Qed.

Lemma convert_ports_valid default ports :
  Forall (fun x => Py.int x <> None) ports ->
  exists n, argparse.convert_ports default ports = inr n.
Proof.
  revert default. induction ports as [|x ports IH]; intros default H; cbn.
  - now exists default.
  - inversion H as [|? ? Hx Hr]; subst.
    destruct (Py.int x) as [v|]; [now apply IH | contradiction].
Qed.

(** X11.  When [--port/-p] and [--dir/-d] are given several times and
    every value of the port is an integer, the last value of each option is
    the one in the namespace. *)
Theorem last_option_wins (P : platform) (prog : string)
  (ports dirs : list string) (s d : string) (n : Z) (p : process) :
  Forall (fun x => Py.int x <> None) ports ->
  Py.int s = Some n ->
  argparse.parse_args P prog (CliOptions (ports ++ [s]) (dirs ++ [d])) p
  = (p, inr (mkNamespace n d)).
Proof.
  intros Hp Hs. unfold argparse.parse_args. rewrite convert_ports_app.
  destruct (convert_ports_valid 8000 ports Hp) as (m & ->).
  rewrite Hs. now rewrite last_last.
Qed.

Lemma last_option_wins_witness :
  Forall (fun x => Py.int x <> None) ["8000"; "9000"]
  /\ Py.int "8080" = Some 8080
  /\ argparse.parse_args Demo.P "serve_cors.py"
       (CliOptions (["8000"; "9000"] ++ ["8080"]) (["a"] ++ ["b"])) start
     = (start, inr (mkNamespace 8080 "b")).
Proof.
  assert (H1 : Forall (fun x => Py.int x <> None) ["8000"; "9000"])
    by (repeat constructor; vm_compute; discriminate).
  assert (H2 : Py.int "8080" = Some 8080) by (vm_compute; reflexivity).
  split; [exact H1|]. split; [exact H2|].
  exact (last_option_wins Demo.P "serve_cors.py" ["8000"; "9000"] ["a"]
           "8080" "b" 8080 start H1 H2).
Defined.

(** *** The query string of a request path *)

Lemma chars_append (a b : string) :
  Py.chars (a ++ b) = (Py.chars a ++ Py.chars b)%list.
Proof. induction a as [|c a IH]; cbn; [reflexivity | now rewrite IH]. Qed.

Lemma before_app (sep : ascii) (a b : list ascii) :
  Py.before sep (a ++ sep :: b) = Py.before sep a.
Proof.
  induction a as [|c a IH]; cbn.
  - now rewrite Ascii.eqb_refl.
  - destruct (Ascii.eqb c sep); [reflexivity | now rewrite IH].
Qed.

Lemma before_absent (sep : ascii) (a : list ascii) :
  ~ In sep a -> Py.before sep a = a.
Proof.
  induction a as [|c a IH]; cbn; [reflexivity|]. intros H.
  destruct (Ascii.eqb c sep) eqn:E.
  - apply Ascii.eqb_eq in E. exfalso. auto.
  - rewrite IH; auto.
Qed.

Lemma split1_head_app (s t : string) (sep : ascii) :
  Py.split1_head (s ++ String sep t) sep = Py.split1_head s sep.
Proof.
  unfold Py.split1_head. rewrite chars_append. cbn.
  now rewrite before_app.
Qed.

Lemma split1_head_absent (s : string) (sep : ascii) :
  ~ In sep (Py.chars s) -> Py.split1_head s sep = s.
Proof.
  intros H. unfold Py.split1_head. rewrite before_absent by exact H.
  apply string_of_list_ascii_of_string.
Qed.

Lemma before_before (sep1 sep2 : ascii) (a b : list ascii) :
  ~ In sep1 a ->
  Py.before sep2 (Py.before sep1 (a ++ sep2 :: b)) = Py.before sep2 a.
Proof.
  induction a as [|c a IH]; cbn; intros H.
  - destruct (Ascii.eqb sep2 sep1); cbn; [reflexivity|].
    now rewrite Ascii.eqb_refl.
  - destruct (Ascii.eqb c sep1) eqn:E.
    + apply Ascii.eqb_eq in E. exfalso. auto.
    + cbn. destruct (Ascii.eqb c sep2); [reflexivity|].
      rewrite IH; auto.
Qed.

(** X13.  The query string and the fragment of a request path are
    ignored when the path is translated: a path without [?] translates to
    the same file-system path when [?] or [#] and any text are added to
    it. *)
Theorem query_and_fragment_are_ignored (P : platform)
  (root path rest : string) :
  ~ In "?"%char (Py.chars path) ->
  SimpleHTTPRequestHandler.translate_path P root (path ++ "?" ++ rest)
  = SimpleHTTPRequestHandler.translate_path P root path
  /\ SimpleHTTPRequestHandler.translate_path P root (path ++ "#" ++ rest)
     = SimpleHTTPRequestHandler.translate_path P root path.
Proof.
  intros H.
  assert (E1 : Py.split1_head (Py.split1_head (path ++ "?" ++ rest) "?") "#"
               = Py.split1_head (Py.split1_head path "?") "#").
  { change (path ++ "?" ++ rest) with (path ++ String "?" rest).
    now rewrite split1_head_app. }
  assert (E2 : Py.split1_head (Py.split1_head (path ++ "#" ++ rest) "?") "#"
               = Py.split1_head (Py.split1_head path "?") "#").
  { rewrite (split1_head_absent path "?" H).
    change (path ++ "#" ++ rest) with (path ++ String "#" rest).
    unfold Py.split1_head. rewrite chars_str, chars_append.
    change (Py.chars (String "#" rest)) with ("#"%char :: Py.chars rest).
    now rewrite before_before. }
  unfold SimpleHTTPRequestHandler.translate_path. cbv zeta.
  rewrite E1, E2. split; reflexivity.
Qed.

Lemma query_and_fragment_are_ignored_witness :
  ~ In "?"%char (Py.chars "/a.txt")
  /\ SimpleHTTPRequestHandler.translate_path Demo.P "public"
       ("/a.txt" ++ "?" ++ "v=2#top")
     = SimpleHTTPRequestHandler.translate_path Demo.P "public" "/a.txt"
  /\ SimpleHTTPRequestHandler.translate_path Demo.P "public"
       ("/a.txt" ++ "#" ++ "v=2#top")
     = SimpleHTTPRequestHandler.translate_path Demo.P "public" "/a.txt".
Proof.
  assert (H : ~ In "?"%char (Py.chars "/a.txt"))
    by (cbn; intuition discriminate).
  split; [exact H|].
  exact (query_and_fragment_are_ignored Demo.P "public" "/a.txt" "v=2#top" H).
Defined.

(** *** Integers written and read back *)

Lemma digits_acc (d : Decimal.uint) (acc : positive) (count : nat) :
  Py.digits (Z.pos acc) count true (Py.chars (NilEmpty.string_of_uint d))
  = Some (Z.pos (Pos.of_uint_acc d acc), (count + Decimal.nb_digits d)%nat).
Proof.
  revert acc count.
  induction d as [|d IH|d IH|d IH|d IH|d IH|d IH|d IH|d IH|d IH|d IH];
    intros acc count;
    cbn [NilEmpty.string_of_uint Py.chars list_ascii_of_string Py.digits
         Pos.of_uint_acc Decimal.nb_digits];
    [ now rewrite Nat.add_0_r | .. ];
    change (Py.is_digit _) with true; cbv iota;
    rewrite Nat.add_succ_r;
    match goal with
    | |- Py.digits ?v _ _ _ = Some (Z.pos (Pos.of_uint_acc _ ?a), _) =>
        replace v with (Z.pos a)
          by (match goal with
              | |- context [Py.digit_val ?c] =>
                  let k := eval vm_compute in (Py.digit_val c) in
                  change (Py.digit_val c) with k
              end; lia)
    end;
    apply IH.
Qed.

Lemma digits_zero (d : Decimal.uint) (count : nat) :
  Py.digits 0 count true (Py.chars (NilEmpty.string_of_uint d))
  = Some (Z.of_N (Pos.of_uint d), (count + Decimal.nb_digits d)%nat).
Proof.
  revert count.
  induction d as [|d IH|d IH|d IH|d IH|d IH|d IH|d IH|d IH|d IH|d IH];
    intros count;
    cbn [NilEmpty.string_of_uint Py.chars list_ascii_of_string Py.digits
         Pos.of_uint Decimal.nb_digits];
    [ now rewrite Nat.add_0_r | .. ];
    change (Py.is_digit _) with true; cbv iota;
    rewrite Nat.add_succ_r;
    [ apply IH | .. ];
    match goal with
    | |- Py.digits ?v _ _ _ = Some (Z.of_N (N.pos (Pos.of_uint_acc _ ?a)), _) =>
        change v with (Z.pos a)
    end;
    apply digits_acc.
Qed.

Lemma digit_not_space (c : ascii) :
  Py.is_digit c = true -> Py.int_space c = false.
Proof.
  destruct c as [[] [] [] [] [] [] [] []]; intros H;
    first [ reflexivity | discriminate H ].
Qed.

Lemma digit_not_sign (c : ascii) :
  Py.is_digit c = true -> Ascii.eqb c "-" = false /\ Ascii.eqb c "+" = false.
Proof.
  destruct c as [[] [] [] [] [] [] [] []]; intros H;
    first [ split; reflexivity | discriminate H ].
Qed.

Lemma uint_digits (d : Decimal.uint) :
  Forall (fun c => Py.is_digit c = true)
    (Py.chars (NilEmpty.string_of_uint d)).
Proof.
  induction d; cbn [NilEmpty.string_of_uint Py.chars list_ascii_of_string];
    constructor; solve [ reflexivity | assumption ].
Qed.

Lemma uint_length (d : Decimal.uint) :
  String.length (NilEmpty.string_of_uint d) = Decimal.nb_digits d.
Proof. induction d; cbn; congruence. Qed.

Lemma dropwhile_nonspace (l : list ascii) :
  Forall (fun c => Py.int_space c = false) l ->
  Py.dropwhile Py.int_space l = l.
Proof. intros [|c r Hc _]; cbn; [reflexivity | now rewrite Hc]. Qed.

Lemma strip_nonspace (l : list ascii) :
  Forall (fun c => Py.int_space c = false) l ->
  Py.dropwhile Py.int_space (rev (Py.dropwhile Py.int_space (rev l))) = l.
Proof.
  intros H. rewrite (dropwhile_nonspace (rev l)) by now apply Forall_rev.
  rewrite rev_involutive. now apply dropwhile_nonspace.
Qed.

Lemma digits_positive (p : positive) :
  Py.digits 0 0 false (Py.chars (NilEmpty.string_of_uint (Pos.to_uint p)))
  = Some (Z.pos p, Decimal.nb_digits (Pos.to_uint p)).
Proof.
  pose proof (digits_zero (Pos.to_uint p) 0) as H.
  rewrite DecimalPos.Unsigned.of_to in H. cbn [Z.of_N Nat.add] in H.
  rewrite <- H.
  pose proof (DecimalPos.Unsigned.to_uint_nonnil p) as Hn.
  pose proof (uint_digits (Pos.to_uint p)) as Hd.
  destruct (Py.chars (NilEmpty.string_of_uint (Pos.to_uint p)))
    as [|c r] eqn:E.
  - destruct (Pos.to_uint p); [contradiction | discriminate E ..].
  - inversion Hd as [|? ? Hc _]; subst. cbn [Py.digits]. now rewrite Hc.
Qed.

Lemma string_of_uint_nonnil (d : Decimal.uint) :
  d <> Decimal.Nil -> NilZero.string_of_uint d = NilEmpty.string_of_uint d.
Proof. destruct d; [contradiction | reflexivity ..]. Qed.

(** X12.  [int] reads back what [str] writes: for every integer whose
    decimal form has at most 4300 characters, [int(str(n))] is [n].  The
    port printed by the [Serving] message, given as [--port], is that
    port. *)
Theorem int_reads_back_what_str_writes (n : Z) :
  (String.length (Py.str_of_int n) <= 4300)%nat ->
  Py.int (Py.str_of_int n) = Some n.
Proof.
  intros Hl. destruct n as [|p|p].
  - reflexivity.
  - unfold Py.str_of_int in *. cbn [Z.to_int NilZero.string_of_int] in *.
    rewrite string_of_uint_nonnil in *
      by apply DecimalPos.Unsigned.to_uint_nonnil.
    rewrite uint_length in Hl.
    pose proof (uint_digits (Pos.to_uint p)) as Hd.
    unfold Py.int. cbv zeta.
    rewrite strip_nonspace
      by (eapply Forall_impl; [apply digit_not_space | exact Hd]).
    pose proof (digits_positive p) as Hp.
    destruct (Py.chars (NilEmpty.string_of_uint (Pos.to_uint p)))
      as [|c r] eqn:E.
    + discriminate Hp.
    + inversion Hd as [|? ? Hc _]; subst.
      destruct (digit_not_sign c Hc) as [-> ->]. rewrite Hp.
      replace (Py.max_str_digits <? Decimal.nb_digits (Pos.to_uint p))%nat
        with false
        by (symmetry; apply Nat.ltb_ge; exact Hl).
      reflexivity.
  - unfold Py.str_of_int in *. cbn [Z.to_int NilZero.string_of_int] in *.
    rewrite string_of_uint_nonnil in *
      by apply DecimalPos.Unsigned.to_uint_nonnil.
    cbn [String.length] in Hl. rewrite uint_length in Hl.
    pose proof (uint_digits (Pos.to_uint p)) as Hd.
    unfold Py.int. cbv zeta.
    change (Py.chars (String "-" ?s)) with ("-"%char :: Py.chars s).
    rewrite strip_nonspace
      by (constructor;
          [reflexivity
          | eapply Forall_impl; [apply digit_not_space | exact Hd]]).
    change (Ascii.eqb "-" "-") with true. cbv iota.
    rewrite (digits_positive p).
    replace (Py.max_str_digits <? Decimal.nb_digits (Pos.to_uint p))%nat
      with false
      by (symmetry; apply Nat.ltb_ge; unfold Py.max_str_digits; lia).
    reflexivity.
Qed.

Lemma int_reads_back_what_str_writes_witness :
  (String.length (Py.str_of_int 8000) <= 4300)%nat
  /\ Py.int (Py.str_of_int 8000) = Some 8000.
Proof.
  assert (H : (String.length (Py.str_of_int 8000) <= 4300)%nat)
    by (vm_compute; lia).
  split; [exact H|].
  exact (int_reads_back_what_str_writes 8000 H).
Defined.
